(** * rClone_chunking: chunk lifecycle of [rClone_chunking.py]

    A shallow embedding of the chunking core of the script: the
    [FileSpliter] class, [scan_for_chunks], [verify_chunk_integrity],
    [zipfiles], [chunk_zip_file], [rclone_file] and the body of the main
    loop.  The file system, the external [rclone] commands and the few
    Python library functions the script calls are modelled explicitly.

    Conventions.
    - Python [int] is [Z]; a Python [float] is read as the rational number
      it denotes ([Q]) and float arithmetic as exact rational arithmetic.
    - [bytes] is [list byte]; [str] is [string].
    - The script's global variables are the fields of [State]; functions
      that read or write them are computations in the monad [M]. *)

From Stdlib Require Import String Ascii List ZArith QArith Qround Lia Bool.
From Stdlib Require Import DecimalString DecimalZ DecimalPos.
From Stdlib.Strings Require Import Byte.
Import ListNotations.

Open Scope string_scope.
Open Scope Z_scope.

(** ** Python string and path primitives *)

Module Py.

(** [str(n)] for an [int]. *)
Definition str (n : Z) : string := NilZero.string_of_int (Z.to_int n).

(** [s.startswith(p)] and [s.endswith(p)]. *)
Definition startswith (s p : string) : bool := String.prefix p s.

Definition endswith (s p : string) : bool :=
  (String.length p <=? String.length s)%nat &&
  String.eqb (substring (String.length s - String.length p) (String.length p) s) p.

(** [s.endswith(tuple(l))]: some element of [l] is a suffix of [s]. *)
Definition endswith_any (s : string) (l : list string) : bool :=
  existsb (endswith s) l.

(** [s[i:i+1]]: the character at [i] as a string, empty out of range. *)
Definition slice1 (s : string) (i : nat) : string := substring i 1 s.

(** [s[-1]] for a non-empty [s]. *)
Definition last_char (s : string) : string :=
  substring (String.length s - 1) 1 s.

(** [posixpath.join(a, b)]. *)
Definition dir_prefix (a : string) : string :=
  if String.eqb a "" || endswith a "/" then a else a ++ "/".

Definition join (a b : string) : string :=
  if startswith b "/" then b else dir_prefix a ++ b.

(** Does the character [c] occur in [s]? *)
Fixpoint mem_char (c : ascii) (s : string) : bool :=
  match s with
  | EmptyString => false
  | String d s' => Ascii.eqb c d || mem_char c s'
  end.

(** [a / b] on numbers: exact quotient, [ZeroDivisionError] as [None]. *)
Definition true_div (a b : Q) : option Q :=
  if Qeq_bool b 0 then None else Some (a / b)%Q.

(** [a < b] on numbers. *)
Definition Qltb (a b : Q) : bool := negb (Qle_bool b a).

(** [math.ceil]. *)
Definition ceil (x : Q) : Z := Qceiling x.

(** A glob matcher for the patterns of [fnmatch.fnmatch] that use only
    [*] and [?]; every other character stands for itself. *)
Fixpoint glob (pat : string) (fuel : nat) (s : string) {struct fuel} : bool :=
  match fuel with
  | O => false
  | S fuel' =>
    match pat with
    | EmptyString => match s with EmptyString => true | _ => false end
    | String "*"%char pat' =>
        glob pat' fuel' s ||
        match s with
        | EmptyString => false
        | String _ s' => glob pat fuel' s'
        end
    | String "?"%char pat' =>
        match s with
        | EmptyString => false
        | String _ s' => glob pat' fuel' s'
        end
    | String c pat' =>
        match s with
        | EmptyString => false
        | String d s' => Ascii.eqb c d && glob pat' fuel' s'
        end
    end
  end.

Definition glob_match (name pat : string) : bool :=
  glob pat (S (String.length pat + String.length name)) name.

End Py.

(** ** The file system

    Regular files are an association list from full path to contents, in
    directory order (the order [os.listdir] reports); directories are the
    list of paths that exist as directories.  A new file goes to the end
    of the listing, and writing does not ask for the parent directory. *)

Module Fs.

Record t := mk { files : list (string * list byte); dirs : list string }.

Fixpoint lookup (p : string) (l : list (string * list byte)) : option (list byte) :=
  match l with
  | [] => None
  | (q, c) :: l' => if String.eqb q p then Some c else lookup p l'
  end.

Fixpoint update (p : string) (d : list byte) (l : list (string * list byte))
  : list (string * list byte) :=
  match l with
  | [] => [(p, d)]
  | (q, c) :: l' => if String.eqb q p then (p, d) :: l' else (q, c) :: update p d l'
  end.

Fixpoint delete (p : string) (l : list (string * list byte))
  : list (string * list byte) :=
  match l with
  | [] => []
  | (q, c) :: l' => if String.eqb q p then delete p l' else (q, c) :: delete p l'
  end.

(** Contents of the regular file at [p]. *)
Definition read (p : string) (fs : t) : option (list byte) := lookup p (files fs).

(** [os.path.isfile]. *)
Definition isfile (p : string) (fs : t) : bool :=
  match read p fs with Some _ => true | None => false end.

Definition isdir (p : string) (fs : t) : bool :=
  existsb (String.eqb p) (dirs fs).

(** [os.path.exists]. *)
Definition exists_ (p : string) (fs : t) : bool := isfile p fs || isdir p fs.

(** [os.path.getsize] and [os.stat(p).st_size]; [None] when [p] is missing. *)
Definition getsize (p : string) (fs : t) : option Z :=
  match read p fs with
  | Some c => Some (Z.of_nat (List.length c))
  | None => None
  end.

(** [open(p, "w").write(d)]: create or replace the whole contents. *)
Definition write (p : string) (d : list byte) (fs : t) : t :=
  mk (update p d (files fs)) (dirs fs).

(** A further [write(d)] on a handle opened for writing on [p]. *)
Definition append (p : string) (d : list byte) (fs : t) : t :=
  match read p fs with
  | Some c => write p (c ++ d)%list fs
  | None => write p d fs
  end.

(** [os.remove]; [None] when [p] is not a file. *)
Definition remove (p : string) (fs : t) : option t :=
  if isfile p fs then Some (mk (delete p (files fs)) (dirs fs)) else None.

(** [os.makedirs]. *)
Definition makedirs (d : string) (fs : t) : t :=
  mk (files fs) (dirs fs ++ [d])%list.

(** The name of [p] inside directory [d], if [p] is directly in [d]. *)
Definition child_name (d p : string) : option string :=
  let pre := Py.dir_prefix d in
  if String.prefix pre p then
    let n := substring (String.length pre) (String.length p - String.length pre) p in
    if String.eqb n "" || Py.mem_char "/"%char n then None else Some n
  else None.

Fixpoint children (d : string) (l : list (string * list byte)) : list string :=
  match l with
  | [] => []
  | (p, _) :: l' =>
      match child_name d p with
      | Some n => n :: children d l'
      | None => children d l'
      end
  end.

(** [os.listdir] restricted to regular files; [None] when [d] is no
    directory. *)
Definition listdir (d : string) (fs : t) : option (list string) :=
  if isdir d fs then Some (children d (files fs)) else None.

End Fs.

(** ** class FileSpliter

    A method takes the object and the file system and gives both back with
    its return value.  File contents are bytes in both file types; a
    [FileType] other than ["b"] and ["t"] is taken to make the method
    raise, as the [open] of [Rebuild] or the first pass of the loop of
    [Split] does.  Printing is left out. *)

Module FileSpliter.

(** Outcome of a method call: a value, a Python exception, or the model's
    loop bound exhausted. *)
Inductive Exc (A : Type) : Type :=
| Val (a : A)
| Raised
| OutOfFuel.
Arguments Val {A} a.
Arguments Raised {A}.
Arguments OutOfFuel {A}.

Record t := mk {
  CHUNK_SIZE : Z;
  InputFile : string;
  FileType : string;
  OutFile : string;
  FileSize : Z;
  Parts : option Z;
  CurrentPartNo : Z;
  Progress : Q
}.

Definition set_FileSize (v : Z) (self : t) : t :=
  mk (CHUNK_SIZE self) (InputFile self) (FileType self) (OutFile self)
     v (Parts self) (CurrentPartNo self) (Progress self).

Definition set_Parts (v : option Z) (self : t) : t :=
  mk (CHUNK_SIZE self) (InputFile self) (FileType self) (OutFile self)
     (FileSize self) v (CurrentPartNo self) (Progress self).

Definition set_CurrentPartNo (v : Z) (self : t) : t :=
  mk (CHUNK_SIZE self) (InputFile self) (FileType self) (OutFile self)
     (FileSize self) (Parts self) v (Progress self).

Definition set_Progress (v : Q) (self : t) : t :=
  mk (CHUNK_SIZE self) (InputFile self) (FileType self) (OutFile self)
     (FileSize self) (Parts self) (CurrentPartNo self) v.

(** [__init__]. *)
Definition init (InputFile : string) (FileType : string) (CHUNK_SIZE : Z) : t :=
  mk CHUNK_SIZE InputFile FileType (InputFile ++ ".00") 0 None 1 0%Q.

(** [Prepare]: [os.path.getsize] raises when the input is missing, and the
    division raises when [CHUNK_SIZE] is zero. *)
Definition Prepare (self : t) (fs : Fs.t) : Exc (bool * t * Fs.t) :=
  match Fs.getsize (InputFile self) fs with
  | None => Raised
  | Some size =>
      let self := set_FileSize size self in
      if CHUNK_SIZE self >=? FileSize self then
        Val (true, set_Parts (Some 1) self, fs)
      else
        match Py.true_div (inject_Z (FileSize self)) (inject_Z (CHUNK_SIZE self)) with
        | None => Raised
        | Some q => Val (true, set_Parts (Some (Py.ceil q)) self, fs)
        end
  end.

(** [ProgressBar]: only [self.Progress] is kept, the printed bar is not.
    [float(self.Parts)] raises on [None], the division on zero. *)
Definition ProgressBar (self : t) : Exc t :=
  match Parts self with
  | None => Raised
  | Some parts =>
      match Py.true_div (inject_Z (CurrentPartNo self)) (inject_Z parts) with
      | None => Raised
      | Some p =>
          if Qle_bool 1 p then Val (set_Progress 1%Q self)
          else Val (set_Progress p self)
      end
  end.

(** Is ["r" + FileType] / ["w" + FileType] a mode the loops handle? *)
Definition known_type (self : t) : bool :=
  String.eqb (FileType self) "b" || String.eqb (FileType self) "t".

(** [f.read(n)] on the unread rest of an open file: the bytes read and
    the new rest.  A negative [n] reads everything. *)
Definition read_n (n : Z) (rest : list byte) : list byte * list byte :=
  if n <? 0 then (rest, [])
  else (firstn (Z.to_nat n) rest, skipn (Z.to_nat n) rest).

(** The [while True] loop of [Split]; [rest] is the unread part of the
    input handle. *)
Fixpoint Split_loop (fuel : nat) (self : t) (rest : list byte) (fs : Fs.t)
  : Exc (t * Fs.t) :=
  match fuel with
  | O => OutOfFuel
  | S fuel' =>
      if negb (known_type self) then Raised
      else
        let (buf, rest') := read_n (CHUNK_SIZE self) rest in
        match buf with
        | [] => Val (self, fs)
        | _ :: _ =>
            let of_ := OutFile self ++ Py.str (CurrentPartNo self) in
            let fs := Fs.write of_ buf fs in
            let self := set_CurrentPartNo (CurrentPartNo self + 1) self in
            match ProgressBar self with
            | Val self => Split_loop fuel' self rest' fs
            | Raised => Raised
            | OutOfFuel => OutOfFuel
            end
        end
  end.

(** [Split]. *)
Definition Split (self : t) (fs : Fs.t) : Exc (bool * t * Fs.t) :=
  if (FileSize self =? 0) || match Parts self with None => true | Some _ => false end
  then Val (false, self, fs)
  else
    match Fs.read (InputFile self) fs with
    | None => Raised
    | Some data =>
        match Split_loop (S (List.length data)) self data fs with
        | Val (self, fs) => Val (true, self, fs)
        | Raised => Raised
        | OutOfFuel => OutOfFuel
        end
    end.

(** The [while self.CurrentPartNo < self.Parts] loop of [Rebuild]; the
    output handle [f] is the file [OutFile]. *)
Fixpoint Rebuild_loop (fuel : nat) (parts : Z) (self : t) (fs : Fs.t)
  : Exc (bool * t * Fs.t) :=
  match fuel with
  | O => OutOfFuel
  | S fuel' =>
      if CurrentPartNo self <? parts then
        let If := OutFile self ++ Py.str (CurrentPartNo self) in
        if negb (Fs.isfile If fs &&
                 match Fs.getsize If fs with Some n => n >? 0 | None => false end)
        then Val (false, self, fs)
        else
          match Fs.read If fs with
          | None => Raised
          | Some [] => Val (true, self, fs)
          | Some buf =>
              let fs := Fs.append (OutFile self) buf fs in
              match Fs.remove If fs with
              | None => Raised
              | Some fs =>
                  let self := set_CurrentPartNo (CurrentPartNo self + 1) self in
                  match ProgressBar self with
                  | Val self => Rebuild_loop fuel' parts self fs
                  | Raised => Raised
                  | OutOfFuel => OutOfFuel
                  end
              end
          end
      else Val (true, self, fs)
  end.

(** [Rebuild]. *)
Definition Rebuild (self : t) (fs : Fs.t) : Exc (bool * t * Fs.t) :=
  let self := set_CurrentPartNo 0 self in
  match Parts self with
  | None => Val (false, self, fs)
  | Some parts =>
      if negb (known_type self) then Raised
      else
        let fs := Fs.write (OutFile self) [] fs in
        Rebuild_loop (S (Z.to_nat parts)) parts self fs
  end.

(** Sequencing of two method calls on the same object. *)
Definition and_then {A B} (x : Exc (A * t * Fs.t))
  (k : A -> t -> Fs.t -> Exc B) : Exc B :=
  match x with
  | Val (a, self, fs) => k a self fs
  | Raised => Raised
  | OutOfFuel => OutOfFuel
  end.

(** The idiom of [chunk_zip_file]: [if fp.Prepare(): fp.Split()]. *)
Definition prepare_and_split (InputFile FileType : string) (CHUNK_SIZE : Z)
  (fs : Fs.t) : Exc (bool * t * Fs.t) :=
  and_then (Prepare (init InputFile FileType CHUNK_SIZE) fs)
    (fun ok self fs => if ok then Split self fs else Val (false, self, fs)).

(** ... followed by [fp.Rebuild()] on the same object. *)
Definition split_then_rebuild (InputFile FileType : string) (CHUNK_SIZE : Z)
  (fs : Fs.t) : Exc (bool * t * Fs.t) :=
  and_then (prepare_and_split InputFile FileType CHUNK_SIZE fs)
    (fun _ self fs => Rebuild self fs).

End FileSpliter.

(** ** The script: configuration, collaborators and global state *)

(** The two [rclone] invocations the script makes:
    [rclone copy -vv "src" service:"dest"] through [subprocess.Popen] and
    [rclone deletefile service:"dest"] through [os.system]. *)
Inductive Command : Type :=
| RcloneCopy (src dest : string)
| RcloneDeleteFile (dest : string).

(** What launching a command gives back: the exit status of the process,
    or an exception raised by the launching call itself. *)
Inductive Outcome : Type :=
| Returned (status : Z)
| Failed.

Inductive Level : Type := WARNING | ERROR.

(** The settings at the top of the script together with the collaborators
    it relies on: the platform, [fnmatch.fnmatch], [os.path.relpath], the
    bytes [ZipFile] produces for one stored member, the outcome of an
    external command given the commands launched before it, and what
    [os.statvfs] reports as [math.ceil(free_percent)] for a path ([None]
    when it raises). *)
Record Env := mkEnv {
  root_dir : string;
  max_single_file_size : Z;
  rclone_service_name : string;
  rclone_program_location : string;
  rclone_dest_folder : string;
  extensions_to_skip : list string;
  platform_darwin : bool;
  fnmatch : string -> string -> bool;
  relpath : string -> string -> string;
  zip_store : string -> list byte -> list byte;
  run : list Command -> Command -> Outcome;
  free_percent : string -> option Z
}.

(** [max_zip_size = max_single_file_size / 100 * 80]. *)
Definition max_zip_size (E : Env) : Q :=
  (inject_Z (max_single_file_size E) / 100 * 80)%Q.

(** The file system, the commands launched so far, the warnings and
    errors logged so far, and the global variables of the script. *)
Record State := mkState {
  fs : Fs.t;
  issued : list Command;
  log : list (Level * string);
  currentpath : string;
  file : string;
  path_and_file : string;
  rclone_folder_with_chunks : string;
  outputZIP : string;
  file_to_rclone : string;
  file_size : Z;
  file_chunks : list string;
  sum_chunk_size : Z;
  chunk_number : Z;
  file_already_chunked_verified : Z;
  chunks_to_skip : list string;
  rcloning_chunks : Z;
  file_is_too_large : Z
}.

Definition set_fs (v : Fs.t) (s : State) : State :=
  mkState v (issued s) (log s) (currentpath s) (file s) (path_and_file s)
    (rclone_folder_with_chunks s) (outputZIP s) (file_to_rclone s)
    (file_size s) (file_chunks s) (sum_chunk_size s) (chunk_number s)
    (file_already_chunked_verified s) (chunks_to_skip s) (rcloning_chunks s)
    (file_is_too_large s).

Definition set_issued (v : list Command) (s : State) : State :=
  mkState (fs s) v (log s) (currentpath s) (file s) (path_and_file s)
    (rclone_folder_with_chunks s) (outputZIP s) (file_to_rclone s)
    (file_size s) (file_chunks s) (sum_chunk_size s) (chunk_number s)
    (file_already_chunked_verified s) (chunks_to_skip s) (rcloning_chunks s)
    (file_is_too_large s).

Definition set_log (v : list (Level * string)) (s : State) : State :=
  mkState (fs s) (issued s) v (currentpath s) (file s) (path_and_file s)
    (rclone_folder_with_chunks s) (outputZIP s) (file_to_rclone s)
    (file_size s) (file_chunks s) (sum_chunk_size s) (chunk_number s)
    (file_already_chunked_verified s) (chunks_to_skip s) (rcloning_chunks s)
    (file_is_too_large s).

Definition set_currentpath (v : string) (s : State) : State :=
  mkState (fs s) (issued s) (log s) v (file s) (path_and_file s)
    (rclone_folder_with_chunks s) (outputZIP s) (file_to_rclone s)
    (file_size s) (file_chunks s) (sum_chunk_size s) (chunk_number s)
    (file_already_chunked_verified s) (chunks_to_skip s) (rcloning_chunks s)
    (file_is_too_large s).

Definition set_file (v : string) (s : State) : State :=
  mkState (fs s) (issued s) (log s) (currentpath s) v (path_and_file s)
    (rclone_folder_with_chunks s) (outputZIP s) (file_to_rclone s)
    (file_size s) (file_chunks s) (sum_chunk_size s) (chunk_number s)
    (file_already_chunked_verified s) (chunks_to_skip s) (rcloning_chunks s)
    (file_is_too_large s).

Definition set_path_and_file (v : string) (s : State) : State :=
  mkState (fs s) (issued s) (log s) (currentpath s) (file s) v
    (rclone_folder_with_chunks s) (outputZIP s) (file_to_rclone s)
    (file_size s) (file_chunks s) (sum_chunk_size s) (chunk_number s)
    (file_already_chunked_verified s) (chunks_to_skip s) (rcloning_chunks s)
    (file_is_too_large s).

Definition set_rclone_folder_with_chunks (v : string) (s : State) : State :=
  mkState (fs s) (issued s) (log s) (currentpath s) (file s) (path_and_file s)
    v (outputZIP s) (file_to_rclone s) (file_size s) (file_chunks s)
    (sum_chunk_size s) (chunk_number s) (file_already_chunked_verified s)
    (chunks_to_skip s) (rcloning_chunks s) (file_is_too_large s).

Definition set_outputZIP (v : string) (s : State) : State :=
  mkState (fs s) (issued s) (log s) (currentpath s) (file s) (path_and_file s)
    (rclone_folder_with_chunks s) v (file_to_rclone s) (file_size s)
    (file_chunks s) (sum_chunk_size s) (chunk_number s)
    (file_already_chunked_verified s) (chunks_to_skip s) (rcloning_chunks s)
    (file_is_too_large s).

Definition set_file_to_rclone (v : string) (s : State) : State :=
  mkState (fs s) (issued s) (log s) (currentpath s) (file s) (path_and_file s)
    (rclone_folder_with_chunks s) (outputZIP s) v (file_size s)
    (file_chunks s) (sum_chunk_size s) (chunk_number s)
    (file_already_chunked_verified s) (chunks_to_skip s) (rcloning_chunks s)
    (file_is_too_large s).

Definition set_file_size (v : Z) (s : State) : State :=
  mkState (fs s) (issued s) (log s) (currentpath s) (file s) (path_and_file s)
    (rclone_folder_with_chunks s) (outputZIP s) (file_to_rclone s) v
    (file_chunks s) (sum_chunk_size s) (chunk_number s)
    (file_already_chunked_verified s) (chunks_to_skip s) (rcloning_chunks s)
    (file_is_too_large s).

Definition set_file_chunks (v : list string) (s : State) : State :=
  mkState (fs s) (issued s) (log s) (currentpath s) (file s) (path_and_file s)
    (rclone_folder_with_chunks s) (outputZIP s) (file_to_rclone s)
    (file_size s) v (sum_chunk_size s) (chunk_number s)
    (file_already_chunked_verified s) (chunks_to_skip s) (rcloning_chunks s)
    (file_is_too_large s).

Definition set_sum_chunk_size (v : Z) (s : State) : State :=
  mkState (fs s) (issued s) (log s) (currentpath s) (file s) (path_and_file s)
    (rclone_folder_with_chunks s) (outputZIP s) (file_to_rclone s)
    (file_size s) (file_chunks s) v (chunk_number s)
    (file_already_chunked_verified s) (chunks_to_skip s) (rcloning_chunks s)
    (file_is_too_large s).

Definition set_chunk_number (v : Z) (s : State) : State :=
  mkState (fs s) (issued s) (log s) (currentpath s) (file s) (path_and_file s)
    (rclone_folder_with_chunks s) (outputZIP s) (file_to_rclone s)
    (file_size s) (file_chunks s) (sum_chunk_size s) v
    (file_already_chunked_verified s) (chunks_to_skip s) (rcloning_chunks s)
    (file_is_too_large s).

Definition set_file_already_chunked_verified (v : Z) (s : State) : State :=
  mkState (fs s) (issued s) (log s) (currentpath s) (file s) (path_and_file s)
    (rclone_folder_with_chunks s) (outputZIP s) (file_to_rclone s)
    (file_size s) (file_chunks s) (sum_chunk_size s) (chunk_number s) v
    (chunks_to_skip s) (rcloning_chunks s) (file_is_too_large s).

Definition set_chunks_to_skip (v : list string) (s : State) : State :=
  mkState (fs s) (issued s) (log s) (currentpath s) (file s) (path_and_file s)
    (rclone_folder_with_chunks s) (outputZIP s) (file_to_rclone s)
    (file_size s) (file_chunks s) (sum_chunk_size s) (chunk_number s)
    (file_already_chunked_verified s) v (rcloning_chunks s)
    (file_is_too_large s).

Definition set_rcloning_chunks (v : Z) (s : State) : State :=
  mkState (fs s) (issued s) (log s) (currentpath s) (file s) (path_and_file s)
    (rclone_folder_with_chunks s) (outputZIP s) (file_to_rclone s)
    (file_size s) (file_chunks s) (sum_chunk_size s) (chunk_number s)
    (file_already_chunked_verified s) (chunks_to_skip s) v
    (file_is_too_large s).

Definition set_file_is_too_large (v : Z) (s : State) : State :=
  mkState (fs s) (issued s) (log s) (currentpath s) (file s) (path_and_file s)
    (rclone_folder_with_chunks s) (outputZIP s) (file_to_rclone s)
    (file_size s) (file_chunks s) (sum_chunk_size s) (chunk_number s)
    (file_already_chunked_verified s) (chunks_to_skip s) (rcloning_chunks s) v.

(** ** The monad of the script

    A computation runs from a state to a value and a new state, or stops
    with a Python exception on its way up ([Exn]) or with [SystemExit]
    raised by [sys.exit()] ([Halt]).  Both carry the state reached, and a
    bare [except:] catches both. *)

Inductive Result (A : Type) : Type :=
| Ok (a : A) (s : State)
| Exn (s : State)
| Halt (s : State).
Arguments Ok {A} a s.
Arguments Exn {A} s.
Arguments Halt {A} s.

Definition M (A : Type) : Type := State -> Result A.

Definition ret {A} (a : A) : M A := fun s => Ok a s.

Definition bind {A B} (m : M A) (k : A -> M B) : M B :=
  fun s =>
    match m s with
    | Ok a s' => k a s'
    | Exn s' => Exn s'
    | Halt s' => Halt s'
    end.

Notation "x <- m ;; k" := (bind m (fun x => k))
  (at level 61, m at next level, right associativity).
Notation "m ;; k" := (bind m (fun _ => k))
  (at level 61, right associativity).

Definition get : M State := fun s => Ok s s.
Definition modify (f : State -> State) : M unit := fun s => Ok tt (f s).
Definition raise {A} : M A := fun s => Exn s.
Definition sys_exit {A} : M A := fun s => Halt s.

(** [try: m  except: h]. *)
Definition try_except {A} (m h : M A) : M A :=
  fun s =>
    match m s with
    | Ok a s' => Ok a s'
    | Exn s' => h s'
    | Halt s' => h s'
    end.

(** A library call that raises when it has no result. *)
Definition lift_opt {A} (o : option A) : M A :=
  match o with
  | Some a => ret a
  | None => raise
  end.

(** [for x in l: body]. *)
Fixpoint for_each {A} (l : list A) (body : A -> M unit) : M unit :=
  match l with
  | [] => ret tt
  | x :: l' => body x ;; for_each l' body
  end.

(** [logging.warning] and [logging.error]; [info] and [debug] lines are
    not recorded. *)
Definition logging (lvl : Level) (msg : string) : M unit :=
  modify (fun s => set_log (log s ++ [(lvl, msg)])%list s).

(** The final state of a run, however it ended. *)
Definition final {A} (r : Result A) : State :=
  match r with
  | Ok _ s => s
  | Exn s => s
  | Halt s => s
  end.

(** ** The functions of the script *)

Section Script.

Variable E : Env.

(** [critical_failure]: the report is logged and the script exits.  The
    e-mail and the upload of the log files are not modelled. *)
Definition critical_failure {A} (critical_failure_text : string) : M A :=
  logging ERROR "CRITICAL ERROR ENCOUTERED - see below:" ;;
  logging ERROR ("REASON: " ++ critical_failure_text) ;;
  logging ERROR "rClone chunking script is terminating." ;;
  sys_exit.

(** [check_disk_space]: the [sys.exit()] inside [critical_failure] is
    raised within the [try] and caught by its bare [except:]. *)
Definition check_disk_space : M unit :=
  try_except
    (s <- get ;;
     p <- lift_opt (free_percent E (currentpath s)) ;;
     if p <? 10 then
       critical_failure
         "There is not enough space on the local drive to continue the zipping process."
     else ret tt)
    (logging WARNING
       "- Unable to check free space on the local drive. The program will continue.").

(** [if not os.path.exists(rclone_folder_with_chunks): os.makedirs(...)]. *)
Definition ensure_rclone_folder : M unit :=
  s <- get ;;
  if negb (Fs.exists_ (rclone_folder_with_chunks s) (fs s)) then
    modify (fun s => set_fs (Fs.makedirs (rclone_folder_with_chunks s) (fs s)) s)
  else ret tt.

(** [zipfiles]. *)
Definition zipfiles : M unit :=
  check_disk_space ;;
  s <- get ;;
  try_except
    (ensure_rclone_folder ;;
     s <- get ;;
     content <- lift_opt (Fs.read (path_and_file s) (fs s)) ;;
     modify (fun s =>
       set_fs (Fs.write (outputZIP s) (zip_store E (path_and_file s) content) (fs s)) s))
    (critical_failure ("Zipping of the file " ++ file s ++ " failed!")).

(** [chunk_zip_file]. *)
Definition chunk_zip_file : M unit :=
  check_disk_space ;;
  s <- get ;;
  try_except
    (ensure_rclone_folder ;;
     s <- get ;;
     match FileSpliter.prepare_and_split (outputZIP s) "b" (max_single_file_size E) (fs s) with
     | FileSpliter.Val (_, _, fs') => modify (set_fs fs')
     | FileSpliter.Raised => raise
     | FileSpliter.OutOfFuel => raise
     end)
    (critical_failure ("Chunking of the file " ++ file s ++ " failed!")).

(** The character loop [determine_dest_path_on_remote_service] runs on
    Mac OS. *)
Definition darwin_dest_path (root cur : string) : string :=
  fold_left
    (fun dest_path2 i =>
       let letter1 := Py.slice1 root i in
       let letter2 := Py.slice1 cur i in
       let dest_path2 :=
         if String.eqb letter1 letter2 then dest_path2 else dest_path2 ++ letter2 in
       if Py.startswith dest_path2 "/" then Py.last_char dest_path2 else dest_path2)
    (seq 0 (String.length cur)) "".

(** [determine_dest_path_on_remote_service]. *)
Definition determine_dest_path_on_remote_service (s : State) : string :=
  if platform_darwin E then darwin_dest_path (root_dir E) (currentpath s)
  else relpath E (currentpath s) (root_dir E).

(** Launch an external command: it is recorded once it has been started. *)
Definition launch (c : Command) : M Z :=
  s <- get ;;
  match run E (issued s) c with
  | Returned status => modify (fun s => set_issued (issued s ++ [c])%list s) ;; ret status
  | Failed => raise
  end.

(** [rclone_file].  The [KeyboardInterrupt] handler is not modelled. *)
Definition rclone_file : M unit :=
  s <- get ;;
  try_except
    (let dest_path := determine_dest_path_on_remote_service s in
     let dest_path := if String.eqb dest_path "." then "" else dest_path in
     let path_and_file_to_rclone :=
       if rcloning_chunks s =? 1
       then Py.join (rclone_folder_with_chunks s) (file_to_rclone s)
       else Py.join (currentpath s) (file_to_rclone s) in
     status <- launch (RcloneCopy path_and_file_to_rclone
                         (Py.join (rclone_dest_folder E) dest_path)) ;;
     if negb (status =? 0) then
       logging ERROR ("--- Errors found during the rcloning of " ++ file_to_rclone s)
     else ret tt)
    (critical_failure
       ("Failed to rclone " ++ file s ++ " to the " ++ rclone_service_name E ++ " service.")).

(** The test of [scan_for_chunks] on one directory entry. *)
Definition is_chunk_of (file candidate_for_chunk : string) : bool :=
  fnmatch E candidate_for_chunk (file ++ "*.zip.*") ||
  fnmatch E candidate_for_chunk (file ++ ".*").

(** The body of [for candidate_for_chunk in os.listdir(...)]. *)
Definition scan_candidate (candidate_for_chunk : string) : M unit :=
  s <- get ;;
  if is_chunk_of (file s) candidate_for_chunk then
    modify (fun s => set_file_chunks (file_chunks s ++ [candidate_for_chunk])%list s) ;;
    s <- get ;;
    candidate_chunk_size <-
      lift_opt (Fs.getsize (Py.join (rclone_folder_with_chunks s) candidate_for_chunk)
                  (fs s)) ;;
    modify (fun s => set_chunk_number (chunk_number s + 1) s) ;;
    modify (fun s => set_sum_chunk_size (sum_chunk_size s + candidate_chunk_size) s)
  else ret tt.

(** [scan_for_chunks]. *)
Definition scan_for_chunks : M Z :=
  modify (set_sum_chunk_size 0) ;;
  modify (set_chunk_number 0) ;;
  modify (set_file_chunks []) ;;
  s <- get ;;
  try_except
    (candidates <- lift_opt (Fs.listdir (rclone_folder_with_chunks s) (fs s)) ;;
     for_each candidates scan_candidate)
    (critical_failure ("Scanning for chunks for file " ++ file s ++ "failed!")) ;;
  s <- get ;;
  ret (sum_chunk_size s).

(** [file_already_chunked_verified += 1]. *)
Definition test_passed : M unit :=
  modify (fun s =>
    set_file_already_chunked_verified (file_already_chunked_verified s + 1) s).

(** The body of [for chunk_to_delete in file_chunks] in
    [verify_chunk_integrity]. *)
Definition flush_chunk (chunk_to_delete : string) : M unit :=
  s <- get ;;
  let path_to_chunk_to_delete :=
    Py.join (rclone_folder_with_chunks s) chunk_to_delete in
  fs' <- lift_opt (Fs.remove path_to_chunk_to_delete (fs s)) ;;
  modify (set_fs fs') ;;
  let dest_path := determine_dest_path_on_remote_service s in
  try_except
    (launch (RcloneDeleteFile
               (Py.join (Py.join (rclone_dest_folder E) dest_path) chunk_to_delete)) ;;
     ret tt)
    (logging ERROR "--- FAILED to remove the chunk from the destination.") ;;
  modify (fun s => set_chunks_to_skip (chunks_to_skip s ++ [chunk_to_delete])%list s).

(** The three tests at the head of [verify_chunk_integrity]; each one
    that passes adds one to [file_already_chunked_verified]. *)
Definition run_tests : M unit :=
  s <- get ;;
  (* TEST No.1 *)
  q <- lift_opt (Py.true_div (inject_Z (file_size s)) (max_zip_size E)) ;;
  let no_files_to_be_chunked := Py.ceil q in
  (if negb (chunk_number s =? no_files_to_be_chunked) then
     logging WARNING "--- WARNING! Based on current settings, the number of chunks differs!"
   else test_passed) ;;
  (* TEST No.2 *)
  (if negb (sum_chunk_size s =? file_size s) then
     logging WARNING "--- WARNING! Chunk size does not match the original file size!"
   else test_passed) ;;
  (* TEST No.3 *)
  first <- lift_opt (hd_error (file_chunks s)) ;;
  size <- lift_opt (Fs.getsize (Py.join (rclone_folder_with_chunks s) first) (fs s)) ;;
  let compare_max_chunk_size_with_existing_chunk :=
    (inject_Z size - max_zip_size E)%Q in
  if Py.Qltb 1 compare_max_chunk_size_with_existing_chunk ||
     Py.Qltb compare_max_chunk_size_with_existing_chunk (-1)
  then
    logging WARNING "--- WARNING! Max chunk size does not equal the size of the first chunk."
  else test_passed.

(** "In case one of the three tests did not pass, then remove the
    chunks." *)
Definition flush_if_failed : M unit :=
  s <- get ;;
  if file_already_chunked_verified s <? 3 then
    for_each (file_chunks s) flush_chunk
  else ret tt.

(** [verify_chunk_integrity]. *)
Definition verify_chunk_integrity : M unit :=
  modify (set_chunks_to_skip []) ;;
  try_except
    (run_tests ;; flush_if_failed)
    (critical_failure "The process of verifying chunks' integrity encoutered errors.").

(** The main loop body is cut at its own comments into four stages.

    First stage: "Check if the chunks for this large file already exist".
    In [os.path.isfile(A or os.path.isfile(B))] the string [A] is never
    empty, so the argument of the outer call is [A]. *)
Definition check_previously_chunked : M unit :=
  s <- get ;;
  if Fs.isfile (Py.join (rclone_folder_with_chunks s) (file s) ++ ".001") (fs s) then
    scan_for_chunks ;;
    verify_chunk_integrity
  else ret tt.

(** Second stage: "If the file has not been chunked before OR if the
    verification of the chunks failed, then created them again". *)
Definition create_chunks_again : M unit :=
  modify (set_file_is_too_large 1) ;;
  s <- get ;;
  (if negb (Py.endswith (file s) ".zip") then
     modify (fun s =>
       set_outputZIP (Py.join (rclone_folder_with_chunks s) (file s) ++ ".zip") s) ;;
     zipfiles ;;
     chunk_zip_file ;;
     s <- get ;;
     fs' <- lift_opt (Fs.remove (outputZIP s) (fs s)) ;;
     modify (set_fs fs')
   else
     modify (fun s => set_outputZIP (path_and_file s) s) ;;
     chunk_zip_file) ;;
  scan_for_chunks ;;
  ret tt.

(** The body of [for file_chunk in file_chunks]. *)
Definition rclone_chunk (file_chunk : string) : M unit :=
  modify (set_file_to_rclone file_chunk) ;;
  rclone_file.

(** Third stage: "Rcloning chunks to destination". *)
Definition rclone_chunks : M unit :=
  modify (set_rcloning_chunks 1) ;;
  s <- get ;;
  for_each (file_chunks s) rclone_chunk.

(** The branching on the file size that ties the stages together. *)
Definition transfer_by_size : M unit :=
  s <- get ;;
  if file_size s >? max_single_file_size E then
    (if file_already_chunked_verified s <? 3 then create_chunks_again else ret tt) ;;
    rclone_chunks
  else if file_size s <? max_single_file_size E then
    modify (fun s => set_file_to_rclone (file s) s) ;;
    rclone_file
  else ret tt.

(** The assignments at the head of the loop body. *)
Definition begin_file (file_ : string) (s : State) : State :=
  let s := set_file file_ s in
  let s := set_path_and_file (Py.join (currentpath s) (file s)) s in
  let s := set_rclone_folder_with_chunks (Py.join (currentpath s) ".rclone") s in
  let s := set_rcloning_chunks 0 s in
  let s := set_file_is_too_large 0 s in
  set_file_already_chunked_verified 0 s.

(** Is the file left out by its extension, its folder or the list of
    flushed chunks? *)
Definition skipped (s : State) : bool :=
  Py.endswith_any (file s) (extensions_to_skip E) ||
  fnmatch E (currentpath s) "*.bundle/*" ||
  Py.endswith_any (file s) (chunks_to_skip s).

(** The body of [for file in files] of the main loop.  The check of the
    hour of the day at its head is not modelled, nor are the counters
    kept for the closing statistics. *)
Definition process_file (file_ : string) : M unit :=
  modify (begin_file file_) ;;
  s <- get ;;
  if skipped s then ret tt
  else if negb (Fs.isfile (path_and_file s) (fs s)) then
    logging WARNING ("WARNING! File " ++ file s ++ " no longer exists.")
  else
    size <- lift_opt (Fs.getsize (path_and_file s) (fs s)) ;;
    modify (set_file_size size) ;;
    check_previously_chunked ;;
    transfer_by_size.

(** The body of [for currentpath, folders, files in os.walk(root_dir)]. *)
Definition process_folder (currentpath_ : string) (files : list string) : M unit :=
  modify (set_currentpath currentpath_) ;;
  modify (set_chunks_to_skip []) ;;
  if fnmatch E currentpath_ "*/.rclone" then ret tt
  else for_each files process_file.

(** The main loop over what [os.walk] yields. *)
Definition main (walk : list (string * list string)) : M unit :=
  for_each walk (fun '(currentpath_, files) => process_folder currentpath_ files).

End Script.

(** ** The verdict and the statements of the specification *)

Inductive Verdict : Type := VALID | INVALID.

(** The verdict as the main loop reads it off the counter of passed
    tests. *)
Definition verdict (s : State) : Verdict :=
  if file_already_chunked_verified s <? 3 then INVALID else VALID.

(** The planner of the specification:
    [expectedCount = max(1, ceil(itemSize / chunkSizeBytes))]. *)
Definition Plan_expectedCount (itemSize chunkSizeBytes : Z) : Z :=
  Z.max 1 (Py.ceil (inject_Z itemSize / inject_Z chunkSizeBytes)%Q).


(** The fields of a [FileSpliter] that [Split] and [Rebuild] never
    assign. *)
Definition static (self : FileSpliter.t) :=
  (FileSpliter.CHUNK_SIZE self, FileSpliter.InputFile self, FileSpliter.FileType self,
   FileSpliter.OutFile self, FileSpliter.FileSize self, FileSpliter.Parts self).



(** The chunk name of [Split]. *)
Definition part_name (InputFile : string) (CurrentPartNo : Z) : string :=
  (InputFile ++ ".00") ++ Py.str CurrentPartNo.

(** The successive reads of [c] bytes from [rest]. *)
Fixpoint pieces (fuel : nat) (c : nat) (rest : list byte) : list (list byte) :=
  match fuel with
  | O => []
  | S fuel' =>
      match rest with
      | [] => []
      | _ :: _ => firstn c rest :: pieces fuel' c (skipn c rest)
      end
  end.

Definition chunks_of (c : Z) (data : list byte) : list (list byte) :=
  pieces (List.length data) (Z.to_nat c) data.

(** Writing the parts [ps] under consecutive part names from [k] on. *)
Fixpoint write_parts (InputFile : string) (k : Z) (ps : list (list byte)) (fs : Fs.t)
  : Fs.t :=
  match ps with
  | [] => fs
  | p :: ps' => write_parts InputFile (k + 1) ps' (Fs.write (part_name InputFile k) p fs)
  end.



(** The command [verify_chunk_integrity] launches to flush the chunk [c]
    from the destination. *)
Definition chunk_delete (E : Env) (s : State) (c : string) : Command :=
  RcloneDeleteFile
    (Py.join (Py.join (rclone_dest_folder E) (determine_dest_path_on_remote_service E s)) c).

(** The size [scan_for_chunks] reads for the directory entry [c]. *)
Definition chunk_size (s : State) (c : string) : Z :=
  match Fs.getsize (Py.join (rclone_folder_with_chunks s) c) (fs s) with
  | Some n => n
  | None => 0
  end.

(** The state a scan leaves: the three accumulators set, the rest kept. *)
Definition scanned (s : State) (chunks : list string) (number sum : Z) : State :=
  set_sum_chunk_size sum (set_chunk_number number (set_file_chunks chunks s)).

(** The state after one chunk has been flushed and its remote delete has
    come back with an exit status. *)
Definition flushed (E : Env) (s : State) (c : string) : State :=
  set_chunks_to_skip (chunks_to_skip s ++ [c])%list
    (set_issued (issued s ++ [chunk_delete E s c])%list
       (set_fs (Fs.mk (Fs.delete (Py.join (rclone_folder_with_chunks s) c) (Fs.files (fs s)))
                  (Fs.dirs (fs s))) s)).

Definition is_delete (c : Command) : bool :=
  match c with
  | RcloneDeleteFile _ => true
  | RcloneCopy _ _ => false
  end.

(** The ordinals [1, ..., n] of the parts of a split. *)
Definition ordinals (n : nat) : list Z := map Z.of_nat (seq 1 n).

(** The bytes [Split] puts into part [k] (counted from 1): the [C] bytes
    from offset [(k - 1) * C] on, or what is left of them. *)
Definition slice (C : Z) (data : list byte) (k : Z) : list byte :=
  firstn (Z.to_nat C) (skipn (Z.to_nat ((k - 1) * C)) data).

(** The parts numbered from 0, as [Rebuild] reads them, laid out under
    the output name [out]. *)
Fixpoint parts_from (out : string) (k : Z) (ps : list (list byte)) (fs : Fs.t) : Prop :=
  match ps with
  | [] => True
  | p :: ps' =>
      Fs.read (out ++ Py.str k) fs = Some p /\ p <> [] /\ parts_from out (k + 1) ps' fs
  end.

(** ** A concrete environment and concrete file systems *)

(** [os.path.relpath] for a path at or below the start directory. *)
Definition demo_relpath (path start : string) : string :=
  if String.eqb path start then "."
  else substring (String.length start + 1)
         (String.length path - String.length start - 1) path.

(** A stand-in for the archive writer: a four-byte signature in front of
    the stored member. *)
Definition demo_zip (name : string) (content : list byte) : list byte :=
  ([x50; x4b; x03; x04] ++ content)%list.

Definition demo_env (mss : Z) (outcome : Outcome) : Env :=
  mkEnv "/data" mss "box" "/usr/local/bin" "backup"
    [".bundle"; ".tmp"; ".temp"; ".rclone"; ".DS_Store"]
    false Py.glob_match demo_relpath demo_zip
    (fun _ _ => outcome) (fun _ => Some 50).

Definition start_state (fs0 : Fs.t) (cur : string) : State :=
  mkState fs0 [] [] cur "" "" "" "" "" 0 [] 0 0 0 [] 0 0.

Definition bytes (n : nat) : list byte := repeat x61 n.

Definition fresh_fs (n : nat) : Fs.t :=
  Fs.mk [("/data/movie.bin", bytes n)] ["/data"].

Definition chunked_fs : Fs.t :=
  Fs.mk [("/data/movie.bin", bytes 20);
         ("/data/.rclone/movie.bin.001", bytes 8);
         ("/data/.rclone/movie.bin.002", bytes 8);
         ("/data/.rclone/movie.bin.003", bytes 4)]
        ["/data"; "/data/.rclone"].

(** A three-byte file, a ten-byte file, and two parts numbered from 0 as
    [Rebuild] looks for them. *)
Definition abc_fs : Fs.t :=
  Fs.mk [("/d/a.bin", [x01; x02; x03])] ["/d"].


Definition parts_fs : Fs.t :=
  Fs.mk [("/d/a.bin.000", [x01; x02]); ("/d/a.bin.001", [x03])] ["/d"].

Definition two_parts : FileSpliter.t :=
  FileSpliter.set_Parts (Some 2) (FileSpliter.init "/d/a.bin" "b" 2).

(** The oversized file of [fresh_fs 25] and of [chunked_fs], as the main
    loop has it in hand once the size is known. *)
Definition fresh_state : State :=
  set_file_size 25 (begin_file "movie.bin" (start_state (fresh_fs 25) "/data")).

Definition chunked_state : State :=
  set_file_size 20 (begin_file "movie.bin" (start_state chunked_fs "/data")).

(** Chunks as [Split] cuts a 25-byte archive at [max_single_file_size = 10],
    next to a source of 25 bytes. *)
Definition split_at_10_fs : Fs.t :=
  Fs.mk [("/data/movie.zip", bytes 25);
         ("/data/.rclone/movie.zip.001", bytes 10);
         ("/data/.rclone/movie.zip.002", bytes 10);
         ("/data/.rclone/movie.zip.003", bytes 5)]
        ["/data"; "/data/.rclone"].

Definition split_at_10_state : State :=
  scanned (set_file_size 25 (begin_file "movie.zip" (start_state split_at_10_fs "/data")))
    ["movie.zip.001"; "movie.zip.002"; "movie.zip.003"] 3 25.

(** [chunked_state] after its chunk folder has been scanned. *)
Definition chunked_scanned_state : State :=
  scanned chunked_state ["movie.bin.001"; "movie.bin.002"; "movie.bin.003"] 3 20.

Definition is_error (entry : Level * string) : bool :=
  match fst entry with
  | ERROR => true
  | WARNING => false
  end.

(** Part 0 alone, for an object that expects two parts. *)
Definition gap_fs : Fs.t :=
  Fs.mk [("/d/a.bin.000", [x01; x02])] ["/d"].

(** An empty file. *)
Definition empty_fs : Fs.t :=
  Fs.mk [("/d/e.bin", [])] ["/d"].

(** The log lines of [critical_failure] and the warning of
    [check_disk_space]. *)
Definition critical_lines (text : string) : list (Level * string) :=
  [(ERROR, "CRITICAL ERROR ENCOUTERED - see below:");
   (ERROR, "REASON: " ++ text);
   (ERROR, "rClone chunking script is terminating.")].

Definition no_space_text : string :=
  "There is not enough space on the local drive to continue the zipping process.".

Definition unable_to_check : Level * string :=
  (WARNING, "- Unable to check free space on the local drive. The program will continue.").


(** What [check_disk_space] adds to the log. *)
Definition disk_check_lines (E : Env) (s : State) : list (Level * string) :=
  match free_percent E (currentpath s) with
  | None => [unable_to_check]
  | Some p =>
      if p <? 10 then (critical_lines no_space_text ++ [unable_to_check])%list else []
  end.

(** The command [rclone_file] launches from the state [s]. *)
Definition copy_command (E : Env) (s : State) : Command :=
  RcloneCopy
    (if rcloning_chunks s =? 1
     then Py.join (rclone_folder_with_chunks s) (file_to_rclone s)
     else Py.join (currentpath s) (file_to_rclone s))
    (Py.join (rclone_dest_folder E)
       (if String.eqb (determine_dest_path_on_remote_service E s) "." then ""
        else determine_dest_path_on_remote_service E s)).

Definition copy_failed_text (E : Env) (s : State) : string :=
  "Failed to rclone " ++ file s ++ " to the " ++ rclone_service_name E ++ " service.".

(** The state [rclone_file] returns in when the copy exits with
    [status]. *)
Definition copied (E : Env) (s : State) (status : Z) : State :=
  let s' := set_issued (issued s ++ [copy_command E s])%list s in
  if status =? 0 then s'
  else set_log (log s ++ [(ERROR, ("--- Errors found during the rcloning of "
                                    ++ file_to_rclone s)%string)])%list s'.





(** The command that hands the whole file [f] of the current folder to
    [rclone copy]. *)
Definition whole_file_copy (E : Env) (s0 : State) (f : string) : Command :=
  RcloneCopy (Py.join (currentpath s0) f)
    (Py.join (rclone_dest_folder E)
       (if String.eqb (determine_dest_path_on_remote_service E s0) "." then ""
        else determine_dest_path_on_remote_service E s0)).

(** One pass of the character loop of
    [determine_dest_path_on_remote_service]. *)
Definition dest_step (root cur : string) (dest_path2 : string) (i : nat) : string :=
  let letter1 := Py.slice1 root i in
  let letter2 := Py.slice1 cur i in
  let dest_path2 :=
    if String.eqb letter1 letter2 then dest_path2 else dest_path2 ++ letter2 in
  if Py.startswith dest_path2 "/" then Py.last_char dest_path2 else dest_path2.

(** The settings of [demo_env] on a Mac. *)
Definition mac_env : Env :=
  mkEnv "/data" 10 "box" "/usr/local/bin" "backup"
    [".bundle"; ".tmp"; ".temp"; ".rclone"; ".DS_Store"]
    true Py.glob_match demo_relpath demo_zip
    (fun _ _ => Returned 0) (fun _ => Some 50).

(** The three chunks of [chunked_fs]. *)
Definition three_chunks : list string :=
  ["movie.bin.001"; "movie.bin.002"; "movie.bin.003"].

(** The archive the main loop makes of the file [f] of the current
    folder before it chunks it, and the chunk folder of that folder. *)
Definition chunk_folder (s0 : State) : string := Py.join (currentpath s0) ".rclone".

Definition temporary_archive (s0 : State) (f : string) : string :=
  Py.join (chunk_folder s0) f ++ ".zip".


(** A file the main loop hands to [rclone copy] as it is: not left out
    by its extension, there, smaller than [max_single_file_size], and
    without a first chunk in the chunk folder. *)
Definition small_file (E : Env) (fs0 : Fs.t) (cur f : string) : Prop :=
  Py.endswith_any f (extensions_to_skip E) = false /\
  (exists size, Fs.getsize (Py.join cur f) fs0 = Some size /\
                size < max_single_file_size E) /\
  Fs.isfile (Py.join (Py.join cur ".rclone") f ++ ".001") fs0 = false.

(** A folder that is neither a chunk folder nor inside a bundle. *)
Definition plain_folder (E : Env) (cur : string) : Prop :=
  fnmatch E cur "*/.rclone" = false /\ fnmatch E cur "*.bundle/*" = false.

(** The copies of the files [files] of the folder [cur]. *)
Definition folder_copies (E : Env) (s0 : State) (entry : string * list string)
  : list Command :=
  map (whole_file_copy E (set_currentpath (fst entry) s0)) (snd entry).

(** Two folders with a small file each, and what [os.walk] yields for
    them. *)
Definition tree_fs : Fs.t :=
  Fs.mk [("/data/a.txt", bytes 3); ("/data/sub/b.txt", bytes 5)] ["/data"; "/data/sub"].

Definition tree_walk : list (string * list string) :=
  [("/data", ["a.txt"]); ("/data/sub", ["b.txt"])].


(** The remote deletes among the commands launched so far. *)
Definition deletes_launched (s : State) : list Command := filter is_delete (issued s).



(** ** Frame conditions *)

(** The computation [m] leaves the observation [f] of the state as it
    was, however it ends. *)
Definition keeps {A X : Type} (f : State -> X) (m : M A) : Prop :=
  forall s, f (final (m s)) = f s.

(** What a chunk folder scan and the three tests leave alone. *)
Definition outside_scan (s : State) :=
  (fs s, issued s, log s, file_size s, file_already_chunked_verified s,
   (currentpath s, file s, rclone_folder_with_chunks s, chunks_to_skip s)).

Definition outside_tests (s : State) :=
  (fs s, issued s, file_size s, file_chunks s,
   (currentpath s, file s, rclone_folder_with_chunks s, chunks_to_skip s)).



(** The three tests as [run_tests] decides them, on the state [s] and
    the size [size] of the first chunk found. *)
Definition count_test (E : Env) (s : State) : bool :=
  chunk_number s =? Py.ceil (inject_Z (file_size s) / max_zip_size E)%Q.

Definition total_size_test (s : State) : bool :=
  sum_chunk_size s =? file_size s.

Definition leading_size_test (E : Env) (size : Z) : bool :=
  negb (Py.Qltb 1 (inject_Z size - max_zip_size E)%Q ||
        Py.Qltb (inject_Z size - max_zip_size E)%Q (-1)).

Definition tests_passed (E : Env) (s : State) (size : Z) : Z :=
  Z.b2z (count_test E s) + Z.b2z (total_size_test s) + Z.b2z (leading_size_test E size).

(** * Properties *)

(** ** Strings and part names *)

Lemma length_append (a b : string) :
  String.length (a ++ b) = (String.length a + String.length b)%nat.
Proof.
  induction a as [|c a IH]; simpl; [reflexivity | now rewrite IH].
Qed.

Lemma append_inv_head (a b c : string) : a ++ b = a ++ c -> b = c.
Proof.
  induction a as [|x a IH]; simpl; intros H; [exact H|].
  injection H as H. now apply IH.
Qed.

Lemma append_assoc (a b c : string) : (a ++ b) ++ c = a ++ (b ++ c).
Proof.
  induction a as [|x a IH]; simpl; [reflexivity | now rewrite IH].
Qed.

Lemma append_neq_self (a b : string) : b <> "" -> a ++ b <> a.
Proof.
  intros Hb H. apply Hb.
  assert (L : String.length (a ++ b) = String.length a) by now rewrite H.
  rewrite length_append in L. destruct b; [reflexivity | simpl in L; lia].
Qed.

Lemma to_int_not_nil (n : Z) :
  Z.to_int n <> Decimal.Pos Decimal.Nil /\ Z.to_int n <> Decimal.Neg Decimal.Nil.
Proof.
  destruct n as [|p|p]; simpl; split; try discriminate;
    intros H; injection H as H; now apply Unsigned.to_uint_nonnil in H.
Qed.

(** [str] is injective: distinct numbers have distinct renderings. *)
Lemma str_inj (a b : Z) : Py.str a = Py.str b -> a = b.
Proof.
  unfold Py.str. intros H.
  apply DecimalZ.to_int_inj.
  destruct (to_int_not_nil a) as [Ha1 Ha2], (to_int_not_nil b) as [Hb1 Hb2].
  pose proof (NilZero.isi _ Ha1 Ha2) as Ia.
  pose proof (NilZero.isi _ Hb1 Hb2) as Ib.
  rewrite H in Ia. rewrite Ia in Ib. now injection Ib.
Qed.

Lemma str_nonempty (a : Z) : Py.str a <> "".
Proof.
  unfold Py.str. destruct (to_int_not_nil a) as [H1 H2].
  pose proof (NilZero.isi _ H1 H2) as I. intros Hs. rewrite Hs in I.
  simpl in I. discriminate.
Qed.

Lemma part_name_inj (f : string) (a b : Z) : part_name f a = part_name f b -> a = b.
Proof.
  unfold part_name. intros H. apply append_inv_head in H. now apply str_inj.
Qed.

Lemma part_name_not_OutFile (f : string) (k : Z) : part_name f k <> f ++ ".00".
Proof. unfold part_name. apply append_neq_self, str_nonempty. Qed.

Lemma part_name_not_InputFile (f : string) (k : Z) : part_name f k <> f.
Proof.
  unfold part_name. rewrite append_assoc. apply append_neq_self. discriminate.
Qed.

(** ** The file system *)

Lemma lookup_update_same p d l : Fs.lookup p (Fs.update p d l) = Some d.
Proof.
  induction l as [|[q c] l IH]; simpl.
  - now rewrite String.eqb_refl.
  - destruct (String.eqb q p) eqn:Hq; simpl.
    + now rewrite String.eqb_refl.
    + now rewrite Hq.
Qed.

Lemma lookup_update_other p q d l :
  p <> q -> Fs.lookup q (Fs.update p d l) = Fs.lookup q l.
Proof.
  intros Hpq. induction l as [|[r c] l IH]; simpl.
  - destruct (String.eqb_spec p q); [contradiction | reflexivity].
  - destruct (String.eqb_spec r p) as [->|Hrp]; simpl.
    + destruct (String.eqb_spec p q); [contradiction | reflexivity].
    + destruct (String.eqb_spec r q); [reflexivity | exact IH].
Qed.

Lemma lookup_delete_same p l : Fs.lookup p (Fs.delete p l) = None.
Proof.
  induction l as [|[q c] l IH]; simpl; [reflexivity|].
  destruct (String.eqb q p) eqn:Hq; simpl; [exact IH | now rewrite Hq].
Qed.

Lemma lookup_delete_other p q l :
  p <> q -> Fs.lookup q (Fs.delete p l) = Fs.lookup q l.
Proof.
  intros Hpq. induction l as [|[r c] l IH]; simpl; [reflexivity|].
  destruct (String.eqb_spec r p) as [->|Hrp]; simpl.
  - destruct (String.eqb_spec p q); [contradiction | exact IH].
  - destruct (String.eqb_spec r q); [reflexivity | exact IH].
Qed.

Lemma read_write_same p d fs : Fs.read p (Fs.write p d fs) = Some d.
Proof. apply lookup_update_same. Qed.

Lemma read_write_other p q d fs : p <> q -> Fs.read q (Fs.write p d fs) = Fs.read q fs.
Proof. apply lookup_update_other. Qed.

Lemma read_append_other p q d fs : p <> q -> Fs.read q (Fs.append p d fs) = Fs.read q fs.
Proof.
  intros H. unfold Fs.append. destruct (Fs.read p fs); now apply read_write_other.
Qed.

Lemma read_remove_same p fs fs' : Fs.remove p fs = Some fs' -> Fs.read p fs' = None.
Proof.
  unfold Fs.remove. destruct (Fs.isfile p fs); [|discriminate].
  intros H. injection H as <-. apply lookup_delete_same.
Qed.

Lemma read_remove_other p q fs fs' :
  Fs.remove p fs = Some fs' -> p <> q -> Fs.read q fs' = Fs.read q fs.
Proof.
  unfold Fs.remove. destruct (Fs.isfile p fs); [|discriminate].
  intros H. injection H as <-. apply lookup_delete_other.
Qed.

Lemma read_remove_none p q fs fs' :
  Fs.remove p fs = Some fs' -> Fs.read q fs = None -> Fs.read q fs' = None.
Proof.
  intros H Hq. destruct (String.eqb_spec p q) as [->|Hn].
  - now apply read_remove_same with (fs := fs).
  - now rewrite (read_remove_other _ _ _ _ H Hn).
Qed.

Lemma isfile_read p fs : Fs.isfile p fs = true <-> exists c, Fs.read p fs = Some c.
Proof.
  unfold Fs.isfile. destruct (Fs.read p fs) as [c|]; split; intros H.
  - now exists c.
  - reflexivity.
  - discriminate.
  - destruct H as [c H]. discriminate.
Qed.

Lemma isfile_false_read p fs : Fs.isfile p fs = false <-> Fs.read p fs = None.
Proof.
  unfold Fs.isfile. destruct (Fs.read p fs); split; intros H; congruence.
Qed.

(** ** Numbers *)

Lemma Qeq_bool_inject_Z (c : Z) : c <> 0 -> Qeq_bool (inject_Z c) 0 = false.
Proof.
  intros Hc. destruct (Qeq_bool (inject_Z c) 0) eqn:H; [|reflexivity].
  apply Qeq_bool_eq in H. unfold Qeq in H. simpl in H. lia.
Qed.

Lemma true_div_inject_Z (a c : Z) :
  c <> 0 -> Py.true_div (inject_Z a) (inject_Z c) = Some (inject_Z a / inject_Z c)%Q.
Proof. intros Hc. unfold Py.true_div. now rewrite Qeq_bool_inject_Z. Qed.

Lemma ceil_div_le_1 (a b : Z) :
  0 < b -> a <= b -> Py.ceil (inject_Z a / inject_Z b)%Q <= 1.
Proof.
  intros Hb Hab. unfold Py.ceil.
  change 1 with (Qceiling (inject_Z 1)).
  apply Qceiling_resp_le. apply Qle_shift_div_r.
  - change 0%Q with (inject_Z 0). now rewrite <- Zlt_Qlt.
  - rewrite <- inject_Z_mult, <- Zle_Qle. lia.
Qed.

Lemma ceil_div_ge_1 (a b : Z) :
  0 < b -> b <= a -> 1 <= Py.ceil (inject_Z a / inject_Z b)%Q.
Proof.
  intros Hb Hab. unfold Py.ceil.
  change 1 with (Qceiling (inject_Z 1)) at 1.
  apply Qceiling_resp_le. apply Qle_shift_div_l.
  - change 0%Q with (inject_Z 0). now rewrite <- Zlt_Qlt.
  - rewrite <- inject_Z_mult, <- Zle_Qle. lia.
Qed.

(** ** FileSpliter.Prepare *)

(** What [Prepare] computes on an existing input with a positive chunk
    size. *)
Lemma Prepare_returns (self : FileSpliter.t) (fs : Fs.t) (data : list byte) :
  Fs.read (FileSpliter.InputFile self) fs = Some data ->
  0 < FileSpliter.CHUNK_SIZE self ->
  FileSpliter.Prepare self fs =
    FileSpliter.Val
      (true,
       FileSpliter.set_Parts
         (Some (Plan_expectedCount (Z.of_nat (List.length data)) (FileSpliter.CHUNK_SIZE self)))
         (FileSpliter.set_FileSize (Z.of_nat (List.length data)) self),
       fs).
Proof.
  intros Hread Hc. unfold FileSpliter.Prepare, Fs.getsize. rewrite Hread.
  set (n := Z.of_nat (List.length data)).
  cbn [FileSpliter.CHUNK_SIZE FileSpliter.FileSize FileSpliter.set_FileSize].
  unfold Plan_expectedCount.
  destruct (Z.geb_spec (FileSpliter.CHUNK_SIZE self) n) as [Hge|Hlt].
  - pose proof (ceil_div_le_1 n (FileSpliter.CHUNK_SIZE self) Hc ltac:(lia)).
    rewrite Z.max_l by lia. reflexivity.
  - rewrite true_div_inject_Z by lia.
    pose proof (ceil_div_ge_1 n (FileSpliter.CHUNK_SIZE self) Hc ltac:(lia)).
    rewrite Z.max_r by lia. reflexivity.
Qed.

Lemma Plan_expectedCount_positive (itemSize chunkSizeBytes : Z) :
  1 <= Plan_expectedCount itemSize chunkSizeBytes.
Proof. unfold Plan_expectedCount. lia. Qed.



(** ** FileSpliter.Split *)

Lemma pieces_fuel (c : nat) (f1 : nat) :
  forall (f2 : nat) (rest : list byte),
    (0 < c)%nat -> (List.length rest <= f1)%nat -> (List.length rest <= f2)%nat ->
    pieces f1 c rest = pieces f2 c rest.
Proof.
  induction f1 as [|f1 IH]; intros f2 rest Hc H1 H2.
  - destruct rest; [|simpl in H1; lia]. destruct f2; reflexivity.
  - destruct rest as [|b r]; [destruct f2; reflexivity|].
    destruct f2 as [|f2]; [simpl in H2; lia|].
    cbn [pieces]. f_equal.
    assert (L : (List.length (skipn c (b :: r)) <= List.length r)%nat).
    { rewrite length_skipn. cbn [List.length]. lia. }
    simpl in H1, H2. apply IH; lia.
Qed.

Lemma ProgressBar_ok (self : FileSpliter.t) (p : Z) :
  FileSpliter.Parts self = Some p -> p <> 0 ->
  exists q, FileSpliter.ProgressBar self = FileSpliter.Val (FileSpliter.set_Progress q self).
Proof.
  intros Hp Hnz. unfold FileSpliter.ProgressBar. rewrite Hp.
  rewrite true_div_inject_Z by assumption.
  destruct (Qle_bool 1 _); eexists; reflexivity.
Qed.

(** With more fuel than unread bytes the loop of [Split] ends normally,
    having written the successive reads under consecutive part names. *)
Lemma Split_loop_writes (fuel : nat) :
  forall (self : FileSpliter.t) (rest : list byte) (fs : Fs.t) (p : Z),
    FileSpliter.known_type self = true ->
    0 < FileSpliter.CHUNK_SIZE self ->
    FileSpliter.Parts self = Some p -> p <> 0 ->
    FileSpliter.OutFile self = FileSpliter.InputFile self ++ ".00" ->
    (List.length rest < fuel)%nat ->
    exists self',
      FileSpliter.Split_loop fuel self rest fs =
        FileSpliter.Val
          (self',
           write_parts (FileSpliter.InputFile self) (FileSpliter.CurrentPartNo self)
             (chunks_of (FileSpliter.CHUNK_SIZE self) rest) fs) /\
      FileSpliter.CurrentPartNo self' =
        FileSpliter.CurrentPartNo self
        + Z.of_nat (List.length (chunks_of (FileSpliter.CHUNK_SIZE self) rest)).
Proof.
  induction fuel as [|fuel IH]; intros self rest fs p Hk Hc Hp Hnz Ho Hlen; [lia|].
  cbn [FileSpliter.Split_loop]. rewrite Hk. cbn [negb].
  unfold FileSpliter.read_n.
  destruct (Z.ltb_spec (FileSpliter.CHUNK_SIZE self) 0) as [Hneg|_]; [lia|].
  destruct rest as [|b r].
  - rewrite firstn_nil. exists self. split; [reflexivity|]. simpl. lia.
  - set (c := Z.to_nat (FileSpliter.CHUNK_SIZE self)).
    assert (Hcpos : (0 < c)%nat) by (subst c; lia).
    destruct (firstn c (b :: r)) as [|b' r'] eqn:Hfirst.
    { destruct c; [lia | simpl in Hfirst; discriminate]. }
    rewrite <- Hfirst.
    set (self1 := FileSpliter.set_CurrentPartNo (FileSpliter.CurrentPartNo self + 1) self).
    destruct (ProgressBar_ok self1 p Hp Hnz) as [q Hq]. rewrite Hq.
    assert (L : (List.length (skipn c (b :: r)) <= List.length r)%nat).
    { rewrite length_skipn. cbn [List.length]. lia. }
    destruct (IH (FileSpliter.set_Progress q self1) (skipn c (b :: r))
                (Fs.write (FileSpliter.OutFile self ++ Py.str (FileSpliter.CurrentPartNo self))
                   (firstn c (b :: r)) fs) p Hk Hc Hp Hnz Ho)
      as [self' [HS HN]]; [simpl in Hlen; lia|].
    exists self'. cbn [FileSpliter.CHUNK_SIZE FileSpliter.InputFile
                        FileSpliter.set_Progress FileSpliter.set_CurrentPartNo
                        FileSpliter.CurrentPartNo self1] in HS, HN.
    unfold chunks_of in *. fold c in HS, HN |- *.
    cbn [List.length pieces write_parts].
    rewrite (pieces_fuel c (List.length r) (List.length (skipn c (b :: r)))) by lia.
    split.
    + rewrite HS. unfold part_name. now rewrite Ho.
    + rewrite HN. cbn [List.length]. lia.
Qed.

Lemma ProgressBar_static (self self' : FileSpliter.t) :
  FileSpliter.ProgressBar self = FileSpliter.Val self' ->
  static self' = static self /\
  FileSpliter.CurrentPartNo self' = FileSpliter.CurrentPartNo self.
Proof.
  unfold FileSpliter.ProgressBar.
  destruct (FileSpliter.Parts self); [|discriminate].
  destruct (Py.true_div _ _); [|discriminate].
  destruct (Qle_bool 1 q); intros H; injection H as <-; split; reflexivity.
Qed.

Lemma Split_loop_static (fuel : nat) :
  forall (self : FileSpliter.t) (rest : list byte) (fs : Fs.t) (self' : FileSpliter.t)
         (fs' : Fs.t),
    FileSpliter.Split_loop fuel self rest fs = FileSpliter.Val (self', fs') ->
    static self' = static self.
Proof.
  induction fuel as [|fuel IH]; intros self rest fs self' fs' H; [discriminate|].
  cbn [FileSpliter.Split_loop] in H.
  destruct (negb (FileSpliter.known_type self)); [discriminate|].
  destruct (FileSpliter.read_n (FileSpliter.CHUNK_SIZE self) rest) as [buf rest'].
  destruct buf as [|b buf].
  - injection H as <- _. reflexivity.
  - destruct (FileSpliter.ProgressBar _) as [self1| |] eqn:Hpb; try discriminate.
    apply ProgressBar_static in Hpb. destruct Hpb as [Hs _].
    rewrite (IH _ _ _ _ _ H), Hs. reflexivity.
Qed.

Lemma ProgressBar_terminates (self : FileSpliter.t) :
  FileSpliter.ProgressBar self <> FileSpliter.OutOfFuel.
Proof.
  unfold FileSpliter.ProgressBar.
  destruct (FileSpliter.Parts self); [|discriminate].
  destruct (Py.true_div _ _); [|discriminate].
  destruct (Qle_bool 1 q); discriminate.
Qed.

(** The loop of [Split] never needs more steps than there are unread
    bytes, plus one for the read that finds the end of the file. *)
Lemma Split_loop_terminates (fuel : nat) :
  forall (self : FileSpliter.t) (rest : list byte) (fs : Fs.t),
    (List.length rest < fuel)%nat ->
    FileSpliter.Split_loop fuel self rest fs <> FileSpliter.OutOfFuel.
Proof.
  induction fuel as [|fuel IH]; intros self rest fs Hlen; [lia|].
  cbn [FileSpliter.Split_loop].
  destruct (negb (FileSpliter.known_type self)); [discriminate|].
  unfold FileSpliter.read_n.
  destruct (Z.ltb_spec (FileSpliter.CHUNK_SIZE self) 0) as [Hneg|Hpos].
  - destruct rest as [|b r]; [discriminate|].
    destruct (FileSpliter.ProgressBar _) eqn:Hpb; try discriminate;
      [|now apply ProgressBar_terminates in Hpb].
    apply IH. simpl in Hlen |- *. lia.
  - destruct (firstn (Z.to_nat (FileSpliter.CHUNK_SIZE self)) rest) as [|b buf] eqn:Hf;
      [discriminate|].
    destruct (FileSpliter.ProgressBar _) eqn:Hpb; try discriminate;
      [|now apply ProgressBar_terminates in Hpb].
    apply IH. rewrite length_skipn.
    destruct (Z.to_nat (FileSpliter.CHUNK_SIZE self)) as [|c]; [discriminate|].
    destruct rest as [|x r]; [discriminate|]. cbn [List.length] in *. lia.
Qed.

(** [Split] as modelled always ends: with a value or with an exception. *)
Lemma Split_terminates (self : FileSpliter.t) (fs : Fs.t) :
  FileSpliter.Split self fs <> FileSpliter.OutOfFuel.
Proof.
  unfold FileSpliter.Split. destruct (_ || _); [discriminate|].
  destruct (Fs.read _ fs) as [data|]; [|discriminate].
  pose proof (Split_loop_terminates (S (List.length data)) self data fs
                (Nat.lt_succ_diag_r _)) as H.
  destruct (FileSpliter.Split_loop _ self data fs) as [[self' fs']| |];
    [discriminate | discriminate | contradiction].
Qed.

(** So the exhaustion of the loop bound, which [chunk_zip_file] has to
    treat like an exception, never occurs. *)
Lemma prepare_and_split_terminates (InputFile FileType : string) (C : Z) (fs : Fs.t) :
  FileSpliter.prepare_and_split InputFile FileType C fs <> FileSpliter.OutOfFuel.
Proof.
  unfold FileSpliter.prepare_and_split, FileSpliter.and_then, FileSpliter.Prepare.
  destruct (Fs.getsize _ fs); [|discriminate].
  destruct (_ >=? _).
  - apply Split_terminates.
  - destruct (Py.true_div _ _); [apply Split_terminates | discriminate].
Qed.

Lemma read_write_parts_other (f q : string) (ps : list (list byte)) :
  forall (k : Z) (fs : Fs.t),
    (forall j, 0 <= j < Z.of_nat (List.length ps) -> part_name f (k + j) <> q) ->
    Fs.read q (write_parts f k ps fs) = Fs.read q fs.
Proof.
  induction ps as [|p ps IH]; intros k fs H; [reflexivity|].
  cbn [write_parts]. rewrite IH.
  - apply read_write_other. specialize (H 0). rewrite Z.add_0_r in H.
    apply H. cbn [List.length]. lia.
  - intros j Hj. replace (k + 1 + j) with (k + (j + 1)) by lia.
    apply H. cbn [List.length]. lia.
Qed.

Lemma read_write_parts (f : string) (ps : list (list byte)) :
  forall (k : Z) (fs : Fs.t) (i : nat),
    (i < List.length ps)%nat ->
    Fs.read (part_name f (k + Z.of_nat i)) (write_parts f k ps fs) = nth_error ps i.
Proof.
  induction ps as [|p ps IH]; intros k fs i Hi; [simpl in Hi; lia|].
  cbn [write_parts]. destruct i as [|i].
  - rewrite read_write_parts_other.
    + rewrite Z.add_0_r. apply read_write_same.
    + intros j Hj Heq. apply part_name_inj in Heq. lia.
  - replace (k + Z.of_nat (S i)) with (k + 1 + Z.of_nat i) by lia.
    apply IH. simpl in Hi. lia.
Qed.


Lemma chunks_of_nonempty (c : Z) (data : list byte) :
  data <> [] -> chunks_of c data <> [].
Proof.
  unfold chunks_of. destruct data as [|b r]; [congruence|]. discriminate.
Qed.

(** [Prepare] and then [Split] on a non-empty input with a positive
    chunk size. *)
Lemma prepare_and_split_writes (InputFile FileType : string) (C : Z) (fs : Fs.t)
  (data : list byte) :
  FileType = "b" \/ FileType = "t" ->
  0 < C ->
  data <> [] ->
  Fs.read InputFile fs = Some data ->
  exists self,
    FileSpliter.prepare_and_split InputFile FileType C fs =
      FileSpliter.Val (true, self, write_parts InputFile 1 (chunks_of C data) fs) /\
    FileSpliter.CurrentPartNo self = 1 + Z.of_nat (List.length (chunks_of C data)) /\
    static self =
      (C, InputFile, FileType, InputFile ++ ".00", Z.of_nat (List.length data),
       Some (Plan_expectedCount (Z.of_nat (List.length data)) C)).
Proof.
  intros Hft Hc Hdata Hread.
  unfold FileSpliter.prepare_and_split.
  rewrite (Prepare_returns (FileSpliter.init InputFile FileType C) fs data Hread Hc).
  cbn [FileSpliter.and_then].
  set (self0 := FileSpliter.set_Parts _ _).
  unfold FileSpliter.Split.
  change (FileSpliter.FileSize self0) with (Z.of_nat (List.length data)).
  change (FileSpliter.Parts self0)
    with (Some (Plan_expectedCount (Z.of_nat (List.length data)) C)).
  change (FileSpliter.InputFile self0) with InputFile.
  assert (Hn : (Z.of_nat (List.length data) =? 0) = false).
  { apply Z.eqb_neq. destruct data; [congruence | simpl; lia]. }
  rewrite Hn. cbn [orb]. rewrite Hread.
  assert (Hk : FileSpliter.known_type self0 = true).
  { unfold FileSpliter.known_type. change (FileSpliter.FileType self0) with FileType.
    destruct Hft as [-> | ->]; reflexivity. }
  pose proof (Plan_expectedCount_positive (Z.of_nat (List.length data)) C) as Hpos.
  destruct (Split_loop_writes (S (List.length data)) self0 data fs
              (Plan_expectedCount (Z.of_nat (List.length data)) C) Hk Hc eq_refl
              ltac:(lia) eq_refl (Nat.lt_succ_diag_r _)) as [self [HL HN]].
  rewrite HL. exists self. split; [reflexivity|]. split; [exact HN|].
  now rewrite (Split_loop_static _ _ _ _ _ _ HL).
Qed.





(** ** FileSpliter.Rebuild *)

(** C1.  Splitting the three bytes of [/d/a.bin] into chunks of two and
    rebuilding from the same object does not give the bytes back:
    [Split] wrote the parts 1 and 2, [Rebuild] looks for part 0, finds
    none and returns [False], leaving an empty output file. *)
Theorem Rebuild_after_Split_returns_False :
  exists self fs',
    FileSpliter.split_then_rebuild "/d/a.bin" "b" 2 abc_fs =
      FileSpliter.Val (false, self, fs') /\
    Fs.read "/d/a.bin.001" fs' = Some [x01; x02] /\
    Fs.read "/d/a.bin.002" fs' = Some [x03] /\
    Fs.read "/d/a.bin.000" fs' = None /\
    Fs.read (FileSpliter.OutFile self) fs' = Some [] /\
    FileSpliter.CurrentPartNo self = 0.
Proof.
  eexists. eexists. split; [vm_compute; reflexivity|].
  repeat split.
Qed.

Lemma OutFile_part_inj (o : string) (a b : Z) : o ++ Py.str a = o ++ Py.str b -> a = b.
Proof. intros H. apply append_inv_head in H. now apply str_inj. Qed.

(** Every part the loop of [Rebuild] passes on its way to [True] was a
    file when the loop began and is none when it ends, and the loop
    creates no file but the output. *)
Lemma Rebuild_loop_consumes (fuel : nat) :
  forall (parts : Z) (self : FileSpliter.t) (fs : Fs.t) (self' : FileSpliter.t) (fs' : Fs.t),
    FileSpliter.Rebuild_loop fuel parts self fs = FileSpliter.Val (true, self', fs') ->
    (forall k, FileSpliter.CurrentPartNo self <= k < parts ->
       Fs.isfile (FileSpliter.OutFile self ++ Py.str k) fs = true /\
       Fs.read (FileSpliter.OutFile self ++ Py.str k) fs' = None) /\
    (forall q, q <> FileSpliter.OutFile self -> Fs.read q fs = None -> Fs.read q fs' = None).
Proof.
  induction fuel as [|fuel IH]; intros parts self fs self' fs' H; [discriminate|].
  cbn [FileSpliter.Rebuild_loop] in H.
  destruct (Z.ltb_spec (FileSpliter.CurrentPartNo self) parts) as [Hlt|Hge].
  2:{ injection H as <- <-. split; [intros k Hk; lia | intros q _ Hq; exact Hq]. }
  set (o := FileSpliter.OutFile self) in *.
  set (n := FileSpliter.CurrentPartNo self) in *.
  destruct (Fs.isfile (o ++ Py.str n) fs) eqn:Hfile; [|discriminate].
  unfold Fs.getsize in H.
  destruct (Fs.read (o ++ Py.str n) fs) as [buf|] eqn:Hread; [|discriminate].
  destruct buf as [|b buf]; [discriminate|].
  cbn [andb negb] in H.
  destruct (Z.of_nat (List.length (b :: buf)) >? 0); [|discriminate].
  cbn [negb] in H.
  destruct (Fs.remove (o ++ Py.str n) (Fs.append o (b :: buf) fs)) as [fs2|] eqn:Hrm;
    [|discriminate].
  destruct (FileSpliter.ProgressBar (FileSpliter.set_CurrentPartNo (n + 1) self))
    as [self2| |] eqn:Hpb; try discriminate.
  apply ProgressBar_static in Hpb. destruct Hpb as [Hst Hn].
  assert (Ho : FileSpliter.OutFile self2 = FileSpliter.OutFile self).
  { unfold static in Hst. now injection Hst. }
  cbn in Hn.
  destruct (IH _ _ _ _ _ H) as [IA IB]. rewrite Ho in IA, IB. rewrite Hn in IA.
  fold o in IA, IB.
  assert (Hne : forall k, o ++ Py.str k <> o) by (intros k; apply append_neq_self, str_nonempty).
  split.
  - intros k Hk. destruct (Z.eq_dec k n) as [->|Hkn].
    + split; [exact Hfile|]. apply IB; [apply Hne|].
      now apply read_remove_same with (fs := Fs.append o (b :: buf) fs).
    + destruct (IA k ltac:(lia)) as [I1 I2]. split; [|exact I2].
      unfold Fs.isfile in I1 |- *.
      rewrite (read_remove_other _ _ _ _ Hrm) in I1.
      * rewrite read_append_other in I1; [exact I1|]. intros E. now apply (Hne k).
      * intros E. apply OutFile_part_inj in E. lia.
  - intros q Hq Hnone. apply IB; [exact Hq|].
    apply (read_remove_none _ _ _ _ Hrm).
    rewrite read_append_other; [exact Hnone | congruence].
Qed.

(** C9.  When [Rebuild] returns [True], every part it was to read, from
    number 0 up to [Parts - 1], was a file before the call and is gone
    after it; so a successful [Rebuild] over at least one part never
    leaves the file system as it found it. *)
Theorem Rebuild_consumes_parts (self self' : FileSpliter.t) (fs fs' : Fs.t) (parts : Z) :
  FileSpliter.Rebuild self fs = FileSpliter.Val (true, self', fs') ->
  FileSpliter.Parts self = Some parts ->
  (forall k, 0 <= k < parts ->
     Fs.isfile (FileSpliter.OutFile self ++ Py.str k) fs = true /\
     Fs.isfile (FileSpliter.OutFile self ++ Py.str k) fs' = false) /\
  (0 < parts -> fs' <> fs).
Proof.
  intros H Hp. unfold FileSpliter.Rebuild in H.
  change (FileSpliter.Parts (FileSpliter.set_CurrentPartNo 0 self))
    with (FileSpliter.Parts self) in H.
  rewrite Hp in H.
  destruct (negb (FileSpliter.known_type _)); [discriminate|].
  apply Rebuild_loop_consumes in H.
  cbn [FileSpliter.OutFile FileSpliter.CurrentPartNo FileSpliter.set_CurrentPartNo] in H.
  destruct H as [HA _].
  assert (Hall : forall k, 0 <= k < parts ->
     Fs.isfile (FileSpliter.OutFile self ++ Py.str k) fs = true /\
     Fs.isfile (FileSpliter.OutFile self ++ Py.str k) fs' = false).
  { intros k Hk. destruct (HA k Hk) as [H1 H2]. split.
    - unfold Fs.isfile in H1 |- *. rewrite read_write_other in H1; [exact H1|].
      intros E. symmetry in E. revert E. apply append_neq_self, str_nonempty.
    - now apply isfile_false_read. }
  split; [exact Hall|].
  intros Hpos E. destruct (Hall 0 ltac:(lia)) as [H1 H2]. rewrite E in H2. congruence.
Qed.

(** C9's witness. *)
Lemma Rebuild_consumes_parts_witness :
  (forall k, 0 <= k < 2 ->
     Fs.isfile (FileSpliter.OutFile two_parts ++ Py.str k) parts_fs = true /\
     Fs.isfile (FileSpliter.OutFile two_parts ++ Py.str k)
       (Fs.mk [("/d/a.bin.00", [x01; x02; x03])] ["/d"]) = false) /\
  (0 < 2 -> Fs.mk [("/d/a.bin.00", [x01; x02; x03])] ["/d"] <> parts_fs).
Proof.
  apply (Rebuild_consumes_parts two_parts
           (FileSpliter.mk 2 "/d/a.bin" "b" "/d/a.bin.00" 0 (Some 2) 2 1%Q) parts_fs).
  - vm_compute. reflexivity.
  - reflexivity.
Defined.

(** The loop of [Rebuild] runs at most once per part still to be read. *)
Lemma Rebuild_loop_terminates (fuel : nat) :
  forall (parts : Z) (self : FileSpliter.t) (fs : Fs.t),
    (Z.to_nat (parts - FileSpliter.CurrentPartNo self) < fuel)%nat ->
    FileSpliter.Rebuild_loop fuel parts self fs <> FileSpliter.OutOfFuel.
Proof.
  induction fuel as [|fuel IH]; intros parts self fs Hlen; [lia|].
  cbn [FileSpliter.Rebuild_loop].
  destruct (Z.ltb_spec (FileSpliter.CurrentPartNo self) parts) as [Hlt|Hge]; [|discriminate].
  destruct (negb _); [discriminate|].
  destruct (Fs.read _ fs) as [[|b buf]|]; try discriminate.
  destruct (Fs.remove _ _); [|discriminate].
  destruct (FileSpliter.ProgressBar _) as [self2| |] eqn:Hpb; try discriminate;
    [|now apply ProgressBar_terminates in Hpb].
  apply ProgressBar_static in Hpb. destruct Hpb as [_ Hn]. cbn in Hn.
  apply IH. rewrite Hn. lia.
Qed.

(** [Rebuild] as modelled always ends: with a value or with an exception. *)
Lemma Rebuild_terminates (self : FileSpliter.t) (fs : Fs.t) :
  FileSpliter.Rebuild self fs <> FileSpliter.OutOfFuel.
Proof.
  unfold FileSpliter.Rebuild.
  destruct (FileSpliter.Parts _) as [parts|]; [|discriminate].
  destruct (negb _); [discriminate|].
  apply Rebuild_loop_terminates. cbn [FileSpliter.CurrentPartNo FileSpliter.set_CurrentPartNo].
  lia.
Qed.

(** What [Rebuild_after_Split_returns_False] shows on one input holds for
    every non-empty input and every positive chunk size, as long as no
    file is already lying at the name of part 0: [Split] writes no part
    0, so [Rebuild] returns [False] at its first step and the output file
    stays empty. *)
Lemma Rebuild_after_Split_never_succeeds (InputFile FileType : string) (C : Z)
  (fs : Fs.t) (data : list byte) :
  FileType = "b" \/ FileType = "t" ->
  0 < C ->
  data <> [] ->
  Fs.read InputFile fs = Some data ->
  Fs.read (part_name InputFile 0) fs = None ->
  exists self fs',
    FileSpliter.split_then_rebuild InputFile FileType C fs =
      FileSpliter.Val (false, self, fs') /\
    Fs.read (InputFile ++ ".00") fs' = Some [].
Proof.
  intros Hft Hc Hdata Hread Hnone. unfold FileSpliter.split_then_rebuild.
  destruct (prepare_and_split_writes InputFile FileType C fs data Hft Hc Hdata Hread)
    as [self [HS [_ Hst]]].
  rewrite HS. cbn [FileSpliter.and_then].
  unfold static in Hst. injection Hst as _ _ Ht Ho _ Hp.
  unfold FileSpliter.Rebuild.
  change (FileSpliter.Parts (FileSpliter.set_CurrentPartNo 0 self))
    with (FileSpliter.Parts self).
  rewrite Hp.
  assert (Hk : FileSpliter.known_type (FileSpliter.set_CurrentPartNo 0 self) = true).
  { unfold FileSpliter.known_type.
    change (FileSpliter.FileType (FileSpliter.set_CurrentPartNo 0 self))
      with (FileSpliter.FileType self).
    rewrite Ht. destruct Hft as [-> | ->]; reflexivity. }
  rewrite Hk. cbn [negb FileSpliter.Rebuild_loop].
  cbn [FileSpliter.CurrentPartNo FileSpliter.OutFile FileSpliter.set_CurrentPartNo].
  pose proof (Plan_expectedCount_positive (Z.of_nat (List.length data)) C) as Hpos.
  destruct (Z.ltb_spec 0 (Plan_expectedCount (Z.of_nat (List.length data)) C)) as [_|Hle];
    [|lia].
  rewrite Ho. fold (part_name InputFile 0).
  assert (Hgone : Fs.read (part_name InputFile 0)
                    (Fs.write (InputFile ++ ".00") []
                       (write_parts InputFile 1 (chunks_of C data) fs)) = None).
  { rewrite read_write_other.
    - rewrite read_write_parts_other; [exact Hnone|].
      intros j Hj E. apply part_name_inj in E. lia.
    - intros E. symmetry in E. revert E. apply part_name_not_OutFile. }
  unfold Fs.isfile. rewrite Hgone. cbn [andb negb].
  eexists. eexists. split; [reflexivity|]. apply read_write_same.
Qed.

(** ** Directory listings *)

Lemma substring_all (s : string) : substring 0 (String.length s) s = s.
Proof. induction s as [|c s IH]; simpl; [reflexivity | now rewrite IH]. Qed.

Lemma prefix_split (a : string) :
  forall b, String.prefix a b = true ->
    b = a ++ substring (String.length a) (String.length b - String.length a) b.
Proof.
  induction a as [|c a IH]; intros b H.
  - simpl. rewrite Nat.sub_0_r. now rewrite substring_all.
  - destruct b as [|d b]; [discriminate|]. cbn [String.prefix] in H.
    destruct (ascii_dec c d) as [->|]; [|discriminate].
    cbn [String.length Nat.sub substring String.append]. f_equal. now apply IH.
Qed.

Lemma no_slash_not_absolute (n : string) :
  Py.mem_char "/"%char n = false -> Py.startswith n "/" = false.
Proof.
  unfold Py.startswith. destruct n as [|c n]; [reflexivity|].
  cbn [Py.mem_char String.prefix]. intros H.
  destruct (ascii_dec "/" c) as [<-|]; [|reflexivity].
  rewrite Ascii.eqb_refl in H. discriminate.
Qed.

Lemma child_name_join (d p n : string) : Fs.child_name d p = Some n -> Py.join d n = p.
Proof.
  unfold Fs.child_name.
  destruct (String.prefix (Py.dir_prefix d) p) eqn:Hp; [|discriminate].
  set (m := substring _ _ p).
  destruct (String.eqb m "") eqn:He; [discriminate|].
  destruct (Py.mem_char "/"%char m) eqn:Hm; [discriminate|].
  intros H. injection H as <-. unfold Py.join.
  rewrite (no_slash_not_absolute _ Hm). symmetry. now apply prefix_split.
Qed.

(** Every name [os.listdir] reports is a file in that directory. *)
Lemma children_are_files (d : string) (l : list (string * list byte)) (n : string) :
  In n (Fs.children d l) -> exists c, Fs.lookup (Py.join d n) l = Some c.
Proof.
  induction l as [|[p c] l IH]; simpl; [contradiction|].
  destruct (Fs.child_name d p) as [n0|] eqn:Hc.
  - intros [<-|Hin].
    + apply child_name_join in Hc. rewrite Hc, String.eqb_refl. now exists c.
    + destruct (String.eqb p (Py.join d n)); [now exists c | now apply IH].
  - intros Hin. destruct (String.eqb p (Py.join d n)); [now exists c | now apply IH].
Qed.

Lemma listdir_getsize (d : string) (fs : Fs.t) (names : list string) (n : string) :
  Fs.listdir d fs = Some names -> In n names ->
  exists size, Fs.getsize (Py.join d n) fs = Some size.
Proof.
  unfold Fs.listdir. destruct (Fs.isdir d fs); [|discriminate].
  intros H Hin. injection H as <-.
  destruct (children_are_files _ _ _ Hin) as [c Hc].
  unfold Fs.getsize, Fs.read. rewrite Hc. eexists. reflexivity.
Qed.

(** ** scan_for_chunks *)

Section ScanFacts.

Variable E : Env.

Lemma scanned_same (s : State) :
  scanned s (file_chunks s) (chunk_number s) (sum_chunk_size s) = s.
Proof. destruct s. reflexivity. Qed.

Lemma scanned_scanned (s : State) (a a' : list string) (b b' c c' : Z) :
  scanned (scanned s a b c) a' b' c' = scanned s a' b' c'.
Proof. reflexivity. Qed.

Lemma chunk_size_scanned (s : State) (a : list string) (b c : Z) (x : string) :
  chunk_size (scanned s a b c) x = chunk_size s x.
Proof. reflexivity. Qed.

(** One matching directory entry. *)
Lemma scan_candidate_match (s : State) (c : string) (n : Z) :
  is_chunk_of E (file s) c = true ->
  Fs.getsize (Py.join (rclone_folder_with_chunks s) c) (fs s) = Some n ->
  scan_candidate E c s =
    Ok tt (scanned s (file_chunks s ++ [c]) (chunk_number s + 1) (sum_chunk_size s + n)).
Proof.
  intros Hc Hn. unfold scan_candidate. unfold bind at 1. unfold get at 1.
  rewrite Hc. unfold bind at 1. unfold modify at 1. unfold bind at 1. unfold get at 1.
  unfold bind at 1.
  change (Fs.getsize _ _) with (Fs.getsize (Py.join (rclone_folder_with_chunks s) c) (fs s)).
  rewrite Hn. reflexivity.
Qed.

Lemma scan_candidate_other (s : State) (c : string) :
  is_chunk_of E (file s) c = false -> scan_candidate E c s = Ok tt s.
Proof.
  intros Hc. unfold scan_candidate. unfold bind at 1. unfold get at 1.
  now rewrite Hc.
Qed.

(** The loop of the scan, from any values of the accumulators. *)
Lemma scan_loop (candidates : list string) :
  forall (s : State) (chunks : list string) (number sum : Z),
    (forall c, In c candidates ->
       exists n, Fs.getsize (Py.join (rclone_folder_with_chunks s) c) (fs s) = Some n) ->
    for_each candidates (scan_candidate E) (scanned s chunks number sum) =
      Ok tt
        (scanned s
           (chunks ++ filter (is_chunk_of E (file s)) candidates)
           (number + Z.of_nat (List.length (filter (is_chunk_of E (file s)) candidates)))
           (sum +
            fold_right Z.add 0 (map (chunk_size s) (filter (is_chunk_of E (file s)) candidates)))).
Proof.
  induction candidates as [|c candidates IH]; intros s chunks number sum Hfiles.
  - cbn [for_each filter map fold_right List.length]. unfold ret.
    now rewrite app_nil_r, !Z.add_0_r.
  - cbn [for_each filter]. unfold bind at 1.
    destruct (is_chunk_of E (file s) c) eqn:Hc.
    + destruct (Hfiles c (or_introl eq_refl)) as [n Hn].
      rewrite (scan_candidate_match _ c n) by assumption.
      rewrite scanned_scanned.
      change (file_chunks (scanned s chunks number sum)) with chunks.
      change (chunk_number (scanned s chunks number sum)) with number.
      change (sum_chunk_size (scanned s chunks number sum)) with sum.
      rewrite IH by (intros c' Hc'; apply Hfiles; now right).
      cbn [map fold_right List.length].
      unfold chunk_size at 2. rewrite Hn.
      rewrite <- app_assoc. cbn [app].
      f_equal. f_equal; lia.
    + rewrite scan_candidate_other by assumption.
      apply IH. intros c' Hc'. apply Hfiles. now right.
Qed.

(** C10.  Whatever the accumulators held before the call, when the chunk
    folder can be listed [scan_for_chunks] returns, and on return
    [file_chunks] holds exactly the entries that match the current file,
    [chunk_number] is their number, [sum_chunk_size] (also the value
    returned) is the sum of their sizes, and nothing else has changed; so
    two states that agree on the file system, the file name and the
    folder get the same three values. *)
Theorem scan_for_chunks_resets_and_counts (s : State) (candidates : list string) :
  Fs.listdir (rclone_folder_with_chunks s) (fs s) = Some candidates ->
  let found := filter (is_chunk_of E (file s)) candidates in
  let total := fold_right Z.add 0 (map (chunk_size s) found) in
  scan_for_chunks E s = Ok total (scanned s found (Z.of_nat (List.length found)) total) /\
  (forall n, In n found ->
     Fs.getsize (Py.join (rclone_folder_with_chunks s) n) (fs s) = Some (chunk_size s n)) /\
  (forall s2, fs s2 = fs s -> file s2 = file s ->
     rclone_folder_with_chunks s2 = rclone_folder_with_chunks s ->
     exists s2', scan_for_chunks E s2 = Ok total s2' /\
       file_chunks s2' = found /\
       chunk_number s2' = Z.of_nat (List.length found) /\
       sum_chunk_size s2' = total).
Proof.
  intros Hls found total.
  assert (Run : forall s2, fs s2 = fs s -> file s2 = file s ->
            rclone_folder_with_chunks s2 = rclone_folder_with_chunks s ->
            scan_for_chunks E s2 =
              Ok total (scanned s2 found (Z.of_nat (List.length found)) total)).
  { intros s2 Hfs Hfile Hdir. unfold scan_for_chunks.
    unfold bind at 1. unfold modify at 1.
    unfold bind at 1. unfold modify at 1.
    unfold bind at 1. unfold modify at 1.
    unfold bind at 1. unfold get at 1.
    change (set_file_chunks [] (set_chunk_number 0 (set_sum_chunk_size 0 s2)))
      with (scanned s2 [] 0 0).
    unfold bind at 1. unfold try_except.
    unfold bind at 1. unfold lift_opt.
    change (Fs.listdir _ _) with (Fs.listdir (rclone_folder_with_chunks s2) (fs s2)).
    rewrite Hdir, Hfs, Hls. unfold ret at 1.
    rewrite scan_loop.
    2:{ intros c Hc. rewrite Hdir, Hfs. exact (listdir_getsize _ _ _ _ Hls Hc). }
    unfold bind, get, ret.
    change (sum_chunk_size (scanned s2 ?a ?b ?c)) with c.
    rewrite Hfile. rewrite !Z.add_0_l. cbn [app].
    assert (Hsize : forall c, chunk_size s2 c = chunk_size s c).
    { intros c. unfold chunk_size. now rewrite Hdir, Hfs. }
    rewrite (map_ext _ _ Hsize). fold found. fold total.
    reflexivity. }
  split; [now apply Run|]. split.
  - intros n Hn. apply filter_In in Hn. destruct Hn as [Hn _].
    destruct (listdir_getsize _ _ _ _ Hls Hn) as [size Hsize].
    unfold chunk_size. now rewrite Hsize.
  - intros s2 Hfs Hfile Hdir. eexists. split; [now apply Run|].
    repeat split.
Qed.

End ScanFacts.

(** ** Frame rules *)

Section Keeps.

Context {X : Type} (f : State -> X).

Lemma keeps_ret {A} (a : A) : keeps f (ret a).
Proof. intros s. reflexivity. Qed.

Lemma keeps_get : keeps f get.
Proof. intros s. reflexivity. Qed.

Lemma keeps_raise {A} : keeps f (@raise A).
Proof. intros s. reflexivity. Qed.

Lemma keeps_sys_exit {A} : keeps f (@sys_exit A).
Proof. intros s. reflexivity. Qed.

Lemma keeps_modify (g : State -> State) : (forall s, f (g s) = f s) -> keeps f (modify g).
Proof. intros H s. apply H. Qed.

Lemma keeps_lift_opt {A} (o : option A) : keeps f (lift_opt o).
Proof. destruct o; intros s; reflexivity. Qed.

Lemma keeps_bind {A B} (m : M A) (k : A -> M B) :
  keeps f m -> (forall a, keeps f (k a)) -> keeps f (bind m k).
Proof.
  intros Hm Hk s. unfold bind. specialize (Hm s).
  destruct (m s) as [a s'| |]; cbn [final] in *; try exact Hm.
  now rewrite Hk.
Qed.

Lemma keeps_try_except {A} (m h : M A) : keeps f m -> keeps f h -> keeps f (try_except m h).
Proof.
  intros Hm Hh s. unfold try_except. specialize (Hm s).
  destruct (m s) as [a s'| |]; cbn [final] in *; try exact Hm; now rewrite Hh.
Qed.

Lemma keeps_for_each {A} (l : list A) (body : A -> M unit) :
  (forall a, keeps f (body a)) -> keeps f (for_each l body).
Proof.
  intros Hb. induction l as [|a l IH]; cbn [for_each].
  - apply keeps_ret.
  - apply keeps_bind; [apply Hb | intros _; exact IH].
Qed.

End Keeps.

Ltac keeps_step :=
  lazymatch goal with
  | |- keeps _ (bind _ _) => apply keeps_bind; [|intros ?]
  | |- keeps _ (ret _) => apply keeps_ret
  | |- keeps _ get => apply keeps_get
  | |- keeps _ raise => apply keeps_raise
  | |- keeps _ sys_exit => apply keeps_sys_exit
  | |- keeps _ (lift_opt _) => apply keeps_lift_opt
  | |- keeps _ (try_except _ _) => apply keeps_try_except
  | |- keeps _ (for_each _ _) => apply keeps_for_each; intros ?
  | |- keeps _ (modify _) => apply keeps_modify; intros ?; reflexivity
  | |- keeps _ (logging _ _) => unfold logging
  | |- keeps _ (critical_failure _) => unfold critical_failure
  | |- keeps _ (if ?c then _ else _) => destruct c
  | |- keeps _ (match ?x with _ => _ end) => destruct x
  end.

Ltac keeps_auto := repeat keeps_step.

Section FrameFacts.

Variable E : Env.

Lemma scan_candidate_keeps (c : string) : keeps outside_scan (scan_candidate E c).
Proof. unfold scan_candidate. keeps_auto. Qed.

Lemma run_tests_keeps : keeps outside_tests (run_tests E).
Proof. unfold run_tests, test_passed. keeps_auto. Qed.

Lemma launch_keeps_counter (c : Command) :
  keeps file_already_chunked_verified (launch E c).
Proof. unfold launch. keeps_auto. Qed.

Lemma flush_chunk_keeps_counter (c : string) :
  keeps file_already_chunked_verified (flush_chunk E c).
Proof.
  unfold flush_chunk. keeps_auto; try apply launch_keeps_counter.
Qed.

End FrameFacts.

(** ** verify_chunk_integrity *)

Section VerifyFacts.

Variable E : Env.

Lemma true_div_nonzero (a b : Q) : ~ (b == 0)%Q -> Py.true_div a b = Some (a / b)%Q.
Proof.
  intros H. unfold Py.true_div. destruct (Qeq_bool b 0) eqn:Hb; [|reflexivity].
  apply Qeq_bool_eq in Hb. contradiction.
Qed.

(** With a first chunk to measure and a non-zero [max_zip_size] the three
    tests run to their end and add the number of tests passed. *)
Lemma run_tests_counts (s : State) (first : string) (size : Z) :
  ~ (max_zip_size E == 0)%Q ->
  hd_error (file_chunks s) = Some first ->
  Fs.getsize (Py.join (rclone_folder_with_chunks s) first) (fs s) = Some size ->
  exists s',
    run_tests E s = Ok tt s' /\
    file_already_chunked_verified s' =
      file_already_chunked_verified s + tests_passed E s size.
Proof.
  intros Hz Hhd Hsize. unfold run_tests.
  unfold bind, get, lift_opt, ret, logging, test_passed, modify.
  rewrite (true_div_nonzero _ _ Hz), Hhd. cbv beta iota zeta.
  unfold tests_passed, count_test, total_size_test, leading_size_test.
  destruct (chunk_number s =? _), (sum_chunk_size s =? file_size s);
    cbn [negb fs rclone_folder_with_chunks set_log set_file_already_chunked_verified];
    rewrite Hsize;
    destruct (Py.Qltb 1 _ || Py.Qltb _ (-1));
    eexists; (split; [reflexivity|]); cbn; lia.
Qed.

Lemma flush_if_failed_keeps_counter :
  keeps file_already_chunked_verified (flush_if_failed E).
Proof.
  unfold flush_if_failed. keeps_auto. apply flush_chunk_keeps_counter.
Qed.

Lemma critical_failure_keeps_counter (text : string) :
  keeps file_already_chunked_verified (@critical_failure unit text).
Proof. keeps_auto. Qed.

(** The counter [verify_chunk_integrity] leaves, however the flushing of
    the chunks ends. *)
Lemma verify_counter (s : State) (first : string) (size : Z) :
  ~ (max_zip_size E == 0)%Q ->
  hd_error (file_chunks s) = Some first ->
  Fs.getsize (Py.join (rclone_folder_with_chunks s) first) (fs s) = Some size ->
  file_already_chunked_verified (final (verify_chunk_integrity E s)) =
    file_already_chunked_verified s + tests_passed E s size.
Proof.
  intros Hz Hhd Hsize. unfold verify_chunk_integrity.
  unfold bind at 1. unfold modify at 1. unfold try_except. unfold bind at 1.
  destruct (run_tests_counts (set_chunks_to_skip [] s) first size Hz Hhd Hsize)
    as [s' [Hrun Hcount]].
  rewrite Hrun.
  pose proof (flush_if_failed_keeps_counter s') as Hf.
  destruct (flush_if_failed E s') as [[] s''| s''| s''];
    cbn [final] in Hf |- *;
    try rewrite critical_failure_keeps_counter;
    rewrite Hf; exact Hcount.
Qed.

Lemma leading_size_test_spec (size : Z) :
  leading_size_test E size = true <->
  (-1 <= inject_Z size - max_zip_size E <= 1)%Q.
Proof.
  unfold leading_size_test, Py.Qltb.
  rewrite negb_orb, !negb_involutive, andb_true_iff, !Qle_bool_iff. tauto.
Qed.


(** A first chunk cut at [max_single_file_size] fails the third test as
    soon as that size exceeds five bytes. *)
Lemma full_size_chunk_fails_leading_test :
  5 < max_single_file_size E -> leading_size_test E (max_single_file_size E) = false.
Proof.
  intros H. destruct (leading_size_test E (max_single_file_size E)) eqn:L; [|reflexivity].
  apply leading_size_test_spec in L. destruct L as [_ L].
  exfalso. revert L. unfold max_zip_size, Qle, Qminus, Qplus, Qmult, Qdiv, Qinv, Qopp.
  cbn. lia.
Qed.

(** X17.  Whatever else holds, a chunk set whose first chunk has the full
    [max_single_file_size], as [chunk_zip_file] cuts it, is INVALID. *)
Lemma full_size_chunks_never_verify (s : State) (first : string) :
  5 < max_single_file_size E ->
  file_already_chunked_verified s = 0 ->
  hd_error (file_chunks s) = Some first ->
  Fs.getsize (Py.join (rclone_folder_with_chunks s) first) (fs s)
    = Some (max_single_file_size E) ->
  verdict (final (verify_chunk_integrity E s)) = INVALID.
Proof.
  intros H5 H0 Hhd Hsize. unfold verdict.
  assert (Hz : ~ (max_zip_size E == 0)%Q).
  { unfold max_zip_size, Qeq, Qmult, Qdiv, Qinv. cbn. lia. }
  rewrite (verify_counter s first _ Hz Hhd Hsize), H0.
  unfold tests_passed. rewrite (full_size_chunk_fails_leading_test H5).
  destruct (count_test E s), (total_size_test s); reflexivity.
Qed.

End VerifyFacts.



(** C8.  A chunk set that fails verification while [rclone deletefile]
    exits with status 1: every chunk is removed from the chunk folder, a
    remote delete is launched for every chunk, the chunks are put on the
    skip list and the function returns; but the failure of the remote
    delete leaves no error in the log, only the warnings of the failed
    tests are there. *)
Theorem failed_remote_delete_is_not_logged :
  exists s',
    verify_chunk_integrity (demo_env 10 (Returned 1)) split_at_10_state = Ok tt s' /\
    verdict s' = INVALID /\
    Fs.listdir "/data/.rclone" (fs s') = Some [] /\
    issued s' =
      map (chunk_delete (demo_env 10 (Returned 1)) split_at_10_state)
        (file_chunks split_at_10_state) /\
    chunks_to_skip s' = file_chunks split_at_10_state /\
    filter is_error (log s') = [] /\
    List.length (log s') = 2%nat.
Proof.
  eexists. split; [vm_compute; reflexivity|]. vm_compute. repeat split.
Qed.

(** When the launching call itself raises, the error is logged and the
    function still returns. *)
Lemma raised_remote_delete_is_logged :
  exists s',
    verify_chunk_integrity (demo_env 10 Failed) split_at_10_state = Ok tt s' /\
    Fs.listdir "/data/.rclone" (fs s') = Some [] /\
    List.length (filter is_error (log s')) = 3%nat.
Proof.
  eexists. split; [vm_compute; reflexivity|]. vm_compute. repeat split.
Qed.

(** C2.  With [max_single_file_size = 10] a file of 25 bytes is archived
    and split into chunks of 10, 10 and 9 bytes, which the closing scan
    finds; [verify_chunk_integrity] run right then passes none of its
    three tests, ends INVALID and flushes the chunks just made. *)
Theorem fresh_chunks_fail_verification :
  exists s1 s2,
    create_chunks_again (demo_env 10 (Returned 0)) fresh_state = Ok tt s1 /\
    file_chunks s1 = ["movie.bin.zip.001"; "movie.bin.zip.002"; "movie.bin.zip.003"] /\
    map (chunk_size s1) (file_chunks s1) = [10; 10; 9] /\
    file_already_chunked_verified s1 = 0 /\
    verify_chunk_integrity (demo_env 10 (Returned 0)) s1 = Ok tt s2 /\
    verdict s2 = INVALID /\
    file_already_chunked_verified s2 = 0 /\
    Fs.listdir "/data/.rclone" (fs s2) = Some [].
Proof.
  eexists. eexists. split; [vm_compute; reflexivity|].
  split; [reflexivity|]. split; [vm_compute; reflexivity|].
  split; [reflexivity|]. split; [vm_compute; reflexivity|].
  vm_compute. repeat split.
Qed.

(** ** The main loop body *)

(** C5.  With [max_single_file_size = 10] a file of exactly 10 bytes and
    no chunks is passed over: the loop body returns with no command
    launched and the file system untouched. *)
Theorem file_of_threshold_size_is_not_transferred :
  exists s',
    process_file (demo_env 10 (Returned 0)) "movie.bin" (start_state (fresh_fs 10) "/data")
      = Ok tt s' /\
    file_size s' = max_single_file_size (demo_env 10 (Returned 0)) /\
    issued s' = [] /\
    log s' = [] /\
    fs s' = fresh_fs 10.
Proof.
  eexists. split; [vm_compute; reflexivity|]. vm_compute. repeat split.
Qed.

(** One byte less and the file is handed to [rclone copy]. *)
Lemma file_below_threshold_is_transferred :
  exists s',
    process_file (demo_env 10 (Returned 0)) "movie.bin" (start_state (fresh_fs 9) "/data")
      = Ok tt s' /\
    issued s' = [RcloneCopy "/data/movie.bin" "backup/"].
Proof.
  eexists. split; [vm_compute; reflexivity|]. reflexivity.
Qed.

Section TransferFacts.

Variable E : Env.


End TransferFacts.

Section PassFacts.

Variable E : Env.






Lemma for_each_cons {A} (a : A) (l : list A) (body : A -> M unit) (s : State) :
  for_each (a :: l) body s =
    match body a s with
    | Ok _ s' => for_each l body s'
    | Exn s' => Exn s'
    | Halt s' => Halt s'
    end.
Proof. reflexivity. Qed.







End PassFacts.


(** C10's witness: the scan of the chunk folder of [chunked_fs]. *)
Lemma scan_for_chunks_resets_and_counts_witness :
  scan_for_chunks (demo_env 10 (Returned 0)) chunked_state =
    Ok 20 (scanned chunked_state ["movie.bin.001"; "movie.bin.002"; "movie.bin.003"] 3 20).
Proof.
  pose proof (scan_for_chunks_resets_and_counts (demo_env 10 (Returned 0)) chunked_state
                ["movie.bin.001"; "movie.bin.002"; "movie.bin.003"]) as H.
  destruct H as [H _].
  - vm_compute. reflexivity.
  - vm_compute in H. vm_compute. exact H.
Defined.

(** ** The flushing of a chunk set *)

Section FlushFacts.

Variable E : Env.

Lemma flush_chunk_returned (c : string) (s : State) (status : Z) :
  Fs.isfile (Py.join (rclone_folder_with_chunks s) c) (fs s) = true ->
  run E (issued s) (chunk_delete E s c) = Returned status ->
  flush_chunk E c s = Ok tt (flushed E s c).
Proof.
  intros Hfile Hrun. unfold flush_chunk, launch, Fs.remove.
  cbv [bind get lift_opt]. rewrite Hfile.
  cbv [ret modify try_except raise logging].
  cbn [issued set_fs].
  change (run E (issued s) _) with (run E (issued s) (chunk_delete E s c)).
  rewrite Hrun. reflexivity.
Qed.

(** X16.  Whatever exit statuses the remote deletes come back with, the
    loop over a chunk set whose files are all there runs to its end: every
    chunk is removed from the chunk folder, a remote delete has been
    launched for every chunk in turn, every chunk is on the skip list, and
    the log is as it was. *)
Lemma flush_loop (chunks : list string) :
  forall s : State,
    NoDup (map (Py.join (rclone_folder_with_chunks s)) chunks) ->
    (forall c, In c chunks ->
       Fs.isfile (Py.join (rclone_folder_with_chunks s) c) (fs s) = true) ->
    (forall h c, run E h c <> Failed) ->
    exists s',
      for_each chunks (flush_chunk E) s = Ok tt s' /\
      (forall c, In c chunks ->
         Fs.isfile (Py.join (rclone_folder_with_chunks s) c) (fs s') = false) /\
      (forall q, Fs.isfile q (fs s) = false -> Fs.isfile q (fs s') = false) /\
      issued s' = (issued s ++ map (chunk_delete E s) chunks)%list /\
      chunks_to_skip s' = (chunks_to_skip s ++ chunks)%list /\
      log s' = log s.
Proof.
  induction chunks as [|c chunks IH]; intros s Hnd Hfiles Hrun.
  - exists s. cbn [for_each map]. rewrite !app_nil_r. unfold ret.
    repeat split; try reflexivity; [intros c [] | intros q H; exact H].
  - rewrite for_each_cons.
    destruct (run E (issued s) (chunk_delete E s c)) as [status|] eqn:Hr;
      [|now apply Hrun in Hr].
    rewrite (flush_chunk_returned c s status) by (try apply Hfiles; try assumption; now left).
    cbn [map] in Hnd. apply NoDup_cons_iff in Hnd. destruct Hnd as [Hnotin Hnd].
    set (p := Py.join (rclone_folder_with_chunks s) c) in *.
    assert (Hother : forall q, q <> p ->
              Fs.isfile q (fs (flushed E s c)) = Fs.isfile q (fs s)).
    { intros q Hq. unfold Fs.isfile, Fs.read, flushed. cbn [fs set_chunks_to_skip set_issued
        set_fs Fs.files]. fold p. now rewrite lookup_delete_other by congruence. }
    assert (Hgone : Fs.isfile p (fs (flushed E s c)) = false).
    { unfold Fs.isfile, Fs.read, flushed. cbn [fs set_chunks_to_skip set_issued
        set_fs Fs.files]. fold p. now rewrite lookup_delete_same. }
    destruct (IH (flushed E s c)) as [s' [Hs' [Hrm [Hkeep [Hiss [Hskip Hlog]]]]]].
    + exact Hnd.
    + intros c' Hc'. change (rclone_folder_with_chunks (flushed E s c))
        with (rclone_folder_with_chunks s).
      rewrite Hother; [apply Hfiles; now right|].
      intros Heq. apply Hnotin. rewrite <- Heq. now apply in_map.
    + exact Hrun.
    + exists s'. split; [exact Hs'|].
      change (rclone_folder_with_chunks (flushed E s c))
        with (rclone_folder_with_chunks s) in Hrm.
      change (issued (flushed E s c)) with (issued s ++ [chunk_delete E s c])%list in Hiss.
      change (chunks_to_skip (flushed E s c)) with (chunks_to_skip s ++ [c])%list in Hskip.
      change (log (flushed E s c)) with (log s) in Hlog.
      change (chunk_delete E (flushed E s c)) with (chunk_delete E s) in Hiss.
      repeat split.
      * intros c' [<-|Hc']; [now apply Hkeep | now apply Hrm].
      * intros q Hq. apply Hkeep.
        destruct (String.eqb_spec q p) as [->|Hne]; [exact Hgone | now rewrite Hother].
      * rewrite Hiss, <- app_assoc. reflexivity.
      * rewrite Hskip, <- app_assoc. reflexivity.
      * exact Hlog.
Qed.

End FlushFacts.

(** * Further properties *)

(** ** What Split writes *)

Lemma ceil_as_div (a b : Z) :
  0 < b -> Py.ceil (inject_Z a / inject_Z b)%Q = (a + b - 1) / b.
Proof.
  intros Hb. unfold Py.ceil, Qceiling.
  assert (E : (- (inject_Z a / inject_Z b) == inject_Z (- a) / inject_Z b)%Q).
  { rewrite inject_Z_opp. unfold Qdiv. ring. }
  rewrite (Qfloor_comp _ _ E), <- Zdiv_Qdiv.
  apply Z.div_unique with (r := b - 1 - (- a) mod b).
  - left. pose proof (Z.mod_pos_bound (- a) b Hb). lia.
  - pose proof (Z.div_mod (- a) b ltac:(lia)). lia.
Qed.

Lemma pieces_length (c : nat) (fuel : nat) :
  forall rest : list byte,
    (0 < c)%nat -> (List.length rest <= fuel)%nat ->
    Z.of_nat (List.length (pieces fuel c rest)) =
      (Z.of_nat (List.length rest) + Z.of_nat c - 1) / Z.of_nat c.
Proof.
  induction fuel as [|fuel IH]; intros rest Hc Hlen.
  - destruct rest; [|simpl in Hlen; lia]. cbn [pieces List.length].
    symmetry. apply Z.div_small. lia.
  - destruct rest as [|b r].
    + cbn [pieces List.length]. symmetry. apply Z.div_small. lia.
    + cbn [pieces]. cbn [List.length] in Hlen.
      change (List.length (firstn c (b :: r) :: pieces fuel c (skipn c (b :: r))))
        with (S (List.length (pieces fuel c (skipn c (b :: r))))).
      rewrite Nat2Z.inj_succ, IH; [|exact Hc|rewrite length_skipn; cbn [List.length]; lia].
      rewrite length_skipn. set (n := List.length (b :: r)).
      assert (Hn : (1 <= n)%nat) by (subst n; cbn [List.length]; lia).
      destruct (Nat.le_gt_cases n c) as [Hle|Hgt].
      * replace (n - c)%nat with 0%nat by lia.
        rewrite (Z.div_small (Z.of_nat 0 + Z.of_nat c - 1)) by lia.
        apply Z.div_unique with (r := Z.of_nat n - 1); lia.
      * rewrite Nat2Z.inj_sub by lia.
        replace (Z.of_nat n + Z.of_nat c - 1)
          with (Z.of_nat n - Z.of_nat c + Z.of_nat c - 1 + 1 * Z.of_nat c) by lia.
        rewrite Z.div_add by lia. lia.
Qed.

Lemma pieces_concat (c : nat) (fuel : nat) :
  forall rest : list byte,
    (0 < c)%nat -> (List.length rest <= fuel)%nat -> concat (pieces fuel c rest) = rest.
Proof.
  induction fuel as [|fuel IH]; intros rest Hc Hlen.
  - destruct rest; [reflexivity | simpl in Hlen; lia].
  - destruct rest as [|b r]; [reflexivity|].
    cbn [pieces concat]. rewrite IH.
    + apply firstn_skipn.
    + exact Hc.
    + rewrite length_skipn. cbn [List.length] in *. lia.
Qed.

Lemma pieces_nth (c : nat) (fuel : nat) :
  forall (rest : list byte) (i : nat) (p : list byte),
    (0 < c)%nat -> (List.length rest <= fuel)%nat ->
    nth_error (pieces fuel c rest) i = Some p ->
    p = firstn c (skipn (i * c) rest) /\ p <> [].
Proof.
  induction fuel as [|fuel IH]; intros rest i p Hc Hlen Hnth.
  - destruct i; discriminate.
  - destruct rest as [|b r]; [destruct i; discriminate|].
    cbn [pieces] in Hnth. destruct i as [|i].
    + cbn in Hnth. injection Hnth as <-. split; [reflexivity|].
      destruct c; [lia | discriminate].
    + cbn [nth_error] in Hnth. apply IH in Hnth.
      * destruct Hnth as [-> Hne]. split; [|exact Hne].
        rewrite skipn_skipn. f_equal. f_equal. lia.
      * exact Hc.
      * rewrite length_skipn. cbn [List.length] in *. lia.
Qed.

Lemma chunks_of_count (C : Z) (data : list byte) :
  0 < C -> data <> [] ->
  Z.of_nat (List.length (chunks_of C data)) =
    Plan_expectedCount (Z.of_nat (List.length data)) C.
Proof.
  intros Hc Hd. unfold chunks_of, Plan_expectedCount.
  rewrite pieces_length by lia. rewrite ceil_as_div by exact Hc.
  rewrite Z2Nat.id by lia.
  assert (1 <= Z.of_nat (List.length data)) by (destruct data; [congruence | simpl; lia]).
  assert (1 <= (Z.of_nat (List.length data) + C - 1) / C).
  { apply Z.div_le_lower_bound; lia. }
  lia.
Qed.

Lemma ordinals_length (n : nat) : List.length (ordinals n) = n.
Proof. unfold ordinals. now rewrite length_map, length_seq. Qed.

Lemma ordinals_nth (n i : nat) :
  (i < n)%nat -> nth_error (ordinals n) i = Some (1 + Z.of_nat i).
Proof.
  intros H. unfold ordinals. rewrite nth_error_map, nth_error_seq.
  destruct (Nat.ltb_spec i n); [|lia]. cbn [option_map]. f_equal. lia.
Qed.

Lemma read_in_order (f : string) (fs' : Fs.t) (ps : list (list byte)) :
  forall start : nat,
    (forall i, (i < List.length ps)%nat ->
       Fs.read (part_name f (Z.of_nat start + Z.of_nat i)) fs' = nth_error ps i) ->
    map (fun k => Fs.read (part_name f k) fs') (map Z.of_nat (seq start (List.length ps))) =
    map Some ps.
Proof.
  induction ps as [|p ps IH]; intros start H; [reflexivity|].
  cbn [List.length seq map]. f_equal.
  - specialize (H 0%nat ltac:(cbn [List.length]; lia)).
    rewrite Z.add_0_r in H. exact H.
  - apply IH. intros i Hi.
    specialize (H (S i) ltac:(cbn [List.length]; lia)). cbn [nth_error] in H.
    rewrite <- H. f_equal. f_equal. lia.
Qed.

Lemma slice_length (C : Z) (data : list byte) (k : Z) :
  0 < C -> 1 <= k ->
  Z.of_nat (List.length (slice C data k)) =
    Z.max 0 (Z.min C (Z.of_nat (List.length data) - (k - 1) * C)).
Proof.
  intros Hc Hk. unfold slice. rewrite length_firstn, length_skipn. nia.
Qed.


(** X2.  After that split, part [k] holds the [CHUNK_SIZE] bytes of the
    input from offset [(k - 1) * CHUNK_SIZE] on: every part but the last
    has exactly [CHUNK_SIZE] bytes, and the last has the rest, at least
    one byte and at most [CHUNK_SIZE]. *)
Theorem Split_part_contents (InputFile FileType : string) (C : Z) (fs : Fs.t)
  (data : list byte) :
  FileType = "b" ->
  0 < C ->
  data <> [] ->
  Fs.read InputFile fs = Some data ->
  exists self fs',
    FileSpliter.prepare_and_split InputFile FileType C fs = FileSpliter.Val (true, self, fs') /\
    forall k, 1 <= k < FileSpliter.CurrentPartNo self ->
      Fs.read (part_name InputFile k) fs' = Some (slice C data k) /\
      (k < FileSpliter.CurrentPartNo self - 1 ->
         Z.of_nat (List.length (slice C data k)) = C) /\
      1 <= Z.of_nat (List.length (slice C data k)) <= C.
Proof.
  intros Hft Hc Hdata Hread.
  destruct (prepare_and_split_writes InputFile FileType C fs data (or_introl Hft) Hc Hdata Hread)
    as [self [HS [HN _]]].
  exists self. eexists. split; [exact HS|].
  intros k Hk.
  pose proof (chunks_of_count C data Hc Hdata) as Hcount.
  assert (Hk' : (Z.to_nat (k - 1) < List.length (chunks_of C data))%nat) by lia.
  pose proof (read_write_parts InputFile (chunks_of C data) 1 fs _ Hk') as Hr.
  replace (1 + Z.of_nat (Z.to_nat (k - 1))) with k in Hr by lia.
  destruct (nth_error (chunks_of C data) (Z.to_nat (k - 1))) as [p|] eqn:Hnth.
  2:{ apply nth_error_None in Hnth. lia. }
  unfold chunks_of in Hnth.
  apply pieces_nth in Hnth; [|lia|lia]. destruct Hnth as [Hp Hne].
  assert (Hslice : p = slice C data k).
  { rewrite Hp. unfold slice. f_equal. f_equal. rewrite Z2Nat.inj_mul by lia. reflexivity. }
  rewrite <- Hslice. split; [exact Hr|].
  rewrite Hslice in *. clear Hp Hslice Hr.
  pose proof (slice_length C data k Hc ltac:(lia)) as HL.
  unfold Plan_expectedCount in Hcount. rewrite ceil_as_div in Hcount by exact Hc.
  set (len := Z.of_nat (List.length data)) in *.
  set (n := Z.of_nat (List.length (chunks_of C data))) in *.
  assert (Hlen : 1 <= len) by (subst len; destruct data; [congruence | simpl; lia]).
  assert (Hdiv : 1 <= (len + C - 1) / C) by (apply Z.div_le_lower_bound; lia).
  assert (Hn : n = (len + C - 1) / C) by lia.
  pose proof (Z.mul_div_le (len + C - 1) C Hc) as Hlow.
  pose proof (Z.mul_succ_div_gt (len + C - 1) C Hc) as Hup.
  rewrite <- Hn in Hlow, Hup.
  assert (Hpos : 1 <= Z.of_nat (List.length (slice C data k))).
  { destruct (slice C data k); [congruence | simpl; lia]. }
  split; [intros Hlt; nia | nia].
Qed.

(** X3.  Read back in the order of their ordinals and put end to end,
    the parts of that split are the input, byte for byte. *)
Theorem Split_parts_concatenate_to_input (InputFile FileType : string) (C : Z) (fs : Fs.t)
  (data : list byte) :
  FileType = "b" ->
  0 < C ->
  data <> [] ->
  Fs.read InputFile fs = Some data ->
  exists self fs' ps,
    FileSpliter.prepare_and_split InputFile FileType C fs = FileSpliter.Val (true, self, fs') /\
    map (fun k => Fs.read (part_name InputFile k) fs')
      (ordinals (Z.to_nat (FileSpliter.CurrentPartNo self - 1))) = map Some ps /\
    concat ps = data.
Proof.
  intros Hft Hc Hdata Hread.
  destruct (prepare_and_split_writes InputFile FileType C fs data (or_introl Hft) Hc Hdata Hread)
    as [self [HS [HN _]]].
  exists self. eexists. exists (chunks_of C data). split; [exact HS|]. split.
  - replace (Z.to_nat (FileSpliter.CurrentPartNo self - 1))
      with (List.length (chunks_of C data)) by lia.
    unfold ordinals. apply read_in_order. intros i Hi.
    now apply read_write_parts.
  - unfold chunks_of. apply pieces_concat; lia.
Qed.


(** X2's witness. *)
Lemma Split_part_contents_witness :
  exists self fs',
    FileSpliter.prepare_and_split "/d/a.bin" "b" 2 abc_fs = FileSpliter.Val (true, self, fs') /\
    forall k, 1 <= k < FileSpliter.CurrentPartNo self ->
      Fs.read (part_name "/d/a.bin" k) fs' = Some (slice 2 [x01; x02; x03] k) /\
      (k < FileSpliter.CurrentPartNo self - 1 ->
         Z.of_nat (List.length (slice 2 [x01; x02; x03] k)) = 2) /\
      1 <= Z.of_nat (List.length (slice 2 [x01; x02; x03] k)) <= 2.
Proof.
  apply (Split_part_contents "/d/a.bin" "b" 2 abc_fs [x01; x02; x03]).
  - reflexivity.
  - reflexivity.
  - discriminate.
  - reflexivity.
Defined.

(** X3's witness. *)
Lemma Split_parts_concatenate_to_input_witness :
  exists self fs' ps,
    FileSpliter.prepare_and_split "/d/a.bin" "b" 2 abc_fs = FileSpliter.Val (true, self, fs') /\
    map (fun k => Fs.read (part_name "/d/a.bin" k) fs')
      (ordinals (Z.to_nat (FileSpliter.CurrentPartNo self - 1))) = map Some ps /\
    concat ps = [x01; x02; x03].
Proof.
  apply (Split_parts_concatenate_to_input "/d/a.bin" "b" 2 abc_fs [x01; x02; x03]).
  - reflexivity.
  - reflexivity.
  - discriminate.
  - reflexivity.
Defined.

(** ** What Rebuild reads *)

Lemma parts_from_ext (out : string) (fs fs2 : Fs.t) (ps : list (list byte)) :
  forall k : Z,
    (forall j, k <= j -> Fs.read (out ++ Py.str j) fs2 = Fs.read (out ++ Py.str j) fs) ->
    parts_from out k ps fs -> parts_from out k ps fs2.
Proof.
  induction ps as [|p ps IH]; intros k Hext H; [exact I|].
  cbn [parts_from] in *. destruct H as [Hr [Hne Hrest]].
  split; [rewrite Hext; [exact Hr | lia]|]. split; [exact Hne|].
  apply IH; [|exact Hrest]. intros j Hj. apply Hext. lia.
Qed.

(** The loop of [Rebuild] over parts that are there, up to the end of the
    plan or up to the first part that is missing or empty. *)
Lemma Rebuild_loop_reads (ps : list (list byte)) :
  forall (fuel : nat) (parts : Z) (self : FileSpliter.t) (fs : Fs.t) (acc : list byte),
    0 <= FileSpliter.CurrentPartNo self ->
    FileSpliter.Parts self = Some parts ->
    parts_from (FileSpliter.OutFile self) (FileSpliter.CurrentPartNo self) ps fs ->
    Fs.read (FileSpliter.OutFile self) fs = Some acc ->
    (List.length ps < fuel)%nat ->
    FileSpliter.CurrentPartNo self + Z.of_nat (List.length ps) = parts \/
    (FileSpliter.CurrentPartNo self + Z.of_nat (List.length ps) < parts /\
     (Fs.read (FileSpliter.OutFile self ++
               Py.str (FileSpliter.CurrentPartNo self + Z.of_nat (List.length ps))) fs = None \/
      Fs.read (FileSpliter.OutFile self ++
               Py.str (FileSpliter.CurrentPartNo self + Z.of_nat (List.length ps))) fs
        = Some [])) ->
    exists self' fs',
      FileSpliter.Rebuild_loop fuel parts self fs =
        FileSpliter.Val
          (FileSpliter.CurrentPartNo self + Z.of_nat (List.length ps) =? parts, self', fs') /\
      Fs.read (FileSpliter.OutFile self) fs' = Some (acc ++ concat ps)%list /\
      (forall i, 0 <= i < Z.of_nat (List.length ps) ->
         Fs.read (FileSpliter.OutFile self ++ Py.str (FileSpliter.CurrentPartNo self + i)) fs'
           = None) /\
      (forall q, q <> FileSpliter.OutFile self ->
         (forall i, 0 <= i < Z.of_nat (List.length ps) ->
            q <> FileSpliter.OutFile self ++ Py.str (FileSpliter.CurrentPartNo self + i)) ->
         Fs.read q fs' = Fs.read q fs).
Proof.
  induction ps as [|p ps IH]; intros fuel parts self fs acc Hcur Hparts Hps Hout Hfuel Hend;
    (destruct fuel as [|fuel]; [cbn [List.length] in Hfuel; lia|]);
    cbn [FileSpliter.Rebuild_loop];
    set (out := FileSpliter.OutFile self) in *;
    set (cur := FileSpliter.CurrentPartNo self) in *.
  - cbn [List.length Z.of_nat] in *. rewrite Z.add_0_r in *.
    destruct Hend as [Heq | [Hlt Hgap]].
    + rewrite Heq, Z.ltb_irrefl, Z.eqb_refl.
      exists self, fs. rewrite app_nil_r. repeat split; try assumption; intros; lia.
    + destruct (Z.ltb_spec cur parts) as [_|]; [|lia].
      destruct (Z.eqb_spec cur parts) as [|_]; [lia|].
      unfold Fs.isfile, Fs.getsize.
      exists self, fs. rewrite app_nil_r.
      destruct Hgap as [-> | ->]; cbn; repeat split; try assumption; intros; lia.
  - cbn [parts_from] in Hps. destruct Hps as [Hp [Hne Hrest]].
    cbn [List.length] in Hend, Hfuel |- *.
    assert (Hlt : cur < parts) by lia.
    destruct (Z.ltb_spec cur parts) as [_|]; [|lia].
    unfold Fs.isfile, Fs.getsize. rewrite Hp.
    destruct p as [|b buf]; [congruence|].
    destruct (Z.gtb_spec (Z.of_nat (List.length (b :: buf))) 0) as [_|Hz];
      [|cbn [List.length] in Hz; lia].
    cbn [andb negb].
    assert (Hname : forall j, out ++ Py.str j <> out)
      by (intros j; apply append_neq_self, str_nonempty).
    unfold Fs.append. rewrite Hout.
    set (fs1 := Fs.write out (acc ++ b :: buf) fs).
    assert (Hp1 : Fs.read (out ++ Py.str cur) fs1 = Some (b :: buf)).
    { unfold fs1. rewrite read_write_other; [exact Hp|]. intros E. now apply (Hname cur). }
    unfold Fs.remove, Fs.isfile. rewrite Hp1.
    set (fs2 := Fs.mk (Fs.delete (out ++ Py.str cur) (Fs.files fs1)) (Fs.dirs fs1)).
    assert (Hrm : Fs.remove (out ++ Py.str cur) fs1 = Some fs2).
    { unfold Fs.remove, Fs.isfile. now rewrite Hp1. }
    set (self1 := FileSpliter.set_CurrentPartNo (cur + 1) self).
    destruct (ProgressBar_ok self1 parts Hparts ltac:(lia)) as [q Hq]. rewrite Hq.
    set (self2 := FileSpliter.set_Progress q self1).
    assert (Hother : forall x, x <> out -> x <> out ++ Py.str cur ->
                       Fs.read x fs2 = Fs.read x fs).
    { intros x Hx1 Hx2. rewrite (read_remove_other _ _ _ _ Hrm) by congruence.
      unfold fs1. now rewrite read_write_other by congruence. }
    destruct (IH fuel parts self2 fs2 (acc ++ b :: buf)%list) as [self' [fs' [HR [HO [HG HF]]]]].
    + cbn. lia.
    + exact Hparts.
    + apply parts_from_ext with (fs := fs); [|exact Hrest].
      intros j Hj. apply Hother; [apply Hname|].
      intros E. apply OutFile_part_inj in E. cbn in Hj. lia.
    + change (FileSpliter.OutFile self2) with out.
      rewrite (read_remove_other _ _ _ _ Hrm) by (intros E; now apply (Hname cur)).
      unfold fs1. apply read_write_same.
    + lia.
    + change (FileSpliter.OutFile self2) with out.
      change (FileSpliter.CurrentPartNo self2) with (cur + 1).
      replace (cur + 1 + Z.of_nat (List.length ps))
        with (cur + Z.of_nat (S (List.length ps))) by lia.
      destruct Hend as [Heq | [Hl Hgap]]; [left; exact Heq | right].
      split; [exact Hl|].
      rewrite Hother; [exact Hgap | apply Hname |].
      intros E. apply OutFile_part_inj in E. lia.
    + change (FileSpliter.OutFile self2) with out in *.
      change (FileSpliter.CurrentPartNo self2) with (cur + 1) in *.
      exists self', fs'.
      replace (cur + 1 + Z.of_nat (List.length ps))
        with (cur + Z.of_nat (S (List.length ps))) in HR by lia.
      split; [exact HR|]. split; [|split].
      * rewrite HO. cbn [concat]. now rewrite <- app_assoc.
      * intros i Hi. destruct (Z.eq_dec i 0) as [->|Hi0].
        -- rewrite Z.add_0_r. rewrite HF.
           ++ now apply read_remove_same with (fs := fs1).
           ++ apply Hname.
           ++ intros j Hj E. apply OutFile_part_inj in E. lia.
        -- replace (cur + i) with (cur + 1 + (i - 1)) by lia. apply HG. lia.
      * intros x Hx1 Hx2. rewrite HF.
        -- apply Hother; [exact Hx1|]. specialize (Hx2 0 ltac:(lia)).
           now rewrite Z.add_0_r in Hx2.
        -- exact Hx1.
        -- intros j Hj. replace (cur + 1 + j) with (cur + (j + 1)) by lia. apply Hx2. lia.
Qed.

(** X4.  In binary mode, when the parts numbered [0 .. Parts - 1] are all
    there and none is empty, [Rebuild] returns [True], the output file
    [OutFile] holds the parts put end to end in the order of their
    numbers, over whatever it held before, every part is gone, and no
    other file is touched. *)
Theorem Rebuild_concatenates_parts (self : FileSpliter.t) (fs : Fs.t)
  (ps : list (list byte)) :
  FileSpliter.FileType self = "b" ->
  FileSpliter.Parts self = Some (Z.of_nat (List.length ps)) ->
  parts_from (FileSpliter.OutFile self) 0 ps fs ->
  exists self' fs',
    FileSpliter.Rebuild self fs = FileSpliter.Val (true, self', fs') /\
    Fs.read (FileSpliter.OutFile self) fs' = Some (concat ps) /\
    (forall i, 0 <= i < Z.of_nat (List.length ps) ->
       Fs.read (FileSpliter.OutFile self ++ Py.str i) fs' = None) /\
    (forall q, q <> FileSpliter.OutFile self ->
       (forall i, 0 <= i < Z.of_nat (List.length ps) ->
          q <> FileSpliter.OutFile self ++ Py.str i) ->
       Fs.read q fs' = Fs.read q fs).
Proof.
  intros Hb Hp Hps.
  assert (Hk : FileSpliter.known_type self = true)
    by (unfold FileSpliter.known_type; now rewrite Hb).
  unfold FileSpliter.Rebuild.
  change (FileSpliter.Parts (FileSpliter.set_CurrentPartNo 0 self))
    with (FileSpliter.Parts self).
  rewrite Hp.
  change (FileSpliter.known_type (FileSpliter.set_CurrentPartNo 0 self))
    with (FileSpliter.known_type self).
  rewrite Hk. cbn [negb].
  set (self0 := FileSpliter.set_CurrentPartNo 0 self).
  assert (Hname : forall j, FileSpliter.OutFile self ++ Py.str j <> FileSpliter.OutFile self)
    by (intros j; apply append_neq_self, str_nonempty).
  destruct (Rebuild_loop_reads ps (S (Z.to_nat (Z.of_nat (List.length ps))))
              (Z.of_nat (List.length ps)) self0
              (Fs.write (FileSpliter.OutFile self) [] fs) [])
    as [self' [fs' [HR [HO [HG HF]]]]].
  - cbn. lia.
  - exact Hp.
  - apply parts_from_ext with (fs := fs); [|exact Hps].
    intros j _. apply read_write_other. intros E. now apply (Hname j).
  - apply read_write_same.
  - lia.
  - left. cbn. lia.
  - change (FileSpliter.OutFile self0) with (FileSpliter.OutFile self) in *.
    change (FileSpliter.CurrentPartNo self0) with 0 in *.
    rewrite Z.eqb_refl in HR. exists self', fs'.
    split; [exact HR|]. split; [exact HO|]. split; [exact HG|].
    intros q Hq1 Hq2. rewrite HF by assumption. now apply read_write_other.
Qed.

(** X4's witness. *)
Lemma Rebuild_concatenates_parts_witness :
  exists self' fs',
    FileSpliter.Rebuild two_parts parts_fs = FileSpliter.Val (true, self', fs') /\
    Fs.read (FileSpliter.OutFile two_parts) fs' = Some (concat [[x01; x02]; [x03]]) /\
    (forall i, 0 <= i < Z.of_nat (List.length [[x01; x02]; [x03]]) ->
       Fs.read (FileSpliter.OutFile two_parts ++ Py.str i) fs' = None) /\
    (forall q, q <> FileSpliter.OutFile two_parts ->
       (forall i, 0 <= i < Z.of_nat (List.length [[x01; x02]; [x03]]) ->
          q <> FileSpliter.OutFile two_parts ++ Py.str i) ->
       Fs.read q fs' = Fs.read q parts_fs).
Proof.
  apply (Rebuild_concatenates_parts two_parts parts_fs [[x01; x02]; [x03]]).
  - reflexivity.
  - reflexivity.
  - cbn. repeat split; discriminate.
Defined.

(** X5.  In binary mode, when the parts [0 .. j - 1] are there but part
    [j], still within the plan, is missing or empty, [Rebuild] returns
    [False]; yet by then the parts before [j] have been removed and the
    output file holds them end to end: a failed rebuild has consumed what
    it read. *)
Theorem Rebuild_stops_at_the_first_gap (self : FileSpliter.t) (fs : Fs.t)
  (ps : list (list byte)) (parts : Z) :
  FileSpliter.FileType self = "b" ->
  FileSpliter.Parts self = Some parts ->
  Z.of_nat (List.length ps) < parts ->
  parts_from (FileSpliter.OutFile self) 0 ps fs ->
  Fs.read (FileSpliter.OutFile self ++ Py.str (Z.of_nat (List.length ps))) fs = None \/
  Fs.read (FileSpliter.OutFile self ++ Py.str (Z.of_nat (List.length ps))) fs = Some [] ->
  exists self' fs',
    FileSpliter.Rebuild self fs = FileSpliter.Val (false, self', fs') /\
    Fs.read (FileSpliter.OutFile self) fs' = Some (concat ps) /\
    (forall i, 0 <= i < Z.of_nat (List.length ps) ->
       Fs.read (FileSpliter.OutFile self ++ Py.str i) fs' = None).
Proof.
  intros Hb Hp Hlt Hps Hgap.
  assert (Hk : FileSpliter.known_type self = true)
    by (unfold FileSpliter.known_type; now rewrite Hb).
  unfold FileSpliter.Rebuild.
  change (FileSpliter.Parts (FileSpliter.set_CurrentPartNo 0 self))
    with (FileSpliter.Parts self).
  rewrite Hp.
  change (FileSpliter.known_type (FileSpliter.set_CurrentPartNo 0 self))
    with (FileSpliter.known_type self).
  rewrite Hk. cbn [negb].
  set (self0 := FileSpliter.set_CurrentPartNo 0 self).
  assert (Hname : forall j, FileSpliter.OutFile self ++ Py.str j <> FileSpliter.OutFile self)
    by (intros j; apply append_neq_self, str_nonempty).
  assert (Hw : forall j, Fs.read (FileSpliter.OutFile self ++ Py.str j)
                           (Fs.write (FileSpliter.OutFile self) [] fs) =
                         Fs.read (FileSpliter.OutFile self ++ Py.str j) fs).
  { intros j. apply read_write_other. intros E. now apply (Hname j). }
  destruct (Rebuild_loop_reads ps (S (Z.to_nat parts)) parts self0
              (Fs.write (FileSpliter.OutFile self) [] fs) [])
    as [self' [fs' [HR [HO [HG _]]]]].
  - cbn. lia.
  - exact Hp.
  - apply parts_from_ext with (fs := fs); [|exact Hps]. intros j _. apply Hw.
  - apply read_write_same.
  - lia.
  - right. change (FileSpliter.OutFile self0) with (FileSpliter.OutFile self).
    change (FileSpliter.CurrentPartNo self0) with 0. rewrite Z.add_0_l.
    split; [exact Hlt|]. now rewrite Hw.
  - change (FileSpliter.OutFile self0) with (FileSpliter.OutFile self) in *.
    change (FileSpliter.CurrentPartNo self0) with 0 in *.
    rewrite Z.add_0_l in HR.
    destruct (Z.eqb_spec (Z.of_nat (List.length ps)) parts) as [|_]; [lia|].
    exists self', fs'. split; [exact HR|]. split; [exact HO | exact HG].
Qed.

(** X5's witness: part 0 of two is there, part 1 is not. *)
Lemma Rebuild_stops_at_the_first_gap_witness :
  exists self' fs',
    FileSpliter.Rebuild two_parts gap_fs = FileSpliter.Val (false, self', fs') /\
    Fs.read (FileSpliter.OutFile two_parts) fs' = Some (concat [[x01; x02]]) /\
    (forall i, 0 <= i < Z.of_nat (List.length [[x01; x02]]) ->
       Fs.read (FileSpliter.OutFile two_parts ++ Py.str i) fs' = None).
Proof.
  apply (Rebuild_stops_at_the_first_gap two_parts gap_fs [[x01; x02]] 2).
  - reflexivity.
  - reflexivity.
  - reflexivity.
  - cbn. repeat split; discriminate.
  - left. reflexivity.
Defined.

(** X6.  [Split] and [Rebuild] do not fit together.  In binary mode, for
    every non-empty input and every positive chunk size, with no file
    lying at the name of part 0 beforehand, a [Rebuild] on the object
    that has just split the input returns [False]: [Split] numbers the
    parts from 1, [Rebuild] asks for part 0 first.  It leaves an empty
    output file; the input is as it was and the parts of the split are
    all still there, in order the bytes of the input. *)
Theorem Split_then_Rebuild_never_round_trips (InputFile : string) (C : Z)
  (fs : Fs.t) (data : list byte) :
  0 < C ->
  data <> [] ->
  Fs.read InputFile fs = Some data ->
  Fs.read (part_name InputFile 0) fs = None ->
  exists self fs' ps,
    FileSpliter.split_then_rebuild InputFile "b" C fs =
      FileSpliter.Val (false, self, fs') /\
    Fs.read (InputFile ++ ".00") fs' = Some [] /\
    Fs.read InputFile fs' = Some data /\
    map (fun k => Fs.read (part_name InputFile k) fs') (ordinals (List.length ps))
      = map Some ps /\
    concat ps = data.
Proof.
  intros Hc Hdata Hread Hnone. unfold FileSpliter.split_then_rebuild.
  destruct (prepare_and_split_writes InputFile "b" C fs data (or_introl eq_refl)
              Hc Hdata Hread) as [self [HS [_ Hst]]].
  rewrite HS. cbn [FileSpliter.and_then].
  unfold static in Hst. injection Hst as _ _ Ht Ho _ Hp.
  unfold FileSpliter.Rebuild.
  change (FileSpliter.Parts (FileSpliter.set_CurrentPartNo 0 self))
    with (FileSpliter.Parts self).
  rewrite Hp.
  assert (Hk : FileSpliter.known_type (FileSpliter.set_CurrentPartNo 0 self) = true).
  { unfold FileSpliter.known_type.
    change (FileSpliter.FileType (FileSpliter.set_CurrentPartNo 0 self))
      with (FileSpliter.FileType self).
    now rewrite Ht. }
  rewrite Hk. cbn [negb FileSpliter.Rebuild_loop].
  cbn [FileSpliter.CurrentPartNo FileSpliter.OutFile FileSpliter.set_CurrentPartNo].
  pose proof (Plan_expectedCount_positive (Z.of_nat (List.length data)) C) as Hpos.
  destruct (Z.ltb_spec 0 (Plan_expectedCount (Z.of_nat (List.length data)) C)) as [_|Hle];
    [|lia].
  rewrite Ho. fold (part_name InputFile 0).
  assert (Hout : forall k, InputFile ++ ".00" <> part_name InputFile k).
  { intros k E. symmetry in E. revert E. apply part_name_not_OutFile. }
  assert (Hgone : Fs.read (part_name InputFile 0)
                    (Fs.write (InputFile ++ ".00") []
                       (write_parts InputFile 1 (chunks_of C data) fs)) = None).
  { rewrite read_write_other by apply Hout.
    rewrite read_write_parts_other; [exact Hnone|].
    intros j Hj E. apply part_name_inj in E. lia. }
  unfold Fs.isfile. rewrite Hgone. cbn [andb negb].
  eexists. eexists. exists (chunks_of C data). split; [reflexivity|].
  split; [apply read_write_same|]. split; [|split].
  - rewrite read_write_other by (apply append_neq_self; discriminate).
    rewrite read_write_parts_other; [exact Hread|].
    intros j _. apply part_name_not_InputFile.
  - unfold ordinals. apply read_in_order. intros i Hi.
    rewrite read_write_other by apply Hout.
    change (Z.of_nat 1) with 1. now apply read_write_parts.
  - unfold chunks_of. apply pieces_concat; lia.
Qed.

(** X6's witness: the three-byte file of [abc_fs]. *)
Lemma Split_then_Rebuild_never_round_trips_witness :
  exists self fs' ps,
    FileSpliter.split_then_rebuild "/d/a.bin" "b" 2 abc_fs =
      FileSpliter.Val (false, self, fs') /\
    Fs.read ("/d/a.bin" ++ ".00") fs' = Some [] /\
    Fs.read "/d/a.bin" fs' = Some [x01; x02; x03] /\
    map (fun k => Fs.read (part_name "/d/a.bin" k) fs') (ordinals (List.length ps))
      = map Some ps /\
    concat ps = [x01; x02; x03].
Proof.
  apply (Split_then_Rebuild_never_round_trips "/d/a.bin" 2 abc_fs [x01; x02; x03]).
  - reflexivity.
  - discriminate.
  - reflexivity.
  - reflexivity.
Defined.

(** X7.  An empty input is never split: whatever the chunk size,
    [Prepare] followed by [Split] returns [False] and leaves the file
    system as it was. *)
Theorem empty_input_is_not_split (InputFile FileType : string) (C : Z) (fs : Fs.t) :
  Fs.read InputFile fs = Some [] ->
  exists self,
    FileSpliter.prepare_and_split InputFile FileType C fs = FileSpliter.Val (false, self, fs).
Proof.
  intros Hread.
  assert (Hprep : exists p,
            FileSpliter.Prepare (FileSpliter.init InputFile FileType C) fs =
              FileSpliter.Val
                (true,
                 FileSpliter.set_Parts (Some p)
                   (FileSpliter.set_FileSize 0 (FileSpliter.init InputFile FileType C)),
                 fs)).
  { unfold FileSpliter.Prepare, Fs.getsize.
    change (FileSpliter.InputFile (FileSpliter.init InputFile FileType C)) with InputFile.
    rewrite Hread.
    change (Z.of_nat (List.length (@nil byte))) with 0.
    change (FileSpliter.CHUNK_SIZE (FileSpliter.set_FileSize 0
              (FileSpliter.init InputFile FileType C))) with C.
    change (FileSpliter.FileSize (FileSpliter.set_FileSize 0
              (FileSpliter.init InputFile FileType C))) with 0.
    destruct (Z.geb_spec C 0) as [Hge|Hlt].
    - eexists. reflexivity.
    - rewrite true_div_inject_Z by lia. eexists. reflexivity. }
  destruct Hprep as [p Hprep].
  unfold FileSpliter.prepare_and_split. rewrite Hprep.
  cbn [FileSpliter.and_then]. unfold FileSpliter.Split.
  change (FileSpliter.FileSize (FileSpliter.set_Parts (Some p)
            (FileSpliter.set_FileSize 0 (FileSpliter.init InputFile FileType C)))) with 0.
  cbn [Z.eqb orb]. eexists. reflexivity.
Qed.

(** X7's witness. *)
Lemma empty_input_is_not_split_witness :
  exists self,
    FileSpliter.prepare_and_split "/d/e.bin" "b" 2 empty_fs =
      FileSpliter.Val (false, self, empty_fs).
Proof.
  apply (empty_input_is_not_split "/d/e.bin" "b" 2 empty_fs). reflexivity.
Defined.

(** ** The helpers of the script *)

Section HelperFacts.

Variable E : Env.

Lemma set_log_same (s : State) : set_log (log s) s = s.
Proof. destruct s. reflexivity. Qed.

Lemma critical_failure_result {A} (text : string) (s : State) :
  @critical_failure A text s = Halt (set_log (log s ++ critical_lines text) s).
Proof.
  unfold critical_failure, critical_lines.
  cbv [bind logging modify sys_exit]. cbn [log set_log].
  rewrite <- !app_assoc. reflexivity.
Qed.


Lemma check_disk_space_result (s : State) :
  check_disk_space E s = Ok tt (set_log (log s ++ disk_check_lines E s) s).
Proof.
  unfold check_disk_space, disk_check_lines. cbv [try_except bind get lift_opt].
  destruct (free_percent E (currentpath s)) as [p|].
  - cbv [ret]. destruct (p <? 10).
    + rewrite critical_failure_result. cbv [logging modify]. cbn [log set_log].
      unfold unable_to_check. rewrite <- app_assoc. reflexivity.
    + rewrite app_nil_r, set_log_same. reflexivity.
  - cbv [raise logging modify]. reflexivity.
Qed.


Lemma rclone_file_result (s : State) :
  rclone_file E s =
    match run E (issued s) (copy_command E s) with
    | Returned status => Ok tt (copied E s status)
    | Failed => Halt (set_log (log s ++ critical_lines (copy_failed_text E s)) s)
    end.
Proof.
  unfold rclone_file, launch, copy_command, copied, copy_failed_text.
  cbv [bind get try_except].
  destruct (run E (issued s) _) as [status|].
  - cbv [modify ret logging]. destruct (status =? 0); reflexivity.
  - cbv [raise]. now rewrite critical_failure_result.
Qed.






Lemma ensure_rclone_folder_result (s : State) :
  exists fs', ensure_rclone_folder s = Ok tt (set_fs fs' s) /\
              Fs.files fs' = Fs.files (fs s) /\
              Fs.exists_ (rclone_folder_with_chunks s) fs' = true /\
              (forall d, Fs.isdir d (fs s) = true -> Fs.isdir d fs' = true).
Proof.
  unfold ensure_rclone_folder. cbv [bind get].
  destruct (Fs.exists_ (rclone_folder_with_chunks s) (fs s)) eqn:He; cbn [negb].
  - exists (fs s). cbv [ret]. split; [|split; [reflexivity|]].
    + f_equal. destruct s. reflexivity.
    + split; [exact He | intros d H; exact H].
  - eexists. cbv [modify]. split; [reflexivity|]. split; [reflexivity|].
    unfold Fs.exists_, Fs.isdir, Fs.makedirs. cbn [Fs.dirs]. split.
    + rewrite existsb_app. cbn [existsb]. rewrite String.eqb_refl.
      now rewrite !orb_true_r.
    + intros d H. rewrite existsb_app, H. reflexivity.
Qed.


Lemma flush_chunk_any_outcome (c : string) (s : State) :
  Fs.isfile (Py.join (rclone_folder_with_chunks s) c) (fs s) = true ->
  exists s',
    flush_chunk E c s = Ok tt s' /\
    fs s' = Fs.mk (Fs.delete (Py.join (rclone_folder_with_chunks s) c) (Fs.files (fs s)))
              (Fs.dirs (fs s)) /\
    chunks_to_skip s' = (chunks_to_skip s ++ [c])%list /\
    rclone_folder_with_chunks s' = rclone_folder_with_chunks s /\
    (List.length (issued s') + List.length (log s') =
     List.length (issued s) + List.length (log s) + 1)%nat.
Proof.
  intros Hfile. unfold flush_chunk, launch, Fs.remove.
  cbv [bind get lift_opt]. rewrite Hfile.
  cbv [ret modify try_except raise logging]. cbn [issued set_fs].
  destruct (run E (issued s) _) as [status|]; eexists; (split; [reflexivity|]);
    cbn [fs issued log chunks_to_skip rclone_folder_with_chunks
         set_fs set_issued set_log set_chunks_to_skip];
    repeat split; rewrite length_app; cbn [List.length]; lia.
Qed.

(** X12.  The flushing of a chunk set cannot be stopped by the remote
    side: whatever the remote deletes do, come back with any exit status
    or fail to launch, the loop over chunks that are all in the chunk
    folder returns with every chunk removed from the folder and every
    chunk on the skip list, and each chunk has left either a launched
    command or a line in the log. *)
Theorem flushing_never_stops (chunks : list string) :
  forall s : State,
    NoDup (map (Py.join (rclone_folder_with_chunks s)) chunks) ->
    (forall c, In c chunks ->
       Fs.isfile (Py.join (rclone_folder_with_chunks s) c) (fs s) = true) ->
    exists s',
      for_each chunks (flush_chunk E) s = Ok tt s' /\
      (forall c, In c chunks ->
         Fs.isfile (Py.join (rclone_folder_with_chunks s) c) (fs s') = false) /\
      (forall q, Fs.isfile q (fs s) = false -> Fs.isfile q (fs s') = false) /\
      chunks_to_skip s' = (chunks_to_skip s ++ chunks)%list /\
      (List.length (issued s') + List.length (log s') =
       List.length (issued s) + List.length (log s) + List.length chunks)%nat.
Proof.
  induction chunks as [|c chunks IH]; intros s Hnd Hfiles.
  - exists s. cbn [for_each List.length]. rewrite app_nil_r. unfold ret.
    repeat split; try reflexivity; [intros c [] | intros q H; exact H | lia].
  - rewrite for_each_cons.
    destruct (flush_chunk_any_outcome c s (Hfiles c (or_introl eq_refl)))
      as [s1 [H1 [Hfs1 [Hskip1 [Hdir1 Hcount1]]]]].
    rewrite H1.
    cbn [map] in Hnd. apply NoDup_cons_iff in Hnd. destruct Hnd as [Hnotin Hnd].
    set (p := Py.join (rclone_folder_with_chunks s) c) in *.
    assert (Hother : forall q, q <> p -> Fs.isfile q (fs s1) = Fs.isfile q (fs s)).
    { intros q Hq. unfold Fs.isfile, Fs.read. rewrite Hfs1. cbn [Fs.files].
      now rewrite lookup_delete_other by congruence. }
    assert (Hgone : Fs.isfile p (fs s1) = false).
    { unfold Fs.isfile, Fs.read. rewrite Hfs1. cbn [Fs.files].
      now rewrite lookup_delete_same. }
    destruct (IH s1) as [s' [Hs' [Hrm [Hkeep [Hskip Hcount]]]]].
    + now rewrite Hdir1.
    + intros c' Hc'. rewrite Hdir1, Hother; [apply Hfiles; now right|].
      intros Heq. apply Hnotin. fold p. rewrite <- Heq. now apply in_map.
    + exists s'. split; [exact Hs'|]. rewrite Hdir1 in Hrm. repeat split.
      * intros c' [<-|Hc']; [now apply Hkeep | now apply Hrm].
      * intros q Hq. apply Hkeep.
        destruct (String.eqb_spec q p) as [->|Hne]; [exact Hgone | now rewrite Hother].
      * rewrite Hskip, Hskip1, <- app_assoc. reflexivity.
      * cbn [List.length]. lia.
Qed.

(** The loop body on a file that is neither skipped nor missing. *)
Lemma process_file_unfold (f : string) (s0 : State) (size : Z) :
  skipped E (begin_file f s0) = false ->
  Fs.getsize (Py.join (currentpath s0) f) (fs s0) = Some size ->
  process_file E f s0 =
    bind (check_previously_chunked E) (fun _ => transfer_by_size E)
      (set_file_size size (begin_file f s0)).
Proof.
  intros Hskip Hsize. unfold process_file.
  unfold bind at 1. unfold modify at 1. unfold bind at 1. unfold get at 1.
  rewrite Hskip.
  change (fs (begin_file f s0)) with (fs s0).
  change (path_and_file (begin_file f s0)) with (Py.join (currentpath s0) f).
  unfold Fs.isfile. unfold Fs.getsize in Hsize.
  destruct (Fs.read (Py.join (currentpath s0) f) (fs s0)) as [content|] eqn:Hread;
    [|discriminate].
  cbn [negb]. unfold bind at 1. unfold lift_opt, Fs.getsize. rewrite Hread.
  injection Hsize as Hsize. rewrite Hsize. unfold ret at 1.
  unfold bind at 1. unfold modify at 1. reflexivity.
Qed.

Lemma check_previously_chunked_absent (s : State) :
  Fs.isfile (Py.join (rclone_folder_with_chunks s) (file s) ++ ".001") (fs s) = false ->
  check_previously_chunked E s = Ok tt s.
Proof.
  intros H. unfold check_previously_chunked. cbv [bind get]. now rewrite H.
Qed.

(** X13.  A file smaller than [max_single_file_size] that is not skipped
    and has no first chunk lying in the chunk folder is handed whole to
    [rclone copy], once, from its own folder: that is the only command
    launched, and the file system is left as it was. *)
Theorem small_file_is_copied_whole (f : string) (s0 : State) (size status : Z) :
  skipped E (begin_file f s0) = false ->
  Fs.getsize (Py.join (currentpath s0) f) (fs s0) = Some size ->
  size < max_single_file_size E ->
  Fs.isfile (Py.join (Py.join (currentpath s0) ".rclone") f ++ ".001") (fs s0) = false ->
  run E (issued s0) (whole_file_copy E s0 f) = Returned status ->
  exists s',
    process_file E f s0 = Ok tt s' /\
    issued s' = (issued s0 ++ [whole_file_copy E s0 f])%list /\
    fs s' = fs s0 /\
    (status = 0 -> log s' = log s0).
Proof.
  intros Hskip Hsize Hsmall Hgate Hrun.
  rewrite (process_file_unfold f s0 size Hskip Hsize).
  unfold bind at 1. rewrite check_previously_chunked_absent by exact Hgate.
  unfold transfer_by_size. unfold bind at 1. unfold get at 1.
  change (file_size (set_file_size size (begin_file f s0))) with size.
  destruct (Z.gtb_spec size (max_single_file_size E)) as [|_]; [lia|].
  destruct (Z.ltb_spec size (max_single_file_size E)) as [_|]; [|lia].
  unfold bind at 1. unfold modify at 1.
  rewrite rclone_file_result.
  match goal with
  | |- context [run E ?h ?c] =>
      change (run E h c) with (run E (issued s0) (whole_file_copy E s0 f))
  end.
  rewrite Hrun. eexists. split; [reflexivity|].
  unfold copied. destruct (Z.eqb_spec status 0) as [->|Hne].
  - repeat split.
  - repeat split. intros H. congruence.
Qed.




End HelperFacts.

(** ** The destination path on Mac OS *)

Lemma darwin_dest_path_fold (root cur : string) :
  darwin_dest_path root cur = fold_left (dest_step root cur) (seq 0 (String.length cur)) "".
Proof. reflexivity. Qed.

Lemma slice1_at (a : string) (c : ascii) (b : string) :
  Py.slice1 (a ++ String c b) (String.length a) = String c "".
Proof.
  unfold Py.slice1. induction a as [|x a IH]; [destruct b; reflexivity | exact IH].
Qed.

Lemma slice1_inside (a b : string) :
  forall i, (i < String.length a)%nat -> Py.slice1 (a ++ b) i = Py.slice1 a i.
Proof.
  unfold Py.slice1. induction a as [|x a IH]; intros i Hi; [simpl in Hi; lia|].
  destruct i as [|i].
  - cbn [String.append substring]. f_equal. destruct a, b; reflexivity.
  - cbn [String.append substring]. apply IH. simpl in Hi. lia.
Qed.

Lemma slice1_beyond (a : string) :
  forall i, (String.length a <= i)%nat -> Py.slice1 a i = "".
Proof.
  unfold Py.slice1. induction a as [|x a IH]; intros i Hi.
  - destruct i; reflexivity.
  - destruct i as [|i]; [simpl in Hi; lia|]. cbn [substring]. apply IH. simpl in Hi. lia.
Qed.

Lemma startswith_append (a b : string) :
  a <> "" -> Py.startswith (a ++ b) "/" = Py.startswith a "/".
Proof.
  unfold Py.startswith. destruct a as [|x a]; [congruence|]. intros _.
  cbn [String.append String.prefix].
  destruct (ascii_dec "/" x); [destruct a, b|]; reflexivity.
Qed.

Lemma first_not_slash (c : ascii) (t : string) :
  Py.startswith (String c t) "/" = false -> Py.startswith (String c "") "/" = false.
Proof.
  unfold Py.startswith. cbn [String.prefix].
  destruct (ascii_dec "/" c); [destruct t; discriminate | reflexivity].
Qed.

(** While the two paths agree nothing is collected. *)
Lemma dest_fold_common (root tail : string) (n : nat) :
  (n <= String.length root)%nat ->
  fold_left (dest_step root (root ++ tail)) (seq 0 n) "" = "".
Proof.
  induction n as [|n IH]; intros Hn; [reflexivity|].
  rewrite seq_S, fold_left_app, IH by lia. cbn [fold_left Nat.add].
  unfold dest_step. rewrite slice1_inside by lia. now rewrite String.eqb_refl.
Qed.

(** Past the end of [root] every character is collected, as long as what
    has been collected does not begin with a slash. *)
Lemma dest_fold_tail (root : string) (tail : string) :
  forall (pre acc : string),
    (String.length root <= String.length pre)%nat ->
    Py.startswith acc "/" = false ->
    (acc = "" -> Py.startswith tail "/" = false) ->
    fold_left (dest_step root (pre ++ tail))
      (seq (String.length pre) (String.length tail)) acc = acc ++ tail.
Proof.
  induction tail as [|c tail IH]; intros pre acc Hlen Hacc Hfirst.
  - cbn [String.length seq fold_left]. clear. induction acc; [reflexivity | simpl; now f_equal].
  - cbn [String.length seq fold_left].
    assert (Hstep : dest_step root (pre ++ String c tail) acc (String.length pre)
                    = acc ++ String c "").
    { unfold dest_step. rewrite slice1_at, slice1_beyond by exact Hlen.
      cbn [String.eqb].
      destruct acc as [|x acc].
      - cbn [String.append]. now rewrite (first_not_slash c tail (Hfirst eq_refl)).
      - rewrite startswith_append by discriminate. now rewrite Hacc. }
    rewrite Hstep.
    replace (pre ++ String c tail) with ((pre ++ String c "") ++ tail)
      by (rewrite append_assoc; reflexivity).
    replace (S (String.length pre)) with (String.length (pre ++ String c ""))
      by (rewrite length_append; simpl; lia).
    rewrite IH.
    + rewrite append_assoc. reflexivity.
    + rewrite length_append. lia.
    + destruct acc as [|x acc].
      * cbn [String.append]. exact (first_not_slash c tail (Hfirst eq_refl)).
      * rewrite startswith_append by discriminate. exact Hacc.
    + intros H. destruct acc; discriminate.
Qed.

(** X15.  On Mac OS the destination path of a folder is what its path
    has beyond the root: empty for the root itself, and for the folder
    [root/rest] the path [rest] without the slash that joins them
    (for a [rest] that is not empty and does not begin with a slash). *)
Theorem darwin_destination_is_path_below_root (E : Env) (s : State) :
  platform_darwin E = true ->
  (currentpath s = root_dir E ->
   determine_dest_path_on_remote_service E s = "") /\
  (forall rest : string,
     rest <> "" ->
     Py.startswith rest "/" = false ->
     currentpath s = root_dir E ++ "/" ++ rest ->
     determine_dest_path_on_remote_service E s = rest).
Proof.
  intros Hd. unfold determine_dest_path_on_remote_service. rewrite Hd.
  split; [intros -> | intros rest Hne Hrest ->]; rewrite darwin_dest_path_fold.
  - replace (root_dir E) with (root_dir E ++ "") at 2
      by (clear; induction (root_dir E); [reflexivity | simpl; now f_equal]).
    apply dest_fold_common. lia.
  - set (root := root_dir E).
    rewrite length_append. rewrite seq_app, fold_left_app.
    rewrite dest_fold_common by lia. cbn [Nat.add].
    destruct rest as [|c rest]; [congruence|].
    cbn [String.append String.length seq fold_left].
    assert (H1 : dest_step root (root ++ String "/" (String c rest)) "" (String.length root)
                 = "/").
    { unfold dest_step. rewrite slice1_at, slice1_beyond by lia. reflexivity. }
    rewrite H1.
    assert (H2 : dest_step root (root ++ String "/" (String c rest)) "/"
                   (S (String.length root)) = String c "").
    { unfold dest_step.
      replace (root ++ String "/" (String c rest))
        with ((root ++ "/") ++ String c rest) by (rewrite append_assoc; reflexivity).
      replace (S (String.length root)) with (String.length (root ++ "/"))
        by (rewrite length_append; simpl; lia).
      rewrite slice1_at, slice1_beyond by (rewrite length_append; lia).
      reflexivity. }
    rewrite H2.
    replace (root ++ String "/" (String c rest))
      with ((root ++ String "/" (String c "")) ++ rest)
      by (rewrite append_assoc; reflexivity).
    replace (S (S (String.length root)))
      with (String.length (root ++ String "/" (String c "")))
      by (rewrite length_append; simpl; lia).
    rewrite dest_fold_tail.
    + reflexivity.
    + rewrite length_append. lia.
    + exact (first_not_slash c rest Hrest).
    + discriminate.
Qed.

(** ** The progress bar *)





(** ** Zipping and chunking an oversized file *)

Lemma bind_modify {A} (g : State -> State) (k : unit -> M A) (s : State) :
  bind (modify g) k s = k tt (g s).
Proof. reflexivity. Qed.

Lemma bind_get {A} (k : State -> M A) (s : State) : bind get k s = k s s.
Proof. reflexivity. Qed.

Lemma bind_ok {A B} (m : M A) (k : A -> M B) (s s1 : State) (a : A) :
  m s = Ok a s1 -> bind m k s = k a s1.
Proof. intros H. unfold bind. now rewrite H. Qed.

Lemma read_write_parts_ext (f q : string) (ps : list (list byte)) :
  forall (k : Z) (fs1 fs2 : Fs.t),
    Fs.read q fs1 = Fs.read q fs2 ->
    Fs.read q (write_parts f k ps fs1) = Fs.read q (write_parts f k ps fs2).
Proof.
  induction ps as [|p ps IH]; intros k fs1 fs2 H; [exact H|].
  cbn [write_parts]. apply IH.
  destruct (String.eqb_spec (part_name f k) q) as [<-|Hne].
  - now rewrite !read_write_same.
  - now rewrite !read_write_other by exact Hne.
Qed.

Lemma dirs_write_parts (f : string) (ps : list (list byte)) :
  forall (k : Z) (fs : Fs.t), Fs.dirs (write_parts f k ps fs) = Fs.dirs fs.
Proof.
  induction ps as [|p ps IH]; intros k fs; [reflexivity|].
  cbn [write_parts]. now rewrite IH.
Qed.

Lemma dir_prefix_length (a : string) :
  (String.length a <= String.length (Py.dir_prefix a))%nat.
Proof.
  unfold Py.dir_prefix. destruct (_ || _); [lia|]. rewrite length_append. lia.
Qed.

Lemma join_chunk_folder (cur : string) :
  Py.join cur ".rclone" = Py.dir_prefix cur ++ ".rclone".
Proof. reflexivity. Qed.

(** A path in the chunk folder is at least as long as the path of the
    same name in the folder itself. *)
Lemma join_chunk_folder_length (cur f : string) :
  (String.length (Py.join cur f) <= String.length (Py.join (Py.join cur ".rclone") f))%nat.
Proof.
  unfold Py.join at 1 2. destruct (Py.startswith f "/"); [lia|].
  rewrite !length_append.
  pose proof (dir_prefix_length (Py.join cur ".rclone")) as H.
  rewrite join_chunk_folder in H at 1. rewrite length_append in H. lia.
Qed.

Lemma source_not_archive (s0 : State) (f : string) :
  Py.join (currentpath s0) f <> temporary_archive s0 f.
Proof.
  intros H. apply (f_equal String.length) in H.
  unfold temporary_archive, chunk_folder in H. rewrite length_append in H.
  pose proof (join_chunk_folder_length (currentpath s0) f). simpl in H. lia.
Qed.

Lemma source_not_part (s0 : State) (f : string) (k : Z) :
  Py.join (currentpath s0) f <> part_name (temporary_archive s0 f) k.
Proof.
  intros H. apply (f_equal String.length) in H.
  unfold part_name, temporary_archive, chunk_folder in H. rewrite !length_append in H.
  pose proof (join_chunk_folder_length (currentpath s0) f). simpl in H. lia.
Qed.

(** *** Names in and beside the chunk folder *)

Lemma append_nil_r (a : string) : a ++ "" = a.
Proof. induction a as [|x a IH]; [reflexivity | simpl; now rewrite IH]. Qed.

















(** The first chunk the main loop looks for is neither the archive nor
    one of its parts. *)
Lemma first_chunk_not_archive (s0 : State) (f : string) :
  Py.join (chunk_folder s0) f ++ ".001" <> temporary_archive s0 f.
Proof.
  unfold temporary_archive. intros H. apply append_inv_head in H. discriminate.
Qed.

Lemma first_chunk_not_part (s0 : State) (f : string) (k : Z) :
  Py.join (chunk_folder s0) f ++ ".001" <> part_name (temporary_archive s0 f) k.
Proof.
  unfold part_name, temporary_archive. rewrite !append_assoc.
  intros H. apply append_inv_head in H. discriminate.
Qed.

Section ChunkingFacts.

Variable E : Env.

Lemma set_fs_set_fs (a b : Fs.t) (s : State) : set_fs a (set_fs b s) = set_fs a s.
Proof. reflexivity. Qed.

Lemma zipfiles_result (s : State) (content : list byte) :
  Fs.read (path_and_file s) (fs s) = Some content ->
  exists fs1,
    zipfiles E s =
      Ok tt (set_fs (Fs.write (outputZIP s) (zip_store E (path_and_file s) content) fs1)
               (set_log (log s ++ disk_check_lines E s) s)) /\
    Fs.files fs1 = Fs.files (fs s) /\
    Fs.exists_ (rclone_folder_with_chunks s) fs1 = true.
Proof.
  intros Hread. unfold zipfiles. rewrite (bind_ok _ _ _ _ _ (check_disk_space_result E s)).
  rewrite bind_get. unfold try_except.
  set (s1 := set_log (log s ++ disk_check_lines E s) s).
  destruct (ensure_rclone_folder_result s1) as [fs1 [He [Hfiles [Hex _]]]].
  rewrite (bind_ok _ _ _ _ _ He). rewrite bind_get.
  change (path_and_file (set_fs fs1 s1)) with (path_and_file s).
  change (fs (set_fs fs1 s1)) with fs1.
  assert (Hread1 : Fs.read (path_and_file s) fs1 = Some content).
  { unfold Fs.read in *. change (fs s1) with (fs s) in Hfiles. now rewrite Hfiles. }
  rewrite Hread1. cbv [lift_opt bind ret modify].
  exists fs1. split; [reflexivity|]. split; [exact Hfiles | exact Hex].
Qed.

Lemma chunk_zip_file_result (s : State) (data : list byte) :
  Fs.read (outputZIP s) (fs s) = Some data ->
  data <> [] ->
  0 < max_single_file_size E ->
  exists fs1,
    chunk_zip_file E s =
      Ok tt (set_fs (write_parts (outputZIP s) 1 (chunks_of (max_single_file_size E) data) fs1)
               (set_log (log s ++ disk_check_lines E s) s)) /\
    Fs.files fs1 = Fs.files (fs s) /\
    Fs.exists_ (rclone_folder_with_chunks s) fs1 = true.
Proof.
  intros Hread Hdata Hc. unfold chunk_zip_file.
  rewrite (bind_ok _ _ _ _ _ (check_disk_space_result E s)).
  rewrite bind_get. unfold try_except.
  set (s1 := set_log (log s ++ disk_check_lines E s) s).
  destruct (ensure_rclone_folder_result s1) as [fs1 [He [Hfiles [Hex _]]]].
  rewrite (bind_ok _ _ _ _ _ He). rewrite bind_get.
  change (outputZIP (set_fs fs1 s1)) with (outputZIP s).
  change (fs (set_fs fs1 s1)) with fs1.
  assert (Hread1 : Fs.read (outputZIP s) fs1 = Some data).
  { unfold Fs.read in *. change (fs s1) with (fs s) in Hfiles. now rewrite Hfiles. }
  destruct (prepare_and_split_writes (outputZIP s) "b" (max_single_file_size E) fs1 data
              (or_introl eq_refl) Hc Hdata Hread1) as [self [HS _]].
  rewrite HS. cbv [modify].
  exists fs1. split; [reflexivity|]. split; [exact Hfiles | exact Hex].
Qed.

Lemma keeps_fs_scan : keeps fs (scan_for_chunks E).
Proof. unfold scan_for_chunks, scan_candidate. keeps_auto. Qed.

Lemma keeps_fs_rclone_chunks : keeps fs (rclone_chunks E).
Proof. unfold rclone_chunks, rclone_chunk, rclone_file, launch. keeps_auto. Qed.

(** Once the chunks are made, the scan and the transfer leave the file
    system alone, however they end. *)
Lemma fs_after_chunking (m : M unit) (s s2 : State) :
  m s = bind (scan_for_chunks E) (fun _ => ret tt) s2 ->
  fs (final (bind m (fun _ => rclone_chunks E) s)) = fs s2.
Proof.
  intros H. unfold bind at 1. rewrite H. unfold bind.
  pose proof (keeps_fs_scan s2) as Hs.
  destruct (scan_for_chunks E s2) as [a s3|s3|s3]; cbn [final] in *; try exact Hs.
  unfold ret. now rewrite keeps_fs_rclone_chunks.
Qed.

(** The second stage on a file that is no archive yet: the file is
    stored in an archive in the chunk folder, the archive is cut into
    parts, and the archive is removed. *)
Lemma create_chunks_again_zips (s : State) (content : list byte) :
  Py.endswith (file s) ".zip" = false ->
  Fs.read (path_and_file s) (fs s) = Some content ->
  0 < max_single_file_size E ->
  zip_store E (path_and_file s) content <> [] ->
  exists s2,
    create_chunks_again E s = bind (scan_for_chunks E) (fun _ => ret tt) s2 /\
    Fs.read (Py.join (rclone_folder_with_chunks s) (file s) ++ ".zip") (fs s2) = None /\
    (forall q, q <> Py.join (rclone_folder_with_chunks s) (file s) ++ ".zip" ->
       Fs.read q (fs s2) =
       Fs.read q (write_parts (Py.join (rclone_folder_with_chunks s) (file s) ++ ".zip") 1
                    (chunks_of (max_single_file_size E)
                       (zip_store E (path_and_file s) content)) (fs s))) /\
    (exists lines,
       set_fs (fs s) s2 =
       set_log lines
         (set_outputZIP (Py.join (rclone_folder_with_chunks s) (file s) ++ ".zip")
            (set_file_is_too_large 1 s))) /\
    (Fs.isfile (rclone_folder_with_chunks s) (fs s) = false ->
     rclone_folder_with_chunks s <> Py.join (rclone_folder_with_chunks s) (file s) ++ ".zip" ->
     Fs.isdir (rclone_folder_with_chunks s) (fs s2) = true).
Proof.
  intros Hzip Hread Hc Hne.
  set (out := Py.join (rclone_folder_with_chunks s) (file s) ++ ".zip").
  set (zip := zip_store E (path_and_file s) content) in *.
  unfold create_chunks_again. rewrite bind_modify, bind_get.
  change (file (set_file_is_too_large 1 s)) with (file s). rewrite Hzip. cbn [negb].
  match goal with
  | |- exists s2, bind ?A _ ?s' = _ /\ _ =>
      assert (HA : exists s2,
                A s' = Ok tt s2 /\
                Fs.read out (fs s2) = None /\
                (forall q, q <> out ->
                   Fs.read q (fs s2) =
                   Fs.read q (write_parts out 1 (chunks_of (max_single_file_size E) zip)
                                (fs s))) /\
                (exists lines,
                   set_fs (fs s) s2 =
                   set_log lines (set_outputZIP out (set_file_is_too_large 1 s))) /\
                (Fs.isfile (rclone_folder_with_chunks s) (fs s) = false ->
                 rclone_folder_with_chunks s <> out ->
                 Fs.isdir (rclone_folder_with_chunks s) (fs s2) = true))
  end.
  { rewrite bind_modify.
    set (sa := set_outputZIP _ (set_file_is_too_large 1 s)).
    destruct (zipfiles_result sa content Hread) as [fs1 [Hz [Hf1 _]]].
    rewrite (bind_ok _ _ _ _ _ Hz).
    change (outputZIP sa) with out. change (path_and_file sa) with (path_and_file s).
    fold zip.
    set (sz := set_fs (Fs.write out zip fs1) _).
    destruct (chunk_zip_file_result sz zip) as [fs2 [Hch [Hf2 Hex2]]].
    { apply read_write_same. }
    { exact Hne. }
    { exact Hc. }
    rewrite (bind_ok _ _ _ _ _ Hch). rewrite bind_get.
    change (outputZIP sz) with out.
    set (sc := set_fs _ (set_log _ sz)).
    change (outputZIP sc) with out.
    change (fs sc) with (write_parts out 1 (chunks_of (max_single_file_size E) zip) fs2).
    change (fs sz) with (Fs.write out zip fs1) in Hf2.
    change (fs sa) with (fs s) in Hf1.
    assert (H2 : forall q, Fs.read q fs2 = Fs.read q (Fs.write out zip fs1)).
    { intros q. unfold Fs.read. now rewrite Hf2. }
    assert (H1 : forall q, Fs.read q fs1 = Fs.read q (fs s)).
    { intros q. unfold Fs.read. now rewrite Hf1. }
    assert (Hout : Fs.read out (write_parts out 1 (chunks_of (max_single_file_size E) zip) fs2)
                   = Some zip).
    { rewrite read_write_parts_other.
      - rewrite H2. apply read_write_same.
      - intros j _. apply part_name_not_InputFile. }
    unfold Fs.remove, Fs.isfile. rewrite Hout. cbv [lift_opt bind ret modify].
    eexists. split; [reflexivity|]. cbn [fs set_fs]. split; [|split; [|split]].
    - apply lookup_delete_same.
    - intros q Hq. unfold Fs.read at 1. cbn [Fs.files].
      rewrite lookup_delete_other by congruence.
      change (Fs.lookup q (Fs.files ?x)) with (Fs.read q x).
      apply read_write_parts_ext. rewrite H2, read_write_other by congruence. apply H1.
    - eexists. reflexivity.
    - intros Hfile Hd. unfold Fs.isdir. cbn [Fs.dirs]. rewrite dirs_write_parts.
      change (rclone_folder_with_chunks sz) with (rclone_folder_with_chunks s) in Hex2.
      unfold Fs.exists_ in Hex2. unfold Fs.isfile in Hex2, Hfile.
      rewrite H2, read_write_other, H1 in Hex2 by congruence.
      destruct (Fs.read (rclone_folder_with_chunks s) (fs s)); [discriminate | exact Hex2]. }
  destruct HA as [s2 [HA Hrest]].
  exists s2. rewrite (bind_ok _ _ _ _ _ HA). split; [reflexivity | exact Hrest].
Qed.

(** X18.  An oversized file that is no [.zip] archive and has no first
    chunk in the chunk folder (a folder, or not there yet: no regular
    file lies at its path, which [open] would not get past) is stored in
    an archive in the chunk folder, the archive is cut into parts of at
    most [max_single_file_size] bytes, and the archive is removed again:
    when the loop body is over, however the scan and the transfer that
    follow have ended, the parts [1 .. n] of the archive lie in the chunk
    folder, put end to end they are the archive, the archive itself is
    gone, and the source file and every other file are as they were.  In
    particular the first chunk [<file>.001] the loop body looks for at
    its head is still not there, the parts being named
    [<file>.zip.001 ...]: the next pass will find the file not chunked
    yet. *)
Theorem oversized_file_is_zipped_and_chunked (f : string) (s0 : State)
  (content : list byte) :
  skipped E (begin_file f s0) = false ->
  Py.endswith f ".zip" = false ->
  Fs.read (Py.join (currentpath s0) f) (fs s0) = Some content ->
  0 < max_single_file_size E < Z.of_nat (List.length content) ->
  Fs.isfile (Py.join (chunk_folder s0) f ++ ".001") (fs s0) = false ->
  Fs.isfile (chunk_folder s0) (fs s0) = false ->
  zip_store E (Py.join (currentpath s0) f) content <> [] ->
  exists ps,
    map (fun k => Fs.read (part_name (temporary_archive s0 f) k)
                    (fs (final (process_file E f s0))))
      (ordinals (List.length ps)) = map Some ps /\
    concat ps = zip_store E (Py.join (currentpath s0) f) content /\
    Z.of_nat (List.length ps) =
      Plan_expectedCount
        (Z.of_nat (List.length (zip_store E (Py.join (currentpath s0) f) content)))
        (max_single_file_size E) /\
    (forall p, In p ps -> 1 <= Z.of_nat (List.length p) <= max_single_file_size E) /\
    Fs.read (temporary_archive s0 f) (fs (final (process_file E f s0))) = None /\
    Fs.read (Py.join (currentpath s0) f) (fs (final (process_file E f s0))) = Some content /\
    Fs.isfile (Py.join (chunk_folder s0) f ++ ".001") (fs (final (process_file E f s0)))
      = false /\
    (forall q,
       q <> temporary_archive s0 f ->
       (forall k, 1 <= k <= Z.of_nat (List.length ps) ->
                  q <> part_name (temporary_archive s0 f) k) ->
       Fs.read q (fs (final (process_file E f s0))) = Fs.read q (fs s0)).
Proof.
  intros Hskip Hzip Hread [Hc Hbig] Hgate _ Hne.
  set (zip := zip_store E (Py.join (currentpath s0) f) content) in *.
  set (out := temporary_archive s0 f).
  set (C := max_single_file_size E) in *.
  assert (Hsz : Fs.getsize (Py.join (currentpath s0) f) (fs s0)
                = Some (Z.of_nat (List.length content))).
  { unfold Fs.getsize. now rewrite Hread. }
  set (sA := set_file_size (Z.of_nat (List.length content)) (begin_file f s0)).
  destruct (create_chunks_again_zips sA content Hzip Hread Hc Hne)
    as [s2 [Hcr [Hnone [Hreads _]]]].
  change (Py.join (rclone_folder_with_chunks sA) (file sA) ++ ".zip") with out in *.
  change (path_and_file sA) with (Py.join (currentpath s0) f) in Hreads.
  change (fs sA) with (fs s0) in Hreads. fold zip C in Hreads.
  assert (Hfinal : fs (final (process_file E f s0)) = fs s2).
  { rewrite (process_file_unfold E f s0 _ Hskip Hsz). fold sA.
    rewrite (bind_ok _ _ _ _ _ (check_previously_chunked_absent E sA Hgate)).
    unfold transfer_by_size. rewrite bind_get.
    change (file_size sA) with (Z.of_nat (List.length content)).
    change (file_already_chunked_verified sA) with 0.
    destruct (Z.gtb_spec (Z.of_nat (List.length content)) (max_single_file_size E));
      [|unfold C in Hbig; lia].
    change (0 <? 3) with true. cbn iota.
    now apply fs_after_chunking. }
  rewrite Hfinal.
  assert (Hparts : forall q,
            (forall k, 1 <= k <= Z.of_nat (List.length (chunks_of C zip)) ->
                       q <> part_name out k) ->
            Fs.read q (write_parts out 1 (chunks_of C zip) (fs s0)) = Fs.read q (fs s0)).
  { intros q Hq. apply read_write_parts_other. intros j Hj Heq.
    apply (Hq (1 + j)); [lia | now symmetry]. }
  exists (chunks_of C zip). repeat split.
  - unfold ordinals. apply read_in_order. intros i Hi.
    rewrite Hreads by apply part_name_not_InputFile.
    change (Z.of_nat 1) with 1. now apply read_write_parts.
  - unfold chunks_of. apply pieces_concat; lia.
  - now apply chunks_of_count.
  - apply In_nth_error in H. destruct H as [i Hi]. unfold chunks_of in Hi.
    apply pieces_nth in Hi; [|lia|lia]. destruct Hi as [-> Hp].
    destruct (firstn _ _); [congruence | simpl; lia].
  - apply In_nth_error in H. destruct H as [i Hi]. unfold chunks_of in Hi.
    apply pieces_nth in Hi; [|lia|lia]. destruct Hi as [-> _].
    rewrite length_firstn. lia.
  - exact Hnone.
  - rewrite Hreads by apply source_not_archive.
    rewrite Hparts; [exact Hread|]. intros k _. apply source_not_part.
  - unfold Fs.isfile. rewrite Hreads by apply first_chunk_not_archive.
    rewrite Hparts by (intros k _; apply first_chunk_not_part). exact Hgate.
  - intros q Hq Hk. rewrite Hreads by exact Hq. now apply Hparts.
Qed.










End ChunkingFacts.

(** ** A tree of small files *)

Section WalkFacts.

Variable E : Env.

Lemma whole_file_copy_ext (s s' : State) (f : string) :
  currentpath s' = currentpath s -> whole_file_copy E s' f = whole_file_copy E s f.
Proof.
  intros H. unfold whole_file_copy, determine_dest_path_on_remote_service. now rewrite H.
Qed.

Lemma process_small_file (f : string) (s : State) (size : Z) :
  skipped E (begin_file f s) = false ->
  Fs.getsize (Py.join (currentpath s) f) (fs s) = Some size ->
  size < max_single_file_size E ->
  Fs.isfile (Py.join (Py.join (currentpath s) ".rclone") f ++ ".001") (fs s) = false ->
  (forall h c, run E h c <> Failed) ->
  exists s',
    process_file E f s = Ok tt s' /\
    issued s' = (issued s ++ [whole_file_copy E s f])%list /\
    fs s' = fs s /\
    currentpath s' = currentpath s /\
    chunks_to_skip s' = chunks_to_skip s.
Proof.
  intros Hskip Hsize Hsmall Hgate Hrun.
  rewrite (process_file_unfold E f s size Hskip Hsize).
  rewrite (bind_ok _ _ _ _ _
             (check_previously_chunked_absent E (set_file_size size (begin_file f s)) Hgate)).
  unfold transfer_by_size. rewrite bind_get.
  change (file_size (set_file_size size (begin_file f s))) with size.
  destruct (Z.gtb_spec size (max_single_file_size E)) as [|_]; [lia|].
  destruct (Z.ltb_spec size (max_single_file_size E)) as [_|]; [|lia].
  rewrite bind_modify, rclone_file_result.
  match goal with
  | |- context [run E ?h ?c] => destruct (run E h c) as [status|] eqn:Hr
  end.
  - eexists. split; [reflexivity|]. unfold copied.
    destruct (status =? 0); repeat split.
  - exfalso. exact (Hrun _ _ Hr).
Qed.

(** The loop over the files of one folder. *)
Lemma small_files_loop (cur : string) (files : list string) :
  forall s : State,
    currentpath s = cur ->
    chunks_to_skip s = [] ->
    fnmatch E cur "*.bundle/*" = false ->
    Forall (small_file E (fs s) cur) files ->
    (forall h c, run E h c <> Failed) ->
    exists s',
      for_each files (process_file E) s = Ok tt s' /\
      issued s' = (issued s ++ map (whole_file_copy E s) files)%list /\
      fs s' = fs s /\
      currentpath s' = cur /\
      chunks_to_skip s' = [].
Proof.
  induction files as [|f files IH]; intros s Hcur Hnone Hb Hall Hrun.
  - exists s. cbn [for_each map]. rewrite app_nil_r. unfold ret. repeat split; assumption.
  - apply Forall_cons_iff in Hall. destruct Hall as [[Hext [[size [Hsz Hlt]] Hgate]] Hall].
    rewrite for_each_cons.
    destruct (process_small_file f s size) as [s1 [H1 [Hi1 [Hf1 [Hc1 Hk1]]]]];
      try assumption.
    + unfold skipped.
      change (file (begin_file f s)) with f.
      change (currentpath (begin_file f s)) with (currentpath s).
      change (chunks_to_skip (begin_file f s)) with (chunks_to_skip s).
      rewrite Hext, Hcur, Hb, Hnone. reflexivity.
    + now rewrite Hcur.
    + now rewrite Hcur.
    + rewrite H1.
      destruct (IH s1) as [s' [H' [Hi' [Hf' [Hc' Hk']]]]]; try assumption.
      * now rewrite Hc1.
      * now rewrite Hk1.
      * now rewrite Hf1.
      * exists s'. split; [exact H'|]. rewrite Hi', Hi1, Hf', Hf1.
        cbn [map]. rewrite <- app_assoc. cbn [app].
        rewrite (map_ext (whole_file_copy E s1) (whole_file_copy E s))
          by (intros x; now apply whole_file_copy_ext).
        repeat split; assumption.
Qed.

(** X20.  A tree of small files is mirrored file by file.  With the
    finishing hour not reached, when every folder [os.walk] yields is
    neither a chunk folder nor inside a bundle, every file in it is there,
    smaller than
    [max_single_file_size], not left out by its extension and without a
    first chunk in the chunk folder, and no launch raises, the main loop
    returns having launched one [rclone copy] per file, of the file
    itself to the destination of its folder, in the order of the walk,
    and nothing else; the local files are untouched. *)
Theorem tree_of_small_files_is_copied_file_by_file (walk : list (string * list string)) :
  forall s0 : State,
    Forall (fun entry => plain_folder E (fst entry) /\
                         Forall (small_file E (fs s0) (fst entry)) (snd entry)) walk ->
    (forall h c, run E h c <> Failed) ->
    exists s',
      main E walk s0 = Ok tt s' /\
      issued s' = (issued s0 ++ flat_map (folder_copies E s0) walk)%list /\
      fs s' = fs s0.
Proof.
  induction walk as [|[cur files] walk IH]; intros s0 Hall Hrun.
  - exists s0. cbn [flat_map]. rewrite app_nil_r. repeat split.
  - apply Forall_cons_iff in Hall. cbn [fst snd] in Hall.
    destruct Hall as [[[Hr Hb] Hfiles] Hall].
    unfold main. rewrite for_each_cons. cbn beta iota. unfold process_folder at 1.
    rewrite !bind_modify. rewrite Hr.
    set (s1 := set_chunks_to_skip [] (set_currentpath cur s0)).
    destruct (small_files_loop cur files s1 eq_refl eq_refl Hb Hfiles Hrun)
      as [s2 [H2 [Hi2 [Hf2 _]]]].
    rewrite H2. fold (main E walk).
    change (fs s1) with (fs s0) in Hf2. change (issued s1) with (issued s0) in Hi2.
    destruct (IH s2) as [s' [H' [Hi' Hf']]].
    + rewrite Hf2. exact Hall.
    + exact Hrun.
    + exists s'. split; [exact H'|]. split; [|now rewrite Hf', Hf2].
      rewrite Hi', Hi2. cbn [flat_map]. rewrite <- app_assoc. reflexivity.
Qed.

Lemma launch_copy_keeps_deletes (src dest : string) :
  keeps deletes_launched (launch E (RcloneCopy src dest)).
Proof.
  intros s. unfold launch. cbv [bind get].
  destruct (run E (issued s) _); [|reflexivity].
  cbv [modify ret final]. unfold deletes_launched. cbn [issued set_issued].
  rewrite filter_app. cbn. now rewrite app_nil_r.
Qed.

Lemma transfer_by_size_keeps_deletes : keeps deletes_launched (transfer_by_size E).
Proof.
  unfold transfer_by_size, create_chunks_again, zipfiles, chunk_zip_file, check_disk_space,
    ensure_rclone_folder, scan_for_chunks, scan_candidate, rclone_chunks, rclone_chunk,
    rclone_file.
  keeps_auto; apply launch_copy_keeps_deletes.
Qed.

(** X22.  Remote deletes come from the flushing of chunks alone: for a
    file without a first chunk [<file>.001] in the chunk folder, whatever
    its size and whatever else the loop body does (skip it, copy it, zip
    and chunk it, exit), no [rclone deletefile] is launched. *)
Theorem no_first_chunk_no_remote_delete (f : string) (s0 : State) :
  Fs.isfile (Py.join (chunk_folder s0) f ++ ".001") (fs s0) = false ->
  deletes_launched (final (process_file E f s0)) = deletes_launched s0.
Proof.
  intros Hgate.
  destruct (skipped E (begin_file f s0)) eqn:Hs.
  - unfold process_file. rewrite bind_modify, bind_get, Hs. reflexivity.
  - destruct (Fs.getsize (Py.join (currentpath s0) f) (fs s0)) as [size|] eqn:Hg.
    + rewrite (process_file_unfold E f s0 size Hs Hg).
      rewrite (bind_ok _ _ _ _ _
                 (check_previously_chunked_absent E (set_file_size size (begin_file f s0))
                    Hgate)).
      apply (transfer_by_size_keeps_deletes (set_file_size size (begin_file f s0))).
    + unfold process_file. rewrite bind_modify, bind_get, Hs.
      change (path_and_file (begin_file f s0)) with (Py.join (currentpath s0) f).
      change (fs (begin_file f s0)) with (fs s0).
      unfold Fs.getsize in Hg. unfold Fs.isfile.
      destruct (Fs.read (Py.join (currentpath s0) f) (fs s0)); [discriminate|].
      reflexivity.
Qed.

End WalkFacts.

(** ** Witnesses of the further properties *)



(** X12's witness: the three chunks of [chunked_fs], with a remote side
    that cannot be reached. *)
Lemma flushing_never_stops_witness :
  exists s',
    for_each three_chunks (flush_chunk (demo_env 10 Failed)) chunked_scanned_state
      = Ok tt s' /\
    (forall c, In c three_chunks ->
       Fs.isfile (Py.join (rclone_folder_with_chunks chunked_scanned_state) c) (fs s')
         = false) /\
    (forall q, Fs.isfile q (fs chunked_scanned_state) = false ->
               Fs.isfile q (fs s') = false) /\
    chunks_to_skip s' = (chunks_to_skip chunked_scanned_state ++ three_chunks)%list /\
    (List.length (issued s') + List.length (log s') =
     List.length (issued chunked_scanned_state) + List.length (log chunked_scanned_state)
     + List.length three_chunks)%nat.
Proof.
  apply (flushing_never_stops (demo_env 10 Failed) three_chunks chunked_scanned_state).
  - vm_compute. repeat (constructor; [simpl; intuition discriminate|]). constructor.
  - intros c Hc. simpl in Hc. destruct Hc as [<-|[<-|[<-|[]]]]; reflexivity.
Defined.

(** X13's witness: a file of 9 bytes under a threshold of 10. *)
Lemma small_file_is_copied_whole_witness :
  exists s',
    process_file (demo_env 10 (Returned 0)) "movie.bin" (start_state (fresh_fs 9) "/data")
      = Ok tt s' /\
    issued s' = (issued (start_state (fresh_fs 9) "/data")
                 ++ [whole_file_copy (demo_env 10 (Returned 0))
                       (start_state (fresh_fs 9) "/data") "movie.bin"])%list /\
    fs s' = fs (start_state (fresh_fs 9) "/data") /\
    (0 = 0 -> log s' = log (start_state (fresh_fs 9) "/data")).
Proof.
  apply (small_file_is_copied_whole (demo_env 10 (Returned 0)) "movie.bin"
           (start_state (fresh_fs 9) "/data") 9 0).
  - reflexivity.
  - reflexivity.
  - reflexivity.
  - reflexivity.
  - reflexivity.
Defined.


(** X15's witness: the root folder and a folder two levels below it. *)
Lemma darwin_destination_is_path_below_root_witness :
  determine_dest_path_on_remote_service mac_env (start_state (fresh_fs 9) "/data") = "" /\
  determine_dest_path_on_remote_service mac_env (start_state (fresh_fs 9) "/data/a/b")
    = "a/b".
Proof.
  split.
  - apply (proj1 (darwin_destination_is_path_below_root mac_env
                    (start_state (fresh_fs 9) "/data") eq_refl)).
    reflexivity.
  - apply (proj2 (darwin_destination_is_path_below_root mac_env
                    (start_state (fresh_fs 9) "/data/a/b") eq_refl) "a/b").
    + discriminate.
    + reflexivity.
    + reflexivity.
Defined.

(** X16's witness: the three chunks of [chunked_fs], with remote deletes
    that come back with exit status 1. *)
Lemma flush_loop_witness :
  exists s',
    for_each three_chunks (flush_chunk (demo_env 10 (Returned 1))) chunked_scanned_state
      = Ok tt s' /\
    (forall c, In c three_chunks ->
       Fs.isfile (Py.join (rclone_folder_with_chunks chunked_scanned_state) c) (fs s')
         = false) /\
    (forall q, Fs.isfile q (fs chunked_scanned_state) = false ->
               Fs.isfile q (fs s') = false) /\
    issued s' = (issued chunked_scanned_state
                 ++ map (chunk_delete (demo_env 10 (Returned 1)) chunked_scanned_state)
                      three_chunks)%list /\
    chunks_to_skip s' = (chunks_to_skip chunked_scanned_state ++ three_chunks)%list /\
    log s' = log chunked_scanned_state.
Proof.
  apply (flush_loop (demo_env 10 (Returned 1)) three_chunks chunked_scanned_state).
  - vm_compute. repeat (constructor; [simpl; intuition discriminate|]). constructor.
  - intros c Hc. simpl in Hc. destruct Hc as [<-|[<-|[<-|[]]]]; reflexivity.
  - intros h c. discriminate.
Defined.

(** X17's witness: the chunks [Split] cuts at a threshold of 10. *)
Lemma full_size_chunks_never_verify_witness :
  verdict (final (verify_chunk_integrity (demo_env 10 (Returned 0)) split_at_10_state))
    = INVALID.
Proof.
  apply (full_size_chunks_never_verify (demo_env 10 (Returned 0)) split_at_10_state
           "movie.zip.001").
  - reflexivity.
  - reflexivity.
  - reflexivity.
  - reflexivity.
Defined.

(** X18's witness: the 25-byte file of [fresh_fs 25] under a threshold of
    10; its archive has 29 bytes. *)
Lemma oversized_file_is_zipped_and_chunked_witness :
  exists ps,
    map (fun k => Fs.read (part_name (temporary_archive (start_state (fresh_fs 25) "/data")
                                        "movie.bin") k)
                    (fs (final (process_file (demo_env 10 (Returned 0)) "movie.bin"
                                  (start_state (fresh_fs 25) "/data")))))
      (ordinals (List.length ps)) = map Some ps /\
    concat ps = zip_store (demo_env 10 (Returned 0))
                  (Py.join (currentpath (start_state (fresh_fs 25) "/data")) "movie.bin")
                  (bytes 25) /\
    Z.of_nat (List.length ps) =
      Plan_expectedCount
        (Z.of_nat (List.length
           (zip_store (demo_env 10 (Returned 0))
              (Py.join (currentpath (start_state (fresh_fs 25) "/data")) "movie.bin")
              (bytes 25))))
        (max_single_file_size (demo_env 10 (Returned 0))) /\
    (forall p, In p ps ->
       1 <= Z.of_nat (List.length p) <= max_single_file_size (demo_env 10 (Returned 0))) /\
    Fs.read (temporary_archive (start_state (fresh_fs 25) "/data") "movie.bin")
      (fs (final (process_file (demo_env 10 (Returned 0)) "movie.bin"
                    (start_state (fresh_fs 25) "/data")))) = None /\
    Fs.read (Py.join (currentpath (start_state (fresh_fs 25) "/data")) "movie.bin")
      (fs (final (process_file (demo_env 10 (Returned 0)) "movie.bin"
                    (start_state (fresh_fs 25) "/data")))) = Some (bytes 25) /\
    Fs.isfile (Py.join (chunk_folder (start_state (fresh_fs 25) "/data")) "movie.bin" ++ ".001")
      (fs (final (process_file (demo_env 10 (Returned 0)) "movie.bin"
                    (start_state (fresh_fs 25) "/data")))) = false /\
    (forall q,
       q <> temporary_archive (start_state (fresh_fs 25) "/data") "movie.bin" ->
       (forall k, 1 <= k <= Z.of_nat (List.length ps) ->
                  q <> part_name (temporary_archive (start_state (fresh_fs 25) "/data")
                                    "movie.bin") k) ->
       Fs.read q (fs (final (process_file (demo_env 10 (Returned 0)) "movie.bin"
                               (start_state (fresh_fs 25) "/data"))))
       = Fs.read q (fs (start_state (fresh_fs 25) "/data"))).
Proof.
  apply (oversized_file_is_zipped_and_chunked (demo_env 10 (Returned 0)) "movie.bin"
           (start_state (fresh_fs 25) "/data") (bytes 25)).
  - reflexivity.
  - reflexivity.
  - reflexivity.
  - split; reflexivity.
  - reflexivity.
  - reflexivity.
  - discriminate.
Defined.


(** X20's witness: the two folders of [tree_fs]. *)
Lemma tree_of_small_files_is_copied_file_by_file_witness :
  exists s',
    main (demo_env 10 (Returned 0)) tree_walk (start_state tree_fs "/data") = Ok tt s' /\
    issued s' =
      (issued (start_state tree_fs "/data")
       ++ flat_map (folder_copies (demo_env 10 (Returned 0)) (start_state tree_fs "/data"))
            tree_walk)%list /\
    fs s' = fs (start_state tree_fs "/data").
Proof.
  apply (tree_of_small_files_is_copied_file_by_file (demo_env 10 (Returned 0)) tree_walk
           (start_state tree_fs "/data")).
  - repeat constructor; try reflexivity.
    + exists 3. split; reflexivity.
    + exists 5. split; reflexivity.
  - intros h c. discriminate.
Defined.


(** X22's witness: the oversized file of [fresh_fs 25], which is zipped,
    chunked and sent. *)
Lemma no_first_chunk_no_remote_delete_witness :
  deletes_launched (final (process_file (demo_env 10 (Returned 0)) "movie.bin"
                             (start_state (fresh_fs 25) "/data")))
  = deletes_launched (start_state (fresh_fs 25) "/data").
Proof.
  apply (no_first_chunk_no_remote_delete (demo_env 10 (Returned 0)) "movie.bin"
           (start_state (fresh_fs 25) "/data")).
  reflexivity.
Defined.

